(** * Hydroponic dosing controller: state manager and pump engine

    A shallow embedding of [state_machine.cpp] / [state_machine.h] and
    [pump.cpp] / [pump.h], with the calls that [main.cpp] makes to
    them, and the properties of the dosing core that are checked
    against it.

    Conventions of the embedding:
    - [float] is IEEE-754 binary32 (precision 24, emax 128), taken from
      the Standard Library's executable specification [SpecFloat]; each
      operation of a source expression is one operation of the format,
      rounded to nearest even (no fused multiply-add, no wider
      intermediate precision).  [spec_float] also contains mantissa and
      exponent pairs that are not binary32 data; [valid] selects the
      data, and the properties that depend on the order of all floats
      are stated for valid ones.
    - [uint32_t] and [uint8_t] values are [Z] with the wrap-around
      written out ([u32_sub], [u8_incr]).
    - The global objects [state_manager], [pumps], [pump_system] and the
      LEDC duty registers form one [world] record that is passed
      explicitly; functions returning [bool] return [bool * world].
    - [millis()] is an argument [now]: one call of a core function runs
      well inside one clock tick, so all reads of the clock inside one
      call see the same value.
    - [Serial.printf] output is not part of the state. *)

From Stdlib Require Import ZArith Bool List Lia Zpower.
From Stdlib Require Import Floats.SpecFloat.
Import ListNotations.

Local Open Scope Z_scope.

(** ** Binary32 arithmetic *)

Module F32.

Definition prec : Z := 24.
Definition emax : Z := 128.

Definition float : Type := spec_float.

Definition add : float -> float -> float := SFadd prec emax.
Definition sub : float -> float -> float := SFsub prec emax.
Definition mul : float -> float -> float := SFmul prec emax.
Definition div : float -> float -> float := SFdiv prec emax.
(** [abs] on a [float] (the sign is cleared; NaN stays NaN). *)
Definition abs : float -> float := SFabs.
Definition ltb : float -> float -> bool := SFltb.
Definition leb : float -> float -> bool := SFleb.
Definition gtb (x y : float) : bool := SFltb y x.

Definition is_nan (x : float) : bool :=
  match x with S754_nan => true | _ => false end.

(** Conversion of an integer to [float] (exact for |z| < 2^24). *)
Definition of_Z (z : Z) : float := binary_normalize prec emax z 0 false.

(** A decimal literal [n/d] with the [f] suffix: the binary32 value
    nearest to the quotient. *)
Definition lit (n d : Z) : float := div (of_Z n) (of_Z d).

(** Conversion of a [float] to an integer: truncation toward zero.
    NaN and the infinities have no defined conversion in C++; they
    are mapped to 0 here.  Dose amounts and flow rates are clamped
    before they are converted, so the infinities do not get here; a
    NaN passes the clamp unchanged, and for it the converted value in
    a property below is the 0 of this model. *)
Definition trunc (x : float) : Z :=
  match x with
  | S754_finite s m e =>
      cond_Zopp s
        (match e with
         | Z0 => Zpos m
         | Zpos p => Zpos m * 2 ^ Zpos p
         | Zneg p => Zpos m / 2 ^ Zpos p
         end)
  | _ => 0
  end.

(** The Arduino [constrain(amt, low, high)] macro:
    [((amt)<(low)?(low):((amt)>(high)?(high):(amt)))]. *)
Definition constrain (amt low high : float) : float :=
  if ltb amt low then low else if gtb amt high then high else amt.

End F32.

Definition float : Type := F32.float.

(** ** Fixed-width unsigned integers *)

Definition u32_sub (a b : Z) : Z := (a - b) mod 2 ^ 32.
Definition u8_incr (a : Z) : Z := (a + 1) mod 2 ^ 8.
Definition to_uint8 (z : Z) : Z := z mod 2 ^ 8.
Definition to_uint32 (z : Z) : Z := z mod 2 ^ 32.

(** ** Enumerations of [state_machine.h] and [pump.h] *)

Module SystemState.
Inductive t : Set :=
| STARTUP | INITIALIZING | MONITORING | DOSING
| CALIBRATING | ERROR | MAINTENANCE | SHUTDOWN.

Definition eqb (a b : t) : bool :=
  match a, b with
  | STARTUP, STARTUP | INITIALIZING, INITIALIZING
  | MONITORING, MONITORING | DOSING, DOSING
  | CALIBRATING, CALIBRATING | ERROR, ERROR
  | MAINTENANCE, MAINTENANCE | SHUTDOWN, SHUTDOWN => true
  | _, _ => false
  end.
End SystemState.

Module PumpState.
Inductive t : Set :=
| IDLE | PRIMING | DOSING | COOLING_DOWN | ERROR | MAINTENANCE.

Definition eqb (a b : t) : bool :=
  match a, b with
  | IDLE, IDLE | PRIMING, PRIMING | DOSING, DOSING
  | COOLING_DOWN, COOLING_DOWN | ERROR, ERROR
  | MAINTENANCE, MAINTENANCE => true
  | _, _ => false
  end.
End PumpState.

Module SensorState.
Inductive t : Set :=
| INITIALIZING | WARMING_UP | READING | FILTERING | READY | ERROR.

Definition eqb (a b : t) : bool :=
  match a, b with
  | INITIALIZING, INITIALIZING | WARMING_UP, WARMING_UP
  | READING, READING | FILTERING, FILTERING
  | READY, READY | ERROR, ERROR => true
  | _, _ => false
  end.
End SensorState.

Module CalibrationState.
Inductive t : Set := IDLE | ACTIVE.
End CalibrationState.

(** [enum class PumpId { PH_UP = 0, PH_DOWN, NUTRIENT_A, NUTRIENT_B,
    COUNT = 4 }]. *)
Inductive PumpId : Set := PH_UP | PH_DOWN | NUTRIENT_A | NUTRIENT_B | COUNT.

(** [static_cast<int>(pump_id)]. *)
Definition pump_index (p : PumpId) : Z :=
  match p with
  | PH_UP => 0 | PH_DOWN => 1 | NUTRIENT_A => 2 | NUTRIENT_B => 3 | COUNT => 4
  end.

(** The loop [for (int i = 0; i < COUNT; i++)] visits these, in order. *)
Definition all_pumps : list PumpId := [PH_UP; PH_DOWN; NUTRIENT_A; NUTRIENT_B].

(** ** Arrays of four elements

    [T x[4]] indexed by a pump.  Index 4 ([COUNT]) is past the end: the
    code guards every access with [pump_index >= COUNT], so the read
    chosen for it here is never observed, and a write there is dropped. *)

Record arr4 (A : Type) : Type := Arr4 { at0 : A; at1 : A; at2 : A; at3 : A }.
Arguments Arr4 {A} _ _ _ _.
Arguments at0 {A} _.
Arguments at1 {A} _.
Arguments at2 {A} _.
Arguments at3 {A} _.

Definition get4 {A} (v : arr4 A) (i : PumpId) : A :=
  match i with
  | PH_UP => at0 v | PH_DOWN => at1 v | NUTRIENT_A => at2 v
  | NUTRIENT_B => at3 v | COUNT => at3 v
  end.

Definition set4 {A} (v : arr4 A) (i : PumpId) (x : A) : arr4 A :=
  match i with
  | PH_UP => Arr4 x (at1 v) (at2 v) (at3 v)
  | PH_DOWN => Arr4 (at0 v) x (at2 v) (at3 v)
  | NUTRIENT_A => Arr4 (at0 v) (at1 v) x (at3 v)
  | NUTRIENT_B => Arr4 (at0 v) (at1 v) (at2 v) x
  | COUNT => v
  end.

Definition fill4 {A} (x : A) : arr4 A := Arr4 x x x x.

(** ** Records *)

(** [struct state_manager_t]. *)
Record state_manager_t : Type := Build_state_manager {
  system_state : SystemState.t;
  pump_states : arr4 PumpState.t;
  sensor_state : SensorState.t;
  calibration_state : CalibrationState.t;
  system_state_entry_time : Z;
  pump_state_entry_times : arr4 Z;
  sensor_state_entry_time : Z;
  calibration_state_entry_time : Z;
  debug_logging_enabled : bool
}.

(** [struct pid_controller_t]. *)
Record pid_controller_t : Type := Build_pid_controller {
  kp : float;
  ki : float;
  kd : float;
  target_value : float;
  integral : float;
  last_error : float;
  last_dose_time : Z;
  doses_this_hour : Z;
  hour_start : Z;
  total_ml_dosed : float
}.

(** [struct pump_t]. *)
Record pump_t : Type := Build_pump {
  gpio_pin : Z;
  pwm_channel : Z;
  controller : pid_controller_t;
  running : bool;
  start_time : Z;
  run_duration_ms : Z;
  target_pwm_duty : Z
}.

(** [pump_system_t]. *)
Record pump_system_t : Type := Build_pump_system {
  auto_ph_control : bool;
  auto_ec_control : bool;
  initialized : bool
}.

(** The globals of the two translation units, and the LEDC peripheral:
    [ledc w pin] is the duty last written to [pin] by [ledcWrite]. *)
Record world : Type := Build_world {
  state_manager : state_manager_t;
  pumps : arr4 pump_t;
  pump_system : pump_system_t;
  ledc : Z -> Z
}.

(** ** Constants of [pump.h] and [pump.cpp] *)

Definition PUMP_MIN_FLOW_RATE : float := F32.of_Z 10.
Definition PUMP_MAX_FLOW_RATE : float := F32.of_Z 90.
Definition PUMP_DEFAULT_FLOW_RATE : float := F32.of_Z 30.

Definition PUMP_MAX_DOSES_PER_HOUR : Z := 3.
Definition PUMP_MIN_DOSE_INTERVAL : Z := 300000.
Definition PUMP_MIN_DOSE_VOLUME : float := F32.of_Z 5.
Definition PUMP_MAX_DOSE_VOLUME : float := F32.of_Z 25.
Definition PUMP_TIMEOUT_MS : Z := 600000.

Definition DEFAULT_PH_KP : float := F32.of_Z 8.
Definition DEFAULT_PH_KI : float := F32.lit 5 10.
Definition DEFAULT_PH_KD : float := F32.of_Z 2.
Definition DEFAULT_PH_TARGET : float := F32.of_Z 6.

Definition PID_INTEGRAL_MAX : float := F32.of_Z 50.
Definition PID_INTEGRAL_MIN : float := F32.of_Z (-50).

Definition kHourMs : Z := 60 * 60 * 1000.

Definition PUMP_PH_UP_PIN : Z := 11.
Definition PUMP_PH_DOWN_PIN : Z := 12.
Definition PUMP_NUTRIENT_A_PIN : Z := 13.
Definition PUMP_NUTRIENT_B_PIN : Z := 14.

(** ** Field updates *)

Definition with_system (sm : state_manager_t) (s : SystemState.t) (t : Z)
  : state_manager_t :=
  Build_state_manager s (pump_states sm) (sensor_state sm)
    (calibration_state sm) t (pump_state_entry_times sm)
    (sensor_state_entry_time sm) (calibration_state_entry_time sm)
    (debug_logging_enabled sm).

Definition with_pump (sm : state_manager_t) (i : PumpId) (s : PumpState.t)
  (t : Z) : state_manager_t :=
  Build_state_manager (system_state sm) (set4 (pump_states sm) i s)
    (sensor_state sm) (calibration_state sm) (system_state_entry_time sm)
    (set4 (pump_state_entry_times sm) i t) (sensor_state_entry_time sm)
    (calibration_state_entry_time sm) (debug_logging_enabled sm).

Definition with_sensor (sm : state_manager_t) (s : SensorState.t) (t : Z)
  : state_manager_t :=
  Build_state_manager (system_state sm) (pump_states sm) s
    (calibration_state sm) (system_state_entry_time sm)
    (pump_state_entry_times sm) t (calibration_state_entry_time sm)
    (debug_logging_enabled sm).

Definition with_controller (p : pump_t) (c : pid_controller_t) : pump_t :=
  Build_pump (gpio_pin p) (pwm_channel p) c (running p) (start_time p)
    (run_duration_ms p) (target_pwm_duty p).

Definition with_running (p : pump_t) (b : bool) : pump_t :=
  Build_pump (gpio_pin p) (pwm_channel p) (controller p) b (start_time p)
    (run_duration_ms p) (target_pwm_duty p).

Definition with_start_time (p : pump_t) (t : Z) : pump_t :=
  Build_pump (gpio_pin p) (pwm_channel p) (controller p) (running p) t
    (run_duration_ms p) (target_pwm_duty p).

Definition with_run_duration_ms (p : pump_t) (d : Z) : pump_t :=
  Build_pump (gpio_pin p) (pwm_channel p) (controller p) (running p)
    (start_time p) d (target_pwm_duty p).

Definition with_target_pwm_duty (p : pump_t) (d : Z) : pump_t :=
  Build_pump (gpio_pin p) (pwm_channel p) (controller p) (running p)
    (start_time p) (run_duration_ms p) d.

Definition with_state_manager (w : world) (sm : state_manager_t) : world :=
  Build_world sm (pumps w) (pump_system w) (ledc w).

Definition with_pumps (w : world) (ps : arr4 pump_t) : world :=
  Build_world (state_manager w) ps (pump_system w) (ledc w).

Definition with_pump_system (w : world) (s : pump_system_t) : world :=
  Build_world (state_manager w) (pumps w) s (ledc w).

(** [pumps[i] = p]. *)
Definition store_pump (w : world) (i : PumpId) (p : pump_t) : world :=
  with_pumps w (set4 (pumps w) i p).

(** [ledcWrite(pin, duty)]. *)
Definition ledcWrite (pin duty : Z) (w : world) : world :=
  Build_world (state_manager w) (pumps w) (pump_system w)
    (fun p => if p =? pin then duty else ledc w p).

(** ** [state_machine.cpp] *)

(** [is_valid_system_transition]. *)
Definition is_valid_system_transition (from to : SystemState.t) : bool :=
  match to with
  | SystemState.ERROR | SystemState.MAINTENANCE | SystemState.SHUTDOWN => true
  | _ =>
      match from with
      | SystemState.STARTUP => SystemState.eqb to SystemState.INITIALIZING
      | SystemState.INITIALIZING => SystemState.eqb to SystemState.MONITORING
      | SystemState.MONITORING =>
          SystemState.eqb to SystemState.DOSING
          || SystemState.eqb to SystemState.CALIBRATING
      | SystemState.DOSING => SystemState.eqb to SystemState.MONITORING
      | SystemState.CALIBRATING => SystemState.eqb to SystemState.MONITORING
      | SystemState.ERROR =>
          SystemState.eqb to SystemState.MONITORING
          || SystemState.eqb to SystemState.INITIALIZING
      | SystemState.MAINTENANCE => SystemState.eqb to SystemState.MONITORING
      | SystemState.SHUTDOWN => SystemState.eqb to SystemState.STARTUP
      end
  end.

(** [is_valid_pump_transition]. *)
Definition is_valid_pump_transition (from to : PumpState.t) : bool :=
  match to with
  | PumpState.IDLE | PumpState.ERROR | PumpState.MAINTENANCE => true
  | _ =>
      match from with
      | PumpState.IDLE => PumpState.eqb to PumpState.PRIMING
      | PumpState.PRIMING => PumpState.eqb to PumpState.DOSING
      | PumpState.DOSING => PumpState.eqb to PumpState.COOLING_DOWN
      | PumpState.COOLING_DOWN => PumpState.eqb to PumpState.IDLE
      | PumpState.ERROR => PumpState.eqb to PumpState.IDLE
      | PumpState.MAINTENANCE => PumpState.eqb to PumpState.IDLE
      end
  end.

(** [is_valid_sensor_transition]. *)
Definition is_valid_sensor_transition (from to : SensorState.t) : bool :=
  match to with
  | SensorState.ERROR => true
  | _ =>
      match from with
      | SensorState.INITIALIZING => SensorState.eqb to SensorState.READY
      | SensorState.WARMING_UP => SensorState.eqb to SensorState.READING
      | SensorState.READING => SensorState.eqb to SensorState.FILTERING
      | SensorState.FILTERING => SensorState.eqb to SensorState.READY
      | SensorState.READY => SensorState.eqb to SensorState.WARMING_UP
      | SensorState.ERROR =>
          SensorState.eqb to SensorState.INITIALIZING
          || SensorState.eqb to SensorState.READY
      end
  end.

(** [system_transition_to]. *)
Definition system_transition_to (sm : state_manager_t) (now : Z)
  (new_state : SystemState.t) : bool * state_manager_t :=
  let old_state := system_state sm in
  if negb (is_valid_system_transition old_state new_state) then (false, sm)
  else (true, with_system sm new_state now).

(** [system_get_state_duration_ms]. *)
Definition system_get_state_duration_ms (sm : state_manager_t) (now : Z) : Z :=
  u32_sub now (system_state_entry_time sm).

(** [pump_transition_to]. *)
Definition pump_transition_to (sm : state_manager_t) (now : Z)
  (pump_id : PumpId) (new_state : PumpState.t) : bool * state_manager_t :=
  if pump_index pump_id >=? 4 then (false, sm)
  else
    let old_state := get4 (pump_states sm) pump_id in
    if negb (is_valid_pump_transition old_state new_state) then (false, sm)
    else (true, with_pump sm pump_id new_state now).

(** [pump_get_state_duration_ms]. *)
Definition pump_get_state_duration_ms (sm : state_manager_t) (now : Z)
  (pump_id : PumpId) : Z :=
  if pump_index pump_id >=? 4 then 0
  else u32_sub now (get4 (pump_state_entry_times sm) pump_id).

(** [sensor_transition_to]. *)
Definition sensor_transition_to (sm : state_manager_t) (now : Z)
  (new_state : SensorState.t) : bool * state_manager_t :=
  let old_state := sensor_state sm in
  if negb (is_valid_sensor_transition old_state new_state) then (false, sm)
  else (true, with_sensor sm new_state now).

(** [state_machine_emergency_stop]: plain stores, no call of a
    transition function. *)
Definition state_machine_emergency_stop (sm : state_manager_t) (now : Z)
  : state_manager_t :=
  let sm1 := with_system sm SystemState.ERROR now in
  let sm2 :=
    fold_left (fun s i => with_pump s i PumpState.IDLE now) all_pumps sm1 in
  with_sensor sm2 SensorState.READY now.

(** The pump transition as seen from [pump.cpp], on the whole world. *)
Definition request_pump_transition (w : world) (now : Z) (pump_id : PumpId)
  (new_state : PumpState.t) : bool * world :=
  let '(ok, sm) := pump_transition_to (state_manager w) now pump_id new_state in
  (ok, with_state_manager w sm).

(** ** [pump.cpp] *)

(** The literals [5.2f] and [84.8f]. *)
Definition flow_5_2 : float := F32.lit 52 10.
Definition flow_84_8 : float := F32.lit 848 10.

(** [calculate_pwm_duty]. *)
Definition duty_percent_of (flow_rate_ml_per_min : float) : float :=
  F32.add (F32.of_Z 10)
    (F32.div
       (F32.mul (F32.sub flow_rate_ml_per_min flow_5_2) (F32.of_Z 90))
       flow_84_8).

Definition calculate_pwm_duty (flow_rate_ml_per_min : float) : Z :=
  let flow_rate_ml_per_min :=
    F32.constrain flow_rate_ml_per_min flow_5_2 PUMP_MAX_FLOW_RATE in
  let duty_percent := duty_percent_of flow_rate_ml_per_min in
  to_uint8
    (F32.trunc (F32.div (F32.mul duty_percent (F32.of_Z 255)) (F32.of_Z 100))).

(** The value that [calculate_pwm_duty] converts to [uint8_t]:
    [duty_percent * 255.0f / 100.0f]. *)
Definition duty_value (flow_rate_ml_per_min : float) : float :=
  F32.div
    (F32.mul (duty_percent_of flow_rate_ml_per_min) (F32.of_Z 255))
    (F32.of_Z 100).

(** The hourly-counter reset inside [can_dose_safely]. *)
Definition reset_hour (c : pid_controller_t) (now : Z) : pid_controller_t :=
  Build_pid_controller (kp c) (ki c) (kd c) (target_value c) (integral c)
    (last_error c) (last_dose_time c) 0 now (total_ml_dosed c).

(** [can_dose_safely(pump_id, &pumps[pump_id])]. *)
Definition can_dose_safely (w : world) (now : Z) (pump_id : PumpId)
  : bool * world :=
  let pump := get4 (pumps w) pump_id in
  let current_state := get4 (pump_states (state_manager w)) pump_id in
  if negb (PumpState.eqb current_state PumpState.IDLE) then (false, w)
  else if u32_sub now (last_dose_time (controller pump))
          <? PUMP_MIN_DOSE_INTERVAL then (false, w)
  else
    let w1 :=
      if u32_sub now (hour_start (controller pump)) >=? kHourMs
      then store_pump w pump_id
             (with_controller pump (reset_hour (controller pump) now))
      else w in
    let pump1 := get4 (pumps w1) pump_id in
    if doses_this_hour (controller pump1) >=? PUMP_MAX_DOSES_PER_HOUR
    then (false, w1)
    else if negb (SystemState.eqb (system_state (state_manager w1))
                    SystemState.MONITORING)
            && negb (SystemState.eqb (system_state (state_manager w1))
                       SystemState.DOSING)
    then (false, w1)
    else (true, w1).

(** The first half of [calculate_pid_dose]: the error, the integral
    after the windup clamp, and [dose_ml] before the dose limits are
    applied, i.e. [abs(output) * (volume_liters / 10.0f)]. *)
Definition pid_error (pid : pid_controller_t) (current_value : float) : float :=
  F32.sub (target_value pid) current_value.

Definition pid_integral (pid : pid_controller_t) (current_value : float)
  : float :=
  F32.constrain (F32.add (integral pid) (pid_error pid current_value))
    PID_INTEGRAL_MIN PID_INTEGRAL_MAX.

Definition pid_scaled_output (pid : pid_controller_t)
  (current_value volume_liters : float) : float :=
  let error := pid_error pid current_value in
  let integral1 := pid_integral pid current_value in
  let derivative := F32.sub error (last_error pid) in
  let output :=
    F32.add
      (F32.add (F32.mul (kp pid) error) (F32.mul (ki pid) integral1))
      (F32.mul (kd pid) derivative) in
  F32.mul (F32.abs output) (F32.div volume_liters (F32.of_Z 10)).

(** [calculate_pid_dose]: the dose and the updated controller. *)
Definition calculate_pid_dose (pid : pid_controller_t)
  (current_value volume_liters : float) : float * pid_controller_t :=
  let dose_ml := pid_scaled_output pid current_value volume_liters in
  (F32.constrain dose_ml PUMP_MIN_DOSE_VOLUME PUMP_MAX_DOSE_VOLUME,
   Build_pid_controller (kp pid) (ki pid) (kd pid) (target_value pid)
     (pid_integral pid current_value) (pid_error pid current_value)
     (last_dose_time pid) (doses_this_hour pid)
     (hour_start pid) (total_ml_dosed pid)).

(** The bookkeeping at the end of [start_pump_dose]. *)
Definition record_dose (c : pid_controller_t) (now : Z) (dose_ml : float)
  : pid_controller_t :=
  Build_pid_controller (kp c) (ki c) (kd c) (target_value c) (integral c)
    (last_error c) now (u8_incr (doses_this_hour c)) (hour_start c)
    (F32.add (total_ml_dosed c) dose_ml).

(** [(dose_ml / flow_rate) * 60000] stored into a [uint32_t], then
    capped at [PUMP_TIMEOUT_MS]. *)
Definition dose_run_duration (dose_ml flow_rate : float) : Z :=
  let d :=
    to_uint32
      (F32.trunc (F32.mul (F32.div dose_ml flow_rate) (F32.of_Z 60000))) in
  if d >? PUMP_TIMEOUT_MS then PUMP_TIMEOUT_MS else d.

(** [start_pump_dose]. *)
Definition start_pump_dose (w : world) (now : Z) (pump_id : PumpId)
  (dose_ml flow_rate : float) : bool * world :=
  if pump_index pump_id >=? pump_index COUNT then (false, w)
  else
    let current_state := get4 (pump_states (state_manager w)) pump_id in
    if negb (PumpState.eqb current_state PumpState.IDLE) then (false, w)
    else
      let w1 :=
        store_pump w pump_id
          (with_run_duration_ms (get4 (pumps w) pump_id)
             (dose_run_duration dose_ml flow_rate)) in
      let pwm_duty := calculate_pwm_duty flow_rate in
      let '(ok, w2) :=
        request_pump_transition w1 now pump_id PumpState.PRIMING in
      if negb ok then (false, w2)
      else
        let p := get4 (pumps w2) pump_id in
        let p1 := with_start_time (with_target_pwm_duty p pwm_duty) now in
        let p2 := with_controller p1 (record_dose (controller p1) now dose_ml) in
        (true, store_pump w2 pump_id p2).

(** [(uint8_t)(255 * 0.25f)]. *)
Definition priming_pwm : Z :=
  to_uint8 (F32.trunc (F32.mul (F32.of_Z 255) (F32.lit 25 100))).

(** One iteration of the loop of [pump_update]. *)
Definition pump_update_one (now : Z) (w : world) (i : PumpId) : world :=
  let pump := get4 (pumps w) i in
  let current_state := get4 (pump_states (state_manager w)) i in
  let state_duration := pump_get_state_duration_ms (state_manager w) now i in
  match current_state with
  | PumpState.IDLE =>
      let w1 := ledcWrite (gpio_pin pump) 0 w in
      store_pump w1 i (with_running (get4 (pumps w1) i) false)
  | PumpState.PRIMING =>
      if state_duration <? 2500 then
        let w1 := ledcWrite (gpio_pin pump) priming_pwm w in
        store_pump w1 i (with_running (get4 (pumps w1) i) true)
      else snd (request_pump_transition w now i PumpState.DOSING)
  | PumpState.DOSING =>
      if state_duration <? run_duration_ms pump then
        let w1 :=
          if state_duration =? 0
          then ledcWrite (gpio_pin pump) (target_pwm_duty pump) w
          else w in
        store_pump w1 i (with_running (get4 (pumps w1) i) true)
      else
        let w1 := ledcWrite (gpio_pin pump) 0 w in
        let w2 := store_pump w1 i (with_running (get4 (pumps w1) i) false) in
        snd (request_pump_transition w2 now i PumpState.COOLING_DOWN)
  | PumpState.COOLING_DOWN =>
      let w1 := ledcWrite (gpio_pin pump) 0 w in
      store_pump w1 i (with_running (get4 (pumps w1) i) false)
  | PumpState.ERROR =>
      let w1 := ledcWrite (gpio_pin pump) 0 w in
      store_pump w1 i (with_running (get4 (pumps w1) i) false)
  | PumpState.MAINTENANCE => w
  end.

(** [pump_update]. *)
Definition pump_update (w : world) (now : Z) : world :=
  if negb (initialized (pump_system w)) then w
  else fold_left (pump_update_one now) all_pumps w.

(** [pump_stop_all]. *)
Definition pump_stop_all (w : world) (now : Z) : world :=
  fold_left
    (fun w i =>
       let w1 := ledcWrite (gpio_pin (get4 (pumps w) i)) 0 w in
       let w2 := store_pump w1 i (with_running (get4 (pumps w1) i) false) in
       snd (request_pump_transition w2 now i PumpState.IDLE))
    all_pumps w.

(** [pump_ph_dose]. *)
Definition pump_ph_dose (w : world) (now : Z) (current_ph volume_liters : float)
  : bool * world :=
  if negb (initialized (pump_system w))
     || negb (auto_ph_control (pump_system w)) then (false, w)
  else if F32.ltb volume_liters (F32.of_Z 5)
          || F32.gtb volume_liters (F32.of_Z 200) then (false, w)
  else if F32.ltb current_ph (F32.of_Z 4)
          || F32.gtb current_ph (F32.of_Z 9) then (false, w)
  else
    let pump_id :=
      if F32.gtb current_ph (target_value (controller (get4 (pumps w) PH_UP)))
      then PH_DOWN else PH_UP in
    let '(ok, w1) := can_dose_safely w now pump_id in
    if negb ok then (false, w1)
    else
      let pump := get4 (pumps w1) pump_id in
      let '(dose_ml, c) :=
        calculate_pid_dose (controller pump) current_ph volume_liters in
      let w2 := store_pump w1 pump_id (with_controller pump c) in
      if F32.ltb dose_ml PUMP_MIN_DOSE_VOLUME then (false, w2)
      else start_pump_dose w2 now pump_id dose_ml PUMP_DEFAULT_FLOW_RATE.

(** The body of the loop of [pump_set_ph_target]. *)
Definition retarget (target_ph : float) (c : pid_controller_t)
  : pid_controller_t :=
  Build_pid_controller (kp c) (ki c) (kd c) target_ph (F32.of_Z 0)
    (F32.of_Z 0) (last_dose_time c) (doses_this_hour c) (hour_start c)
    (total_ml_dosed c).

(** [pump_set_ph_target]. *)
Definition pump_set_ph_target (w : world) (target_ph : float) : world :=
  let target_ph := F32.constrain target_ph (F32.of_Z 5) (F32.of_Z 8) in
  fold_left
    (fun w i =>
       let p := get4 (pumps w) i in
       store_pump w i (with_controller p (retarget target_ph (controller p))))
    all_pumps w.

(** [pump_get_ph_target]. *)
Definition pump_get_ph_target (w : world) : float :=
  target_value (controller (get4 (pumps w) PH_UP)).

(** [pump_manual_dose]. *)
Definition pump_manual_dose (w : world) (now : Z) (pump : PumpId) (ml : float)
  : bool * world :=
  if (pump_index pump >=? pump_index COUNT)
     || negb (initialized (pump_system w)) then (false, w)
  else
    let ml := F32.constrain ml PUMP_MIN_DOSE_VOLUME PUMP_MAX_DOSE_VOLUME in
    let '(ok, w1) := can_dose_safely w now pump in
    if negb ok then (false, w1)
    else start_pump_dose w1 now pump ml PUMP_DEFAULT_FLOW_RATE.

(** The PID reset of [pump_enable_auto_ph]. *)
Definition reset_pid (c : pid_controller_t) : pid_controller_t :=
  Build_pid_controller (kp c) (ki c) (kd c) (target_value c) (F32.of_Z 0)
    (F32.of_Z 0) (last_dose_time c) (doses_this_hour c) (hour_start c)
    (total_ml_dosed c).

(** [pump_enable_auto_ph]. *)
Definition pump_enable_auto_ph (w : world) (enabled : bool) : world :=
  let w1 :=
    with_pump_system w
      (Build_pump_system enabled (auto_ec_control (pump_system w))
         (initialized (pump_system w))) in
  if enabled then
    fold_left
      (fun w i =>
         let p := get4 (pumps w) i in
         store_pump w i (with_controller p (reset_pid (controller p))))
      all_pumps w1
  else w1.

(** [pump_start_manual]. *)
Definition pump_start_manual (w : world) (now : Z) (pump : PumpId)
  (ml_per_min : float) : bool * world :=
  if (pump_index pump >=? pump_index COUNT)
     || negb (initialized (pump_system w)) then (false, w)
  else
    let current_state := get4 (pump_states (state_manager w)) pump in
    if negb (PumpState.eqb current_state PumpState.IDLE) then (false, w)
    else
      let ml_per_min :=
        F32.constrain ml_per_min PUMP_MIN_FLOW_RATE PUMP_MAX_FLOW_RATE in
      let pwm_duty := calculate_pwm_duty ml_per_min in
      let w1 :=
        store_pump w pump (with_target_pwm_duty (get4 (pumps w) pump) pwm_duty) in
      let '(ok, w2) := request_pump_transition w1 now pump PumpState.DOSING in
      if negb ok then (false, w2)
      else
        let w3 := ledcWrite (gpio_pin (get4 (pumps w2) pump)) pwm_duty w2 in
        let p := get4 (pumps w3) pump in
        (true,
         store_pump w3 pump
           (with_run_duration_ms (with_start_time (with_running p true) now)
              PUMP_TIMEOUT_MS)).

(** [pump_stop_manual]. *)
Definition pump_stop_manual (w : world) (now : Z) (pump : PumpId)
  : bool * world :=
  if pump_index pump >=? pump_index COUNT then (false, w)
  else
    let w1 := ledcWrite (gpio_pin (get4 (pumps w) pump)) 0 w in
    let p := get4 (pumps w1) pump in
    let w2 :=
      store_pump w1 pump
        (with_run_duration_ms (with_start_time (with_running p false) 0) 0) in
    let current_state := get4 (pump_states (state_manager w2)) pump in
    let w3 :=
      if PumpState.eqb current_state PumpState.DOSING
         || PumpState.eqb current_state PumpState.PRIMING
      then snd (request_pump_transition w2 now pump PumpState.COOLING_DOWN)
      else snd (request_pump_transition w2 now pump PumpState.IDLE) in
    (true, w3).

(** ** Start-up values

    The default constructors of [state_manager_t], [pid_controller_t]
    and [pump_t], and [pump_init]. *)

Definition state_manager_default (now : Z) : state_manager_t :=
  Build_state_manager SystemState.STARTUP (fill4 PumpState.IDLE)
    SensorState.INITIALIZING CalibrationState.IDLE now (fill4 now) now now
    false.

Definition pid_controller_default (now : Z) : pid_controller_t :=
  Build_pid_controller DEFAULT_PH_KP DEFAULT_PH_KI DEFAULT_PH_KD
    DEFAULT_PH_TARGET (F32.of_Z 0) (F32.of_Z 0) 0 0 now (F32.of_Z 0).

Definition pump_default (now : Z) : pump_t :=
  Build_pump 0 0 (pid_controller_default now) false 0 0 0.

Definition gpio_pins : arr4 Z :=
  Arr4 PUMP_PH_UP_PIN PUMP_PH_DOWN_PIN PUMP_NUTRIENT_A_PIN PUMP_NUTRIENT_B_PIN.

(** [pump_init]. *)
Definition pump_init (w : world) (now : Z) : world :=
  let w1 :=
    fold_left
      (fun w i =>
         let p := pump_default now in
         let p1 :=
           Build_pump (get4 gpio_pins i) (pwm_channel p) (controller p)
             (running p) (start_time p) (run_duration_ms p)
             (target_pwm_duty p) in
         ledcWrite (gpio_pin p1) 0 (store_pump w i p1))
      all_pumps w in
  with_pump_system w1
    (Build_pump_system (auto_ph_control (pump_system w1))
       (auto_ec_control (pump_system w1)) true).

(** The world at boot, before [setup()] runs. *)
Definition boot_world : world :=
  Build_world (state_manager_default 0) (fill4 (pump_default 0))
    (Build_pump_system false false false) (fun _ => 0).

(** ** Sample configurations *)

(** The world after [setup()]: pumps initialised, automatic pH control
    switched on, device brought from STARTUP through INITIALIZING to
    MONITORING. *)
Definition monitoring_world : world :=
  let w := pump_enable_auto_ph (pump_init boot_world 0) true in
  let sm1 :=
    snd (system_transition_to (state_manager w) 0 SystemState.INITIALIZING) in
  let sm2 := snd (system_transition_to sm1 0 SystemState.MONITORING) in
  with_state_manager w sm2.

(** ** The rest of [state_machine.cpp] *)

Definition with_calibration (sm : state_manager_t) (s : CalibrationState.t)
  (t : Z) : state_manager_t :=
  Build_state_manager (system_state sm) (pump_states sm) (sensor_state sm) s
    (system_state_entry_time sm) (pump_state_entry_times sm)
    (sensor_state_entry_time sm) t (debug_logging_enabled sm).

(** [state_machine_init]: every entry time is stamped, logging is
    switched on, the states are those of the constructor. *)
Definition state_machine_init (sm : state_manager_t) (now : Z)
  : state_manager_t :=
  Build_state_manager (system_state sm) (pump_states sm) (sensor_state sm)
    (calibration_state sm) now (fill4 now) now now true.

(** [sensor_get_state_duration_ms]. *)
Definition sensor_get_state_duration_ms (sm : state_manager_t) (now : Z) : Z :=
  u32_sub now (sensor_state_entry_time sm).

(** [calibration_transition_to]: no validation. *)
Definition calibration_transition_to (sm : state_manager_t) (now : Z)
  (new_state : CalibrationState.t) : bool * state_manager_t :=
  (true, with_calibration sm new_state now).

(** [pump_safety_check], one iteration of its loop.  The forced stop
    of the DOSING case writes to [pumps[i].pwm_channel], where the
    other functions write to [gpio_pin]. *)
Definition pump_safety_check_one (now : Z) (w : world) (i : PumpId) : world :=
  let current_state := get4 (pump_states (state_manager w)) i in
  let state_duration := pump_get_state_duration_ms (state_manager w) now i in
  match current_state with
  | PumpState.PRIMING =>
      if state_duration >? 5000
      then snd (request_pump_transition w now i PumpState.ERROR)
      else w
  | PumpState.DOSING =>
      if state_duration >? PUMP_TIMEOUT_MS then
        let w1 := ledcWrite (pwm_channel (get4 (pumps w) i)) 0 w in
        let w2 := store_pump w1 i (with_running (get4 (pumps w1) i) false) in
        snd (request_pump_transition w2 now i PumpState.ERROR)
      else w
  | PumpState.COOLING_DOWN => w
  | PumpState.ERROR =>
      if state_duration >? 30000
      then snd (request_pump_transition w now i PumpState.IDLE)
      else w
  | _ => w
  end.

(** [pump_safety_check]. *)
Definition pump_safety_check (w : world) (now : Z) : world :=
  if negb (initialized (pump_system w)) then w
  else fold_left (pump_safety_check_one now) all_pumps w.

(** The parts of [state_machine_update], in the order of the source:
    recovery of the device from ERROR. *)
Definition error_recovery_sweep (sm : state_manager_t) (now : Z)
  : state_manager_t :=
  if SystemState.eqb (system_state sm) SystemState.ERROR then
    if system_get_state_duration_ms sm now >? 5000
    then snd (system_transition_to sm now SystemState.MONITORING)
    else sm
  else sm.

(** MAINTENANCE of the device parks the pumps. *)
Definition maintenance_sweep_one (now : Z) (sm : state_manager_t)
  (i : PumpId) : state_manager_t :=
  if negb (PumpState.eqb (get4 (pump_states sm) i) PumpState.MAINTENANCE)
     && negb (PumpState.eqb (get4 (pump_states sm) i) PumpState.IDLE)
  then snd (pump_transition_to sm now i PumpState.MAINTENANCE)
  else sm.

Definition maintenance_sweep (sm : state_manager_t) (now : Z)
  : state_manager_t :=
  if SystemState.eqb (system_state sm) SystemState.MAINTENANCE
  then fold_left (maintenance_sweep_one now) all_pumps sm
  else sm.

(** End of the cool-down and the dosing ceiling, per pump. *)
Definition timeout_sweep_one (now : Z) (sm : state_manager_t) (i : PumpId)
  : state_manager_t :=
  let sm1 :=
    if PumpState.eqb (get4 (pump_states sm) i) PumpState.COOLING_DOWN then
      if pump_get_state_duration_ms sm now i >? 300000
      then snd (pump_transition_to sm now i PumpState.IDLE)
      else sm
    else sm in
  if PumpState.eqb (get4 (pump_states sm1) i) PumpState.DOSING then
    if pump_get_state_duration_ms sm1 now i >? 600000
    then snd (pump_transition_to sm1 now i PumpState.ERROR)
    else sm1
  else sm1.

(** The sensor: state and duration are read once, before both tests. *)
Definition sensor_sweep (sm : state_manager_t) (now : Z) : state_manager_t :=
  let sensor_current_state := sensor_state sm in
  let sensor_state_duration := sensor_get_state_duration_ms sm now in
  let sm1 :=
    if SensorState.eqb sensor_current_state SensorState.ERROR then
      if sensor_state_duration >? 10000
      then snd (sensor_transition_to sm now SensorState.READY)
      else sm
    else sm in
  if SensorState.eqb sensor_current_state SensorState.WARMING_UP
     && (sensor_state_duration >? 5000)
  then snd (sensor_transition_to sm1 now SensorState.ERROR)
  else sm1.

(** [state_machine_update].  The periodic status print at its end
    writes to [Serial] only. *)
Definition state_machine_update (w : world) (now : Z) : world :=
  let sm1 := error_recovery_sweep (state_manager w) now in
  let sm2 := maintenance_sweep sm1 now in
  let sm3 := fold_left (timeout_sweep_one now) all_pumps sm2 in
  let sm4 := sensor_sweep sm3 now in
  pump_safety_check (with_state_manager w sm4) now.

(** ** The rest of [pump.cpp] *)

(** The literal [0.1f]. *)
Definition gain_0_1 : float := F32.lit 1 10.

(** The body of the loop of [pump_set_ph_pid]. *)
Definition retune (kp' ki' kd' : float) (c : pid_controller_t)
  : pid_controller_t :=
  Build_pid_controller
    (F32.constrain kp' gain_0_1 (F32.of_Z 50))
    (F32.constrain ki' (F32.of_Z 0) (F32.of_Z 5))
    (F32.constrain kd' (F32.of_Z 0) (F32.of_Z 10))
    (target_value c) (F32.of_Z 0) (last_error c) (last_dose_time c)
    (doses_this_hour c) (hour_start c) (total_ml_dosed c).

(** [pump_set_ph_pid]. *)
Definition pump_set_ph_pid (w : world) (kp' ki' kd' : float) : world :=
  fold_left
    (fun w i =>
       let p := get4 (pumps w) i in
       store_pump w i (with_controller p (retune kp' ki' kd' (controller p))))
    all_pumps w.

(** [pump_get_ph_pid]: the three values written through the pointers. *)
Definition pump_get_ph_pid (w : world) : float * float * float :=
  let c := controller (get4 (pumps w) PH_UP) in (kp c, ki c, kd c).

(** The body of the loop of [pump_reset_counters]. *)
Definition reset_counters (c : pid_controller_t) (now : Z)
  : pid_controller_t :=
  Build_pid_controller (kp c) (ki c) (kd c) (target_value c) (F32.of_Z 0)
    (F32.of_Z 0) (last_dose_time c) 0 now (total_ml_dosed c).

(** [pump_reset_counters]. *)
Definition pump_reset_counters (w : world) (now : Z) : world :=
  fold_left
    (fun w i =>
       let p := get4 (pumps w) i in
       store_pump w i (with_controller p (reset_counters (controller p) now)))
    all_pumps w.

(** ** Callers in [main.cpp]

    The state-machine and pump calls of [setup()] and [loop()], in the
    order of the source.  Each call reads the clock on its own, so a
    sequence of calls takes one time per call; the prints and the
    communication and calibration calls between them are left out. *)

(** The automatic dosing step of [loop()]:
    [system_transition_to(DOSING); pump_ph_dose(..);
     system_transition_to(MONITORING);]. *)
Definition loop_auto_ph_dose (w : world) (t1 t2 t3 : Z) (ph volume : float)
  : bool * world :=
  let w1 :=
    with_state_manager w
      (snd (system_transition_to (state_manager w) t1 SystemState.DOSING)) in
  let '(ok, w2) := pump_ph_dose w1 t2 ph volume in
  (ok,
   with_state_manager w2
     (snd (system_transition_to (state_manager w2) t3
             SystemState.MONITORING))).

(** Command [x]: [state_machine_emergency_stop(); pump_stop_all();]. *)
Definition cli_emergency_stop (w : world) (t1 t2 : Z) : world :=
  pump_stop_all
    (with_state_manager w (state_machine_emergency_stop (state_manager w) t1))
    t2.


(** Command [M]: maintenance mode on and off. *)
Definition cli_maintenance (w : world) (now : Z) : world :=
  if SystemState.eqb (system_state (state_manager w)) SystemState.MAINTENANCE
  then with_state_manager w
         (snd (system_transition_to (state_manager w) now
                 SystemState.MONITORING))
  else with_state_manager w
         (snd (system_transition_to (state_manager w) now
                 SystemState.MAINTENANCE)).

(** Commands [p], [e] and [v]:
    [system_transition_to(CALIBRATING);
     calibration_transition_to(ACTIVE); calibration_interactive_..();
     calibration_transition_to(IDLE); system_transition_to(MONITORING);].
    The interactive calibration (calibration.cpp) blocks and works on
    the sensors and the calibration data; it calls nothing of the state
    manager or the pumps. *)
Definition cli_calibrate (w : world) (t1 t2 t3 t4 : Z) : world :=
  let sm1 :=
    snd (system_transition_to (state_manager w) t1 SystemState.CALIBRATING) in
  let sm2 := snd (calibration_transition_to sm1 t2 CalibrationState.ACTIVE) in
  let sm3 := snd (calibration_transition_to sm2 t3 CalibrationState.IDLE) in
  with_state_manager w
    (snd (system_transition_to sm3 t4 SystemState.MONITORING)).

(** [setup()]: [state_machine_init(); system_transition_to(INITIALIZING);
    sensor_initialize(); pump_init(); system_transition_to(MONITORING);].
    Of [sensor_initialize] (sensors.cpp) the state manager sees
    [sensor_transition_to(READY)]; it returns [true], as [pump_init]
    does, so the two ERROR exits of [setup()] are not taken. *)
Definition setup (w : world) (t1 t2 t3 t4 t5 : Z) : world :=
  let sm1 := state_machine_init (state_manager w) t1 in
  let sm2 := snd (system_transition_to sm1 t2 SystemState.INITIALIZING) in
  let sm3 := snd (sensor_transition_to sm2 t3 SensorState.READY) in
  let w1 := pump_init (with_state_manager w sm3) t4 in
  with_state_manager w1
    (snd (system_transition_to (state_manager w1) t5 SystemState.MONITORING)).

(** ** Per-pump views

    What the state manager and the pump array hold for one pump, and
    what one iteration of each loop over the pumps does to it. *)

Definition pump_slot (sm : state_manager_t) (i : PumpId) : PumpState.t * Z :=
  (get4 (pump_states sm) i, get4 (pump_state_entry_times sm) i).

Definition pump_view (w : world) (i : PumpId) : PumpState.t * Z * pump_t :=
  (get4 (pump_states (state_manager w)) i,
   get4 (pump_state_entry_times (state_manager w)) i,
   get4 (pumps w) i).

(** The pins of the four pumps are pairwise different. *)
Definition pins_distinct (w : world) : Prop :=
  forall i j, i <> COUNT -> j <> COUNT -> i <> j ->
    gpio_pin (get4 (pumps w) i) <> gpio_pin (get4 (pumps w) j).

(** The MAINTENANCE loop of [state_machine_update], for one pump. *)
Definition maintenance_slot (now : Z) (sl : PumpState.t * Z)
  : PumpState.t * Z :=
  match fst sl with
  | PumpState.IDLE | PumpState.MAINTENANCE => sl
  | _ => (PumpState.MAINTENANCE, now)
  end.

(** The cool-down and dosing-ceiling loop of [state_machine_update],
    for one pump. *)
Definition timeout_slot (now : Z) (sl : PumpState.t * Z) : PumpState.t * Z :=
  match fst sl with
  | PumpState.COOLING_DOWN =>
      if u32_sub now (snd sl) >? 300000 then (PumpState.IDLE, now) else sl
  | PumpState.DOSING =>
      if u32_sub now (snd sl) >? 600000 then (PumpState.ERROR, now) else sl
  | _ => sl
  end.

(** [pump_safety_check], for the state and entry time of one pump. *)
Definition safety_slot (now : Z) (sl : PumpState.t * Z) : PumpState.t * Z :=
  match fst sl with
  | PumpState.PRIMING =>
      if u32_sub now (snd sl) >? 5000 then (PumpState.ERROR, now) else sl
  | PumpState.DOSING =>
      if u32_sub now (snd sl) >? 600000 then (PumpState.ERROR, now) else sl
  | PumpState.ERROR =>
      if u32_sub now (snd sl) >? 30000 then (PumpState.IDLE, now) else sl
  | _ => sl
  end.

(** The fields of the state manager that belong to no pump. *)
Definition device_part (sm : state_manager_t)
  : SystemState.t * Z * SensorState.t * Z * CalibrationState.t * Z * bool :=
  (system_state sm, system_state_entry_time sm, sensor_state sm,
   sensor_state_entry_time sm, calibration_state sm,
   calibration_state_entry_time sm, debug_logging_enabled sm).

(** One iteration of [pump_update]: state, entry time and record of
    the pump. *)
Definition sequencer_view (now : Z) (v : PumpState.t * Z * pump_t)
  : PumpState.t * Z * pump_t :=
  let s := fst (fst v) in
  let t := snd (fst v) in
  let p := snd v in
  match s with
  | PumpState.IDLE | PumpState.COOLING_DOWN | PumpState.ERROR =>
      (s, t, with_running p false)
  | PumpState.PRIMING =>
      if u32_sub now t <? 2500 then (s, t, with_running p true)
      else (PumpState.DOSING, now, p)
  | PumpState.DOSING =>
      if u32_sub now t <? run_duration_ms p then (s, t, with_running p true)
      else (PumpState.COOLING_DOWN, now, with_running p false)
  | PumpState.MAINTENANCE => v
  end.

(** One iteration of [pump_update]: the duty on the pin of the pump,
    [l] being the duty before. *)
Definition sequencer_duty (now : Z) (v : PumpState.t * Z * pump_t) (l : Z)
  : Z :=
  let s := fst (fst v) in
  let t := snd (fst v) in
  let p := snd v in
  match s with
  | PumpState.IDLE | PumpState.COOLING_DOWN | PumpState.ERROR => 0
  | PumpState.PRIMING => if u32_sub now t <? 2500 then priming_pwm else l
  | PumpState.DOSING =>
      if u32_sub now t <? run_duration_ms p
      then (if u32_sub now t =? 0 then target_pwm_duty p else l)
      else 0
  | PumpState.MAINTENANCE => l
  end.

(** The body of the loop of [pump_stop_all]. *)
Definition pump_stop_one (now : Z) (w : world) (i : PumpId) : world :=
  let w1 := ledcWrite (gpio_pin (get4 (pumps w) i)) 0 w in
  let w2 := store_pump w1 i (with_running (get4 (pumps w1) i) false) in
  snd (request_pump_transition w2 now i PumpState.IDLE).

(** One iteration of [pump_safety_check]: state, entry time and record
    of the pump. *)
Definition safety_view (now : Z) (v : PumpState.t * Z * pump_t)
  : PumpState.t * Z * pump_t :=
  let s := fst (fst v) in
  let t := snd (fst v) in
  let p := snd v in
  match s with
  | PumpState.PRIMING =>
      if u32_sub now t >? 5000 then (PumpState.ERROR, now, p) else v
  | PumpState.DOSING =>
      if u32_sub now t >? 600000
      then (PumpState.ERROR, now, with_running p false) else v
  | PumpState.ERROR =>
      if u32_sub now t >? 30000 then (PumpState.IDLE, now, p) else v
  | _ => v
  end.

(** ** Specification of binary32 rounding

    The descriptions used to reason about the arithmetic of
    [calculate_pwm_duty]: the value [(a/b) * 2^e] of an exact result,
    its rounding to nearest even, and an integer key that orders the
    numbers of the format. *)

(** Position of [a/b] inside the unit interval that starts at its
    integer part. *)
Definition loc_of (a b : Z) : location :=
  if a mod b =? 0 then loc_Exact else loc_Inexact (2 * (a mod b) ?= b).

(** A shift record holds the integer part and the position of [a/b]. *)
Definition represents (a b : Z) (mrs : shr_record) : Prop :=
  shr_m mrs = a / b /\ loc_of_shr_record mrs = loc_of a b.

(** The integer nearest to [a/b], ties to even. *)
Definition rneF (a b : Z) : Z := round_nearest_even (a / b) (loc_of a b).

(** The binary32 value nearest to [(a/b) * 2^e], for a quotient of at
    least 24 binary digits and a result in the normal range: exponent,
    mantissa before the carry out of 24 bits, and the number itself. *)
Definition rnd_exp (a b e : Z) : Z := e + (Zdigits2 (a / b) - 24).

Definition rnd_man (a b : Z) : Z := rneF a (b * 2 ^ (Zdigits2 (a / b) - 24)).

Definition rnd_spec (a b e : Z) : spec_float :=
  if rnd_man a b =? 2 ^ 24
  then S754_finite false (Z.to_pos (2 ^ 23)) (rnd_exp a b e + 1)
  else S754_finite false (Z.to_pos (rnd_man a b)) (rnd_exp a b e).

(** An integer key for the order of binary32 values: sign, then biased
    exponent, then mantissa, as for the bit patterns of the format. *)
Definition ord (x : spec_float) : Z :=
  match x with
  | S754_zero _ => 0
  | S754_nan => 0
  | S754_infinity s => cond_Zopp s (2 ^ 40)
  | S754_finite s m e => cond_Zopp s ((e + 150) * 2 ^ 24 + Zpos m)
  end.

(** Positive normal numbers with an exponent in a window, and the same
    with [+0] added. *)
Definition pn (lo hi : Z) (x : spec_float) : Prop :=
  exists m e,
    x = S754_finite false m e /\ Zpos (digits2_pos m) = 24 /\ lo <= e <= hi.

Definition nn (lo hi : Z) (x : spec_float) : Prop :=
  x = S754_zero false \/ pn lo hi x.

(** A datum of the format: a canonical mantissa and exponent. *)
Definition valid (x : float) : bool := valid_binary F32.prec F32.emax x.

(** * Properties *)

(** Case split on every [if] of the goal. *)
Ltac case_ifs :=
  repeat match goal with
         | |- context [if ?b then _ else _] => destruct b
         end.

(** The powers of two of the format, as numerals. *)
Ltac pow_numerals :=
  change (2 ^ 23) with 8388608 in *;
  change (2 ^ 24) with 16777216 in *;
  change (2 ^ 40) with 1099511627776 in *.

(** ** State manager *)

Lemma get4_set4_same {A} (v : arr4 A) (i : PumpId) (x : A) :
  i <> COUNT -> get4 (set4 v i x) i = x.
Proof. destruct i; simpl; congruence. Qed.

Lemma get4_set4_other {A} (v : arr4 A) (i j : PumpId) (x : A) :
  i <> j -> j <> COUNT -> get4 (set4 v i x) j = get4 v j.
Proof. destruct i, j; simpl; congruence. Qed.

Lemma pump_index_guard (i : PumpId) :
  i <> COUNT -> (pump_index i >=? 4) = false.
Proof. destruct i; intros H; try reflexivity; congruence. Qed.

(** C3. Whatever the machines' states were, one call of
    [state_machine_emergency_stop] leaves the device in ERROR, all four
    pumps in IDLE and the sensor in READY, each stamped with the time
    of the call.  The function is total and consults no legality
    table: the result holds from every prior configuration, also those
    from which the tables refuse the same move. *)
Theorem emergency_stop_forces_safe_states :
  forall (sm : state_manager_t) (now : Z),
    let sm' := state_machine_emergency_stop sm now in
    system_state sm' = SystemState.ERROR
    /\ pump_states sm' = fill4 PumpState.IDLE
    /\ (forall i, get4 (pump_states sm') i = PumpState.IDLE)
    /\ sensor_state sm' = SensorState.READY
    /\ system_state_entry_time sm' = now
    /\ pump_state_entry_times sm' = fill4 now
    /\ sensor_state_entry_time sm' = now.
Proof.
  intros sm now sm'. subst sm'.
  unfold state_machine_emergency_stop. simpl.
  repeat split.
  intros i. destruct i; reflexivity.
Qed.

(** The sensor table refuses WARMING_UP -> READY, and a pump in DOSING
    is not moved to IDLE by the normal completion path; the emergency
    stop performs both. *)
Lemma emergency_stop_skips_tables :
  is_valid_sensor_transition SensorState.WARMING_UP SensorState.READY = false
  /\ forall sm now,
       sensor_state sm = SensorState.WARMING_UP ->
       sensor_state (state_machine_emergency_stop sm now) = SensorState.READY.
Proof. split; [reflexivity | intros; reflexivity]. Qed.

(** C4. A transition that the legality table of the machine does not
    permit from the current state is refused: the transition function
    returns [false] and the state manager is returned as it was, so
    the state value and its entry timestamp are those from before the
    call.  Stated for the device machine and for each pump. *)
Theorem illegal_transition_leaves_state :
  (forall (sm : state_manager_t) (now : Z) (new_state : SystemState.t),
      is_valid_system_transition (system_state sm) new_state = false ->
      system_transition_to sm now new_state = (false, sm))
  /\
  (forall (sm : state_manager_t) (now : Z) (pump_id : PumpId)
          (new_state : PumpState.t),
      is_valid_pump_transition (get4 (pump_states sm) pump_id) new_state
      = false ->
      pump_transition_to sm now pump_id new_state = (false, sm)
      /\ get4 (pump_states (snd (pump_transition_to sm now pump_id new_state)))
           pump_id = get4 (pump_states sm) pump_id
      /\ get4 (pump_state_entry_times
                 (snd (pump_transition_to sm now pump_id new_state))) pump_id
         = get4 (pump_state_entry_times sm) pump_id).
Proof.
  split.
  - intros sm now new_state Hbad.
    unfold system_transition_to. rewrite Hbad. reflexivity.
  - intros sm now pump_id new_state Hbad.
    assert (E : pump_transition_to sm now pump_id new_state = (false, sm)).
    { unfold pump_transition_to.
      destruct (pump_index pump_id >=? 4); [reflexivity|].
      rewrite Hbad. reflexivity. }
    rewrite E. simpl. auto.
Qed.

Lemma illegal_transition_leaves_state_witness :
  let sm := state_manager_default 0 in
  system_transition_to sm 7 SystemState.DOSING = (false, sm)
  /\ pump_transition_to sm 7 PH_DOWN PumpState.COOLING_DOWN = (false, sm).
Proof.
  intros sm. split.
  - apply (proj1 illegal_transition_leaves_state sm 7 SystemState.DOSING).
    reflexivity.
  - apply (proj2 illegal_transition_leaves_state sm 7 PH_DOWN
             PumpState.COOLING_DOWN).
    reflexivity.
Defined.

(** ** Safety gate *)

Lemma geb_leb (a b : Z) : (a >=? b) = (b <=? a).
Proof. apply Z.geb_leb. Qed.

Lemma ltb_negb_leb (a b : Z) : (a <? b) = negb (b <=? a).
Proof. rewrite Z.leb_antisym. rewrite negb_involutive. reflexivity. Qed.

Lemma get4_store_pump_same (w : world) (i : PumpId) (p : pump_t) :
  i <> COUNT -> get4 (pumps (store_pump w i p)) i = p.
Proof. intros H. unfold store_pump. simpl. apply get4_set4_same, H. Qed.

(** [can_dose_safely] as a cascade of its four gates. *)
Lemma can_dose_safely_cascade (w : world) (now : Z) (p : PumpId) :
  p <> COUNT ->
  let c := controller (get4 (pumps w) p) in
  let sys := system_state (state_manager w) in
  let idle :=
    PumpState.eqb (get4 (pump_states (state_manager w)) p) PumpState.IDLE in
  let spaced := 300000 <=? u32_sub now (last_dose_time c) in
  let elapsed := 3600000 <=? u32_sub now (hour_start c) in
  let count := if elapsed then 0 else doses_this_hour c in
  let mode :=
    SystemState.eqb sys SystemState.MONITORING
    || SystemState.eqb sys SystemState.DOSING in
  can_dose_safely w now p
  = if negb idle then (false, w)
    else if negb spaced then (false, w)
    else
      let w1 :=
        if elapsed
        then store_pump w p
               (with_controller (get4 (pumps w) p) (reset_hour c now))
        else w in
      if negb (count <? 3) then (false, w1)
      else if negb mode then (false, w1) else (true, w1).
Proof.
  intros Hp c sys idle spaced elapsed count mode.
  unfold can_dose_safely.
  fold idle. fold c.
  unfold PUMP_MIN_DOSE_INTERVAL, kHourMs, PUMP_MAX_DOSES_PER_HOUR.
  change (60 * 60 * 1000) with 3600000.
  rewrite (ltb_negb_leb (u32_sub now (last_dose_time c)) 300000).
  fold spaced.
  rewrite (geb_leb (u32_sub now (hour_start c)) 3600000).
  fold elapsed.
  destruct idle; [|reflexivity].
  destruct spaced; [|reflexivity].
  cbv beta iota zeta. simpl negb at 1 2.
  cbv iota.
  assert (Hcount :
    doses_this_hour
      (controller
         (get4
            (pumps
               (if elapsed
                then store_pump w p
                       (with_controller (get4 (pumps w) p)
                          (reset_hour c now))
                else w)) p)) = count).
  { unfold count. destruct elapsed.
    - rewrite get4_store_pump_same by exact Hp. reflexivity.
    - reflexivity. }
  rewrite Hcount.
  assert (Hsys :
    system_state
      (state_manager
         (if elapsed
          then store_pump w p
                 (with_controller (get4 (pumps w) p) (reset_hour c now))
          else w)) = sys).
  { destruct elapsed; reflexivity. }
  rewrite Hsys.
  rewrite (geb_leb count 3), (ltb_negb_leb count 3), negb_involutive.
  fold sys.
  replace (negb (SystemState.eqb sys SystemState.MONITORING)
           && negb (SystemState.eqb sys SystemState.DOSING))
    with (negb mode) by (unfold mode; rewrite negb_orb; reflexivity).
  reflexivity.
Qed.

(** C5. [can_dose_safely] answers [true] exactly when the four gates
    hold: the pump is IDLE; at least 300000 ms have passed (in
    [uint32_t] arithmetic) since its last accepted dose; its hourly
    counter, read after the reset that applies once 3600000 ms have
    passed since the window start, is below 3; and the device is in
    MONITORING or DOSING.  The gates are taken in this order: a
    failure of one of the first two returns before the counter is
    touched, after them the reset (counter 0, window restarted at
    [now]) is the only change.  The reset is written out: once
    3600000 ms have passed the pump's [hour_start] is [now] and its
    [doses_this_hour] is 0, with every other field of the controller
    and of the pump, the other pumps, the machine states, the outputs
    and the flags as before; before that the world is returned as it
    was.  In particular a pump whose last dose
    was accepted 100000 ms ago is refused with nothing changed, and a
    dose request for it ([pump_manual_dose], or [pump_ph_dose] when it
    is the pump selected) returns [false] and changes nothing. *)
Theorem can_dose_safely_gates :
  forall (w : world) (now : Z) (p : PumpId),
    p <> COUNT ->
    let c := controller (get4 (pumps w) p) in
    let sys := system_state (state_manager w) in
    let idle :=
      PumpState.eqb (get4 (pump_states (state_manager w)) p) PumpState.IDLE in
    let spaced := 300000 <=? u32_sub now (last_dose_time c) in
    let elapsed := 3600000 <=? u32_sub now (hour_start c) in
    let count := if elapsed then 0 else doses_this_hour c in
    let mode :=
      SystemState.eqb sys SystemState.MONITORING
      || SystemState.eqb sys SystemState.DOSING in
    fst (can_dose_safely w now p) = idle && spaced && (count <? 3) && mode
    /\ (idle && spaced = false -> snd (can_dose_safely w now p) = w)
    /\ (idle && spaced = true ->
        snd (can_dose_safely w now p)
        = if elapsed
          then store_pump w p
                 (with_controller (get4 (pumps w) p) (reset_hour c now))
          else w)
    /\ (u32_sub now (last_dose_time c) = 100000 ->
        can_dose_safely w now p = (false, w)
        /\ (forall ml, pump_manual_dose w now p ml = (false, w))
        /\ (forall ph vol,
              p = (if F32.gtb ph
                        (target_value (controller (get4 (pumps w) PH_UP)))
                   then PH_DOWN else PH_UP) ->
              pump_ph_dose w now ph vol = (false, w)))
    /\ (idle && spaced = true -> elapsed = false ->
        snd (can_dose_safely w now p) = w)
    /\ (idle && spaced = true -> elapsed = true ->
        let w' := snd (can_dose_safely w now p) in
        let q := get4 (pumps w) p in
        let q' := get4 (pumps w') p in
        hour_start (controller q') = now
        /\ doses_this_hour (controller q') = 0
        /\ kp (controller q') = kp c /\ ki (controller q') = ki c
        /\ kd (controller q') = kd c
        /\ target_value (controller q') = target_value c
        /\ integral (controller q') = integral c
        /\ last_error (controller q') = last_error c
        /\ last_dose_time (controller q') = last_dose_time c
        /\ total_ml_dosed (controller q') = total_ml_dosed c
        /\ gpio_pin q' = gpio_pin q /\ pwm_channel q' = pwm_channel q
        /\ running q' = running q /\ start_time q' = start_time q
        /\ run_duration_ms q' = run_duration_ms q
        /\ target_pwm_duty q' = target_pwm_duty q
        /\ (forall i, i <> p -> i <> COUNT ->
              get4 (pumps w') i = get4 (pumps w) i)
        /\ state_manager w' = state_manager w
        /\ ledc w' = ledc w
        /\ pump_system w' = pump_system w).
Proof.
  intros w now p Hp c sys idle spaced elapsed count mode.
  pose proof (can_dose_safely_cascade w now p Hp) as Hcan.
  cbv zeta in Hcan.
  fold c sys idle spaced elapsed count mode in Hcan.
  split; [|split; [|split; [|split; [|split]]]].
  - rewrite Hcan.
    destruct idle, spaced; simpl; try reflexivity.
    destruct (count <? 3), mode; reflexivity.
  - intros Hfail. rewrite Hcan.
    destruct idle, spaced; simpl in *; try reflexivity; discriminate.
  - intros Hpass. rewrite Hcan.
    destruct idle, spaced; simpl in *; try discriminate.
    destruct (count <? 3), mode; reflexivity.
  - intros Hlast.
    assert (Hs : spaced = false) by (unfold spaced; rewrite Hlast; reflexivity).
    split; [|split].
    + rewrite Hcan, Hs. destruct idle; reflexivity.
    + intros ml.
    unfold pump_manual_dose.
    destruct ((pump_index p >=? pump_index COUNT)
              || negb (initialized (pump_system w))); [reflexivity|].
    rewrite Hcan, Hs. destruct idle; reflexivity.
    + intros ph vol Hsel.
    unfold pump_ph_dose.
    destruct (negb (initialized (pump_system w))
              || negb (auto_ph_control (pump_system w))); [reflexivity|].
    destruct (F32.ltb vol (F32.of_Z 5) || F32.gtb vol (F32.of_Z 200));
      [reflexivity|].
    destruct (F32.ltb ph (F32.of_Z 4) || F32.gtb ph (F32.of_Z 9));
      [reflexivity|].
    rewrite <- Hsel.
    rewrite Hcan, Hs. destruct idle; reflexivity.
  - intros Hpass He. rewrite Hcan. unfold count. rewrite He.
    destruct idle, spaced; simpl in *; try discriminate.
    destruct (doses_this_hour c <? 3), mode; reflexivity.
  - intros Hpass He.
    assert (E : snd (can_dose_safely w now p)
                = store_pump w p
                    (with_controller (get4 (pumps w) p) (reset_hour c now))).
    { rewrite Hcan. unfold count. rewrite He.
      destruct idle, spaced; simpl in *; try discriminate.
      destruct mode; reflexivity. }
    cbv zeta. rewrite E.
    rewrite (get4_store_pump_same w p _ Hp).
    unfold with_controller, reset_hour.
    cbn [controller hour_start doses_this_hour kp ki kd target_value integral
         last_error last_dose_time total_ml_dosed gpio_pin pwm_channel running
         start_time run_duration_ms target_pwm_duty].
    repeat (split; [reflexivity|]).
    split.
    { intros i Hip Hi. unfold store_pump. cbn [pumps with_pumps].
      apply get4_set4_other; congruence. }
    repeat split.
Qed.

Lemma can_dose_safely_gates_witness :
  can_dose_safely monitoring_world 100000 PH_UP = (false, monitoring_world)
  /\ fst (can_dose_safely monitoring_world 300000 PH_UP) = true
  /\ hour_start
       (controller
          (get4 (pumps (snd (can_dose_safely monitoring_world 3600000 PH_UP)))
             PH_UP)) = 3600000
  /\ doses_this_hour
       (controller
          (get4 (pumps (snd (can_dose_safely monitoring_world 3600000 PH_UP)))
             PH_UP)) = 0.
Proof.
  split; [|split].
  - assert (Hp : PH_UP <> COUNT) by discriminate.
    destruct (can_dose_safely_gates monitoring_world 100000 PH_UP Hp)
      as (_ & _ & _ & H & _).
    apply H. reflexivity.
  - assert (Hp : PH_UP <> COUNT) by discriminate.
    rewrite (proj1 (can_dose_safely_gates monitoring_world 300000 PH_UP Hp)).
    reflexivity.
  - assert (Hp : PH_UP <> COUNT) by discriminate.
    destruct (can_dose_safely_gates monitoring_world 3600000 PH_UP Hp)
      as (_ & _ & _ & _ & _ & H).
    destruct (H eq_refl eq_refl) as (H1 & H2 & _).
    split; [exact H1 | exact H2].
Defined.

(** ** Comparisons of binary32 values *)

Lemma SFcompare_antisym (x y : spec_float) (c : comparison) :
  SFcompare x y = Some c -> SFcompare y x = Some (CompOpp c).
Proof.
  destruct x as [sx|sx| |sx mx ex], y as [sy|sy| |sy my ey]; simpl;
    try discriminate;
    try (destruct sx; intros H; inversion H; reflexivity);
    try (destruct sy; intros H; inversion H; reflexivity);
    try (destruct sx, sy; intros H; inversion H; reflexivity).
  intros H. injection H as Hc. subst c. f_equal.
  assert (E : Pos.compare_cont Eq my mx = CompOpp (Pos.compare_cont Eq mx my)).
  { rewrite (Pos.compare_cont_antisym mx my Eq). reflexivity. }
  rewrite (Z.compare_antisym ex ey), E.
  destruct sx, sy; simpl; try reflexivity;
    destruct (ex ?= ey); simpl; try reflexivity;
    destruct (Pos.compare_cont Eq mx my); reflexivity.
Qed.

Lemma SFcompare_not_nan (x y : spec_float) :
  F32.is_nan x = false -> F32.is_nan y = false ->
  exists c, SFcompare x y = Some c.
Proof.
  destruct x, y; simpl; intros; try discriminate; eexists; reflexivity.
Qed.

Lemma ltb_false_leb (x y : float) :
  F32.is_nan x = false -> F32.is_nan y = false ->
  F32.ltb x y = false -> F32.leb y x = true.
Proof.
  intros Hx Hy. unfold F32.ltb, F32.leb, SFltb, SFleb.
  destruct (SFcompare_not_nan x y Hx Hy) as [c Hc].
  rewrite Hc, (SFcompare_antisym x y c Hc).
  destruct c; simpl; congruence.
Qed.

Lemma leb_ltb_false (x y : float) : F32.leb x y = true -> F32.ltb y x = false.
Proof.
  unfold F32.ltb, F32.leb, SFltb, SFleb.
  destruct (SFcompare x y) as [c|] eqn:Hc; [|discriminate].
  rewrite (SFcompare_antisym x y c Hc).
  destruct c; simpl; congruence.
Qed.

(** [constrain] returns one of its bounds or its argument; with a
    number as argument and [low <= high] the result is in range. *)
Lemma constrain_in_range (x lo hi : float) :
  F32.is_nan x = false -> F32.is_nan lo = false -> F32.is_nan hi = false ->
  F32.leb lo hi = true ->
  F32.leb lo (F32.constrain x lo hi) = true
  /\ F32.leb (F32.constrain x lo hi) hi = true.
Proof.
  intros Hx Hlo Hhi Hle. unfold F32.constrain.
  destruct (F32.ltb x lo) eqn:H1.
  - split; [|exact Hle].
    apply ltb_false_leb; try assumption.
    apply leb_ltb_false. apply ltb_false_leb; try assumption.
    destruct (F32.ltb lo lo) eqn:E; [|reflexivity].
    unfold F32.ltb, SFltb in E.
    destruct (SFcompare lo lo) as [c|] eqn:Hc; [|discriminate].
    pose proof (SFcompare_antisym lo lo c Hc) as Hc'.
    rewrite Hc in Hc'. destruct c; simpl in *; congruence.
  - unfold F32.gtb. destruct (SFltb hi x) eqn:H2.
    + split; [exact Hle|].
      apply ltb_false_leb; try assumption.
      destruct (F32.ltb hi hi) eqn:E; [|reflexivity].
      unfold F32.ltb, SFltb in E.
      destruct (SFcompare hi hi) as [c|] eqn:Hc; [|discriminate].
      pose proof (SFcompare_antisym hi hi c Hc) as Hc'.
      rewrite Hc in Hc'. destruct c; simpl in *; congruence.
    + split; apply ltb_false_leb; assumption.
Qed.

Lemma constrain_id (x lo hi : float) :
  F32.leb lo x = true -> F32.leb x hi = true -> F32.constrain x lo hi = x.
Proof.
  intros H1 H2. unfold F32.constrain, F32.gtb.
  rewrite (leb_ltb_false lo x H1).
  change (SFltb hi x) with (F32.ltb hi x).
  rewrite (leb_ltb_false x hi H2). reflexivity.
Qed.

Lemma above_8_not_below_5 (t : float) :
  F32.ltb (F32.of_Z 8) t = true -> F32.ltb t (F32.of_Z 5) = false.
Proof.
  change (F32.of_Z 8) with (S754_finite false 8388608 (-20)).
  change (F32.of_Z 5) with (S754_finite false 10485760 (-21)).
  unfold F32.ltb, SFltb.
  destruct t as [s|s| |s m e]; cbv [SFcompare]; try discriminate.
  - destruct s; [discriminate | reflexivity].
  - destruct s; [discriminate|].
    destruct (Z.compare_spec (-20) e) as [E|E|E]; try discriminate.
    + subst e. reflexivity.
    + intros _. destruct (Z.compare_spec e (-21)) as [E'|E'|E'];
        try reflexivity; lia.
Qed.

(** ** Set-point *)

(** C9. [pump_set_ph_target t] stores [constrain(t, 5.0, 8.0)], not
    [t], as the target of all four controllers and zeroes the integral
    and the last error of each; [pump_get_ph_target] then returns the
    stored value.  The stored value is 5.0 for [t < 5.0], 8.0 for
    [t > 8.0], [t] itself for [5.0 <= t <= 8.0], and lies in
    [[5.0, 8.0]] for every [t] that is a number. *)
Theorem pump_set_ph_target_stores_clamped :
  forall (w : world) (t : float),
    let v := F32.constrain t (F32.of_Z 5) (F32.of_Z 8) in
    let w' := pump_set_ph_target w t in
    (forall i, i <> COUNT ->
       target_value (controller (get4 (pumps w') i)) = v
       /\ integral (controller (get4 (pumps w') i)) = F32.of_Z 0
       /\ last_error (controller (get4 (pumps w') i)) = F32.of_Z 0)
    /\ pump_get_ph_target w' = v
    /\ (F32.ltb t (F32.of_Z 5) = true -> v = F32.of_Z 5)
    /\ (F32.ltb (F32.of_Z 8) t = true -> v = F32.of_Z 8)
    /\ (F32.leb (F32.of_Z 5) t = true -> F32.leb t (F32.of_Z 8) = true ->
        v = t)
    /\ (F32.is_nan t = false ->
        F32.leb (F32.of_Z 5) v = true /\ F32.leb v (F32.of_Z 8) = true).
Proof.
  intros w t v w'.
  split; [|split; [|split; [|split; [|split]]]].
  - intros i Hi. subst w'. unfold pump_set_ph_target. fold v.
    destruct i; try congruence; repeat split; reflexivity.
  - reflexivity.
  - intros H. subst v. unfold F32.constrain. rewrite H. reflexivity.
  - intros H. subst v. unfold F32.constrain, F32.gtb.
    rewrite (above_8_not_below_5 t H).
    change (SFltb (F32.of_Z 8) t) with (F32.ltb (F32.of_Z 8) t).
    rewrite H. reflexivity.
  - intros H1 H2. apply constrain_id; assumption.
  - intros Hnan. apply constrain_in_range; try assumption; reflexivity.
Qed.

Lemma pump_set_ph_target_stores_clamped_witness :
  pump_get_ph_target (pump_set_ph_target monitoring_world (F32.of_Z 9))
  = F32.of_Z 8
  /\ pump_get_ph_target (pump_set_ph_target monitoring_world (F32.of_Z 7))
     = F32.of_Z 7
  /\ pump_get_ph_target (pump_set_ph_target monitoring_world (F32.of_Z 2))
     = F32.of_Z 5
  /\ target_value
       (controller
          (get4 (pumps (pump_set_ph_target monitoring_world (F32.of_Z 9)))
             NUTRIENT_B)) = F32.of_Z 8.
Proof.
  split; [|split; [|split]].
  - destruct (pump_set_ph_target_stores_clamped monitoring_world (F32.of_Z 9))
      as (_ & Hget & _ & Hhi & _).
    rewrite Hget. apply Hhi. reflexivity.
  - destruct (pump_set_ph_target_stores_clamped monitoring_world (F32.of_Z 7))
      as (_ & Hget & _ & _ & Hmid & _).
    rewrite Hget. apply Hmid; reflexivity.
  - destruct (pump_set_ph_target_stores_clamped monitoring_world (F32.of_Z 2))
      as (_ & Hget & Hlo & _).
    rewrite Hget. apply Hlo. reflexivity.
  - destruct (pump_set_ph_target_stores_clamped monitoring_world (F32.of_Z 9))
      as (Hall & _ & _ & Hhi & _).
    assert (Hi : NUTRIENT_B <> COUNT) by discriminate.
    destruct (Hall NUTRIENT_B Hi) as (Ht & _).
    rewrite Ht. apply Hhi. reflexivity.
Defined.
(** ** Dosing engine *)

Lemma constrain_not_below (x lo hi : float) :
  F32.ltb lo lo = false -> F32.ltb hi lo = false ->
  F32.ltb (F32.constrain x lo hi) lo = false.
Proof.
  intros Hlo Hhi. unfold F32.constrain.
  destruct (F32.ltb x lo) eqn:E1; [exact Hlo|].
  destruct (F32.gtb x hi); [exact Hhi | exact E1].
Qed.

(** The result of [calculate_pid_dose] is never below the minimum dose,
    for any controller and any inputs (NaN included): the test
    [dose_ml < PUMP_MIN_DOSE_VOLUME] of [pump_ph_dose] cannot succeed. *)
Lemma calculate_pid_dose_not_below_min (pid : pid_controller_t)
  (current_value volume_liters : float) :
  F32.ltb (fst (calculate_pid_dose pid current_value volume_liters))
    PUMP_MIN_DOSE_VOLUME = false.
Proof.
  unfold calculate_pid_dose, fst.
  apply constrain_not_below; reflexivity.
Qed.

Lemma pump_transition_priming_from_idle (sm : state_manager_t) (now : Z)
  (p : PumpId) :
  p <> COUNT -> get4 (pump_states sm) p = PumpState.IDLE ->
  pump_transition_to sm now p PumpState.PRIMING
  = (true, with_pump sm p PumpState.PRIMING now).
Proof.
  intros Hp Hidle. unfold pump_transition_to.
  rewrite (pump_index_guard p Hp), Hidle. reflexivity.
Qed.

Lemma start_pump_dose_from_idle (w : world) (now : Z) (p : PumpId)
  (dose_ml flow_rate : float) :
  p <> COUNT ->
  get4 (pump_states (state_manager w)) p = PumpState.IDLE ->
  fst (start_pump_dose w now p dose_ml flow_rate) = true
  /\ get4 (pump_states
             (state_manager (snd (start_pump_dose w now p dose_ml flow_rate))))
       p = PumpState.PRIMING.
Proof.
  intros Hp Hidle. unfold start_pump_dose.
  change (pump_index COUNT) with 4.
  rewrite (pump_index_guard p Hp), Hidle.
  cbv [PumpState.eqb negb].
  set (w1 := store_pump w p _).
  unfold request_pump_transition.
  change (state_manager w1) with (state_manager w).
  rewrite (pump_transition_priming_from_idle _ now p Hp Hidle).
  cbv [negb fst snd].
  split; [reflexivity|].
  change (get4 (set4 (pump_states (state_manager w)) p PumpState.PRIMING) p
          = PumpState.PRIMING).
  apply get4_set4_same, Hp.
Qed.

Lemma can_dose_safely_keeps_states (w : world) (now : Z) (p : PumpId) :
  state_manager (snd (can_dose_safely w now p)) = state_manager w.
Proof.
  unfold can_dose_safely.
  case_ifs; reflexivity.
Qed.

Lemma can_dose_safely_true_idle (w : world) (now : Z) (p : PumpId) :
  fst (can_dose_safely w now p) = true ->
  get4 (pump_states (state_manager w)) p = PumpState.IDLE.
Proof.
  unfold can_dose_safely.
  destruct (get4 (pump_states (state_manager w)) p); try reflexivity;
    cbv [PumpState.eqb negb fst]; discriminate.
Qed.

(** Once the measurement is in range and the gate has passed,
    [pump_ph_dose] always starts a dose: it returns [true] and the
    selected pump is in PRIMING, whatever the computed magnitude. *)
Lemma pump_ph_dose_gated_always_doses (w : world) (now : Z)
  (current_ph volume_liters : float) :
  initialized (pump_system w) = true ->
  auto_ph_control (pump_system w) = true ->
  F32.ltb volume_liters (F32.of_Z 5) = false ->
  F32.gtb volume_liters (F32.of_Z 200) = false ->
  F32.ltb current_ph (F32.of_Z 4) = false ->
  F32.gtb current_ph (F32.of_Z 9) = false ->
  let pump_id :=
    if F32.gtb current_ph (target_value (controller (get4 (pumps w) PH_UP)))
    then PH_DOWN else PH_UP in
  fst (can_dose_safely w now pump_id) = true ->
  fst (pump_ph_dose w now current_ph volume_liters) = true
  /\ get4 (pump_states
             (state_manager (snd (pump_ph_dose w now current_ph volume_liters))))
       pump_id = PumpState.PRIMING.
Proof.
  intros Hinit Hauto Hv1 Hv2 Hp1 Hp2 pump_id Hgate.
  assert (Hid : pump_id <> COUNT).
  { unfold pump_id.
    destruct (F32.gtb current_ph
                (target_value (controller (get4 (pumps w) PH_UP))));
      intros E; discriminate E. }
  unfold pump_ph_dose.
  rewrite Hinit, Hauto, Hv1, Hv2, Hp1, Hp2.
  cbv [negb orb]. fold pump_id.
  pose proof (can_dose_safely_keeps_states w now pump_id) as Hsm.
  pose proof (can_dose_safely_true_idle w now pump_id Hgate) as Hidle.
  destruct (can_dose_safely w now pump_id) as [ok w1].
  cbv [fst] in Hgate. cbv [snd] in Hsm. subst ok. cbv [negb].
  pose proof (calculate_pid_dose_not_below_min
                (controller (get4 (pumps w1) pump_id))
                current_ph volume_liters) as Hmin.
  destruct (calculate_pid_dose (controller (get4 (pumps w1) pump_id))
              current_ph volume_liters) as [dose_ml c].
  cbv [fst] in Hmin. rewrite Hmin.
  apply start_pump_dose_from_idle; [exact Hid|].
  change (get4 (pump_states (state_manager w1)) pump_id = PumpState.IDLE).
  rewrite Hsm. exact Hidle.
Qed.

(** C1 (the code departs from it). On the set-point exactly (pH 6.0,
    target 6.0, 20 L, fresh controller, gate passing) the computed
    magnitude is 0 ml, below 5.0 ml, and yet [pump_ph_dose] returns
    [true], puts PH_UP in PRIMING and books a dose of 5.0 ml. *)
Theorem ph_dose_on_target_still_doses :
  let w := monitoring_world in
  let ph := F32.of_Z 6 in
  let vol := F32.of_Z 20 in
  let w' := snd (pump_ph_dose w 300000 ph vol) in
  fst (can_dose_safely w 300000 PH_UP) = true
  /\ pid_scaled_output (controller (get4 (pumps w) PH_UP)) ph vol = F32.of_Z 0
  /\ F32.ltb (F32.of_Z 0) (F32.of_Z 5) = true
  /\ fst (pump_ph_dose w 300000 ph vol) = true
  /\ get4 (pump_states (state_manager w)) PH_UP = PumpState.IDLE
  /\ get4 (pump_states (state_manager w')) PH_UP = PumpState.PRIMING
  /\ total_ml_dosed (controller (get4 (pumps w') PH_UP)) = F32.of_Z 5
  /\ run_duration_ms (get4 (pumps w') PH_UP) = 10000.
Proof. vm_compute. repeat split. Qed.

(** ** Manual control *)

(** [pump_start_manual] asks for IDLE -> DOSING, an edge that
    [is_valid_pump_transition] does not have: it cannot return [true],
    in any world, for any pump and rate. *)
Lemma pump_start_manual_never_succeeds (w : world) (now : Z) (p : PumpId)
  (ml_per_min : float) :
  fst (pump_start_manual w now p ml_per_min) = false.
Proof.
  unfold pump_start_manual. change (pump_index COUNT) with 4.
  destruct (pump_index p >=? 4) eqn:Hguard; [reflexivity|].
  destruct (negb (initialized (pump_system w))); [reflexivity|].
  cbv [orb].
  destruct (get4 (pump_states (state_manager w)) p) eqn:Hst;
    try reflexivity.
  cbv [PumpState.eqb negb].
  set (w1 := store_pump w p _).
  unfold request_pump_transition, pump_transition_to.
  change (state_manager w1) with (state_manager w).
  rewrite Hguard, Hst. reflexivity.
Qed.

(** C2 (the code departs from it). PH_UP is IDLE and every gate of
    [can_dose_safely] passes, and [pump_start_manual] returns [false]:
    the pump stays IDLE, nothing is written to its pin, and only the
    stored target duty has changed. *)
Theorem start_manual_refused_with_gates_open :
  let w := monitoring_world in
  let r := pump_start_manual w 300000 PH_UP (F32.of_Z 30) in
  get4 (pump_states (state_manager w)) PH_UP = PumpState.IDLE
  /\ fst (can_dose_safely w 300000 PH_UP) = true
  /\ fst r = false
  /\ get4 (pump_states (state_manager (snd r))) PH_UP = PumpState.IDLE
  /\ ledc (snd r) PUMP_PH_UP_PIN = 0
  /\ running (get4 (pumps (snd r)) PH_UP) = false
  /\ target_pwm_duty (get4 (pumps (snd r)) PH_UP) = 92.
Proof. vm_compute. repeat split. Qed.

(** From PRIMING, [pump_stop_manual] asks for PRIMING -> COOLING_DOWN,
    which the table refuses; the result of the request is dropped and
    the pump is still in PRIMING when the function returns [true]. *)
Lemma pump_stop_manual_from_priming (w : world) (now : Z) (p : PumpId) :
  p <> COUNT ->
  get4 (pump_states (state_manager w)) p = PumpState.PRIMING ->
  fst (pump_stop_manual w now p) = true
  /\ state_manager (snd (pump_stop_manual w now p)) = state_manager w.
Proof.
  intros Hp Hst. unfold pump_stop_manual. change (pump_index COUNT) with 4.
  rewrite (pump_index_guard p Hp).
  set (w2 := store_pump _ p _).
  change (state_manager w2) with (state_manager w).
  rewrite Hst. cbv [PumpState.eqb orb].
  unfold request_pump_transition, pump_transition_to.
  change (state_manager w2) with (state_manager w).
  rewrite (pump_index_guard p Hp), Hst.
  split; reflexivity.
Qed.

(** What [pump_stop_manual] does do for every valid pump: it returns
    [true], zeroes the pin and clears the running flag; from DOSING the
    pump goes to COOLING_DOWN, from IDLE, COOLING_DOWN, ERROR and
    MAINTENANCE to IDLE. *)
Lemma pump_stop_manual_effects (w : world) (now : Z) (p : PumpId) :
  p <> COUNT ->
  let w' := snd (pump_stop_manual w now p) in
  fst (pump_stop_manual w now p) = true
  /\ ledc w' (gpio_pin (get4 (pumps w) p)) = 0
  /\ running (get4 (pumps w') p) = false
  /\ get4 (pump_states (state_manager w')) p
     = match get4 (pump_states (state_manager w)) p with
       | PumpState.DOSING => PumpState.COOLING_DOWN
       | PumpState.PRIMING => PumpState.PRIMING
       | _ => PumpState.IDLE
       end.
Proof.
  intros Hp w'. subst w'. unfold pump_stop_manual.
  change (pump_index COUNT) with 4.
  rewrite (pump_index_guard p Hp).
  set (w2 := store_pump _ p _).
  change (state_manager w2) with (state_manager w).
  assert (Hrun : running (get4 (pumps w2) p) = false).
  { unfold w2. rewrite get4_store_pump_same by exact Hp. reflexivity. }
  assert (Hled : ledc w2 (gpio_pin (get4 (pumps w) p)) = 0).
  { unfold w2, store_pump, with_pumps, ledcWrite. cbv [ledc].
    rewrite Z.eqb_refl. reflexivity. }
  unfold request_pump_transition, pump_transition_to.
  change (state_manager w2) with (state_manager w).
  rewrite (pump_index_guard p Hp).
  destruct (get4 (pump_states (state_manager w)) p) eqn:Hst;
    cbv [PumpState.eqb orb is_valid_pump_transition negb fst snd];
    (split; [reflexivity|]); (split; [exact Hled|]);
    (split; [exact Hrun|]);
    try exact Hst;
    change (get4 (set4 (pump_states (state_manager w)) p PumpState.IDLE) p
            = PumpState.IDLE)
    || change (get4 (set4 (pump_states (state_manager w)) p
                       PumpState.COOLING_DOWN) p = PumpState.COOLING_DOWN);
    apply get4_set4_same, Hp.
Qed.

(** C10 (the code departs from it). PH_DOWN is in PRIMING after an
    accepted dose; [pump_stop_manual] returns [true], zeroes the pin
    and the running flag, and leaves the pump in PRIMING with its
    entry time unchanged, not in COOLING_DOWN.  The next sequencer
    pass drives the pin at the priming duty again. *)
Theorem stop_manual_in_priming_stays_priming :
  let w := snd (pump_ph_dose monitoring_world 300000 (F32.of_Z 7)
                  (F32.of_Z 20)) in
  let r := pump_stop_manual w 301000 PH_DOWN in
  get4 (pump_states (state_manager w)) PH_DOWN = PumpState.PRIMING
  /\ fst r = true
  /\ ledc (snd r) PUMP_PH_DOWN_PIN = 0
  /\ running (get4 (pumps (snd r)) PH_DOWN) = false
  /\ get4 (pump_states (state_manager (snd r))) PH_DOWN = PumpState.PRIMING
  /\ get4 (pump_state_entry_times (state_manager (snd r))) PH_DOWN = 300000
  /\ ledc (pump_update (snd r) 301001) PUMP_PH_DOWN_PIN = 63
  /\ running (get4 (pumps (pump_update (snd r) 301001)) PH_DOWN) = true.
Proof. vm_compute. repeat split. Qed.

(** ** Pump sequencer *)

(** In DOSING, a pass of the sequencer that comes at a time-in-state
    other than 0 ms and below the run duration writes nothing to the
    LEDC: whatever duty was on the pin stays there. *)
Lemma pump_update_one_dosing_holds (w : world) (now : Z) (i : PumpId) :
  i <> COUNT ->
  get4 (pump_states (state_manager w)) i = PumpState.DOSING ->
  let d := u32_sub now (get4 (pump_state_entry_times (state_manager w)) i) in
  d <> 0 -> d < run_duration_ms (get4 (pumps w) i) ->
  ledc (pump_update_one now w i) = ledc w
  /\ state_manager (pump_update_one now w i) = state_manager w.
Proof.
  intros Hi Hst d Hd0 Hlt. unfold pump_update_one, pump_get_state_duration_ms.
  rewrite (pump_index_guard i Hi), Hst. fold d.
  destruct (Z.ltb_spec d (run_duration_ms (get4 (pumps w) i))); [|lia].
  destruct (Z.eqb_spec d 0); [contradiction|].
  split; reflexivity.
Qed.

(** ... and a pass at time-in-state 0 ms writes the target duty. *)
Lemma pump_update_one_dosing_at_entry (w : world) (now : Z) (i : PumpId) :
  i <> COUNT ->
  get4 (pump_states (state_manager w)) i = PumpState.DOSING ->
  u32_sub now (get4 (pump_state_entry_times (state_manager w)) i) = 0 ->
  0 < run_duration_ms (get4 (pumps w) i) ->
  ledc (pump_update_one now w i) (gpio_pin (get4 (pumps w) i))
  = target_pwm_duty (get4 (pumps w) i).
Proof.
  intros Hi Hst Hd Hrun. unfold pump_update_one, pump_get_state_duration_ms.
  rewrite (pump_index_guard i Hi), Hst, Hd.
  destruct (Z.ltb_spec 0 (run_duration_ms (get4 (pumps w) i))); [|lia].
  change (0 =? 0) with true. cbv iota.
  unfold store_pump, with_pumps, ledcWrite. cbv [ledc].
  rewrite Z.eqb_refl. reflexivity.
Qed.

(** When the time-in-state has reached the run duration the pin is
    zeroed, the running flag cleared and the pump moved to
    COOLING_DOWN. *)
Lemma pump_update_one_dosing_complete (w : world) (now : Z) (i : PumpId) :
  i <> COUNT ->
  get4 (pump_states (state_manager w)) i = PumpState.DOSING ->
  run_duration_ms (get4 (pumps w) i)
  <= u32_sub now (get4 (pump_state_entry_times (state_manager w)) i) ->
  let w' := pump_update_one now w i in
  ledc w' (gpio_pin (get4 (pumps w) i)) = 0
  /\ running (get4 (pumps w') i) = false
  /\ get4 (pump_states (state_manager w')) i = PumpState.COOLING_DOWN
  /\ get4 (pump_state_entry_times (state_manager w')) i = now.
Proof.
  intros Hi Hst Hge w'. subst w'.
  unfold pump_update_one, pump_get_state_duration_ms.
  rewrite (pump_index_guard i Hi), Hst.
  destruct (Z.ltb_spec
              (u32_sub now (get4 (pump_state_entry_times (state_manager w)) i))
              (run_duration_ms (get4 (pumps w) i))); [lia|].
  set (w2 := store_pump _ i _).
  unfold request_pump_transition, pump_transition_to.
  change (state_manager w2) with (state_manager w).
  rewrite (pump_index_guard i Hi), Hst.
  cbv [is_valid_pump_transition PumpState.eqb negb snd].
  split; [|split; [|split]].
  - unfold w2, store_pump, with_pumps, ledcWrite, with_state_manager.
    cbv [ledc]. rewrite Z.eqb_refl. reflexivity.
  - change (running (get4 (pumps w2) i) = false).
    unfold w2. rewrite get4_store_pump_same by exact Hi. reflexivity.
  - change (get4 (set4 (pump_states (state_manager w)) i
                    PumpState.COOLING_DOWN) i = PumpState.COOLING_DOWN).
    apply get4_set4_same, Hi.
  - change (get4 (set4 (pump_state_entry_times (state_manager w)) i now) i
            = now).
    apply get4_set4_same, Hi.
Qed.

(** C8 (the code departs from it). An accepted dose for PH_DOWN
    (target duty 92, run duration 42000 ms) is primed at duty 63; the
    sequencer pass at 302500 ms moves the pump to DOSING; the next
    pass, 10 ms later, finds a time-in-state of 10 ms, not 0, and
    writes nothing: the pin carries the priming duty 63, not the
    target duty 92, for the whole dosing phase, up to the pass at
    344500 ms that zeroes it and requests COOLING_DOWN.  Only a pass
    in the very millisecond of the transition writes the target. *)
Theorem dosing_target_duty_not_applied :
  let w1 := snd (pump_ph_dose monitoring_world 300000 (F32.of_Z 7)
                   (F32.of_Z 20)) in
  let w2 := pump_update w1 300010 in
  let w3 := pump_update w2 302500 in
  let w4 := pump_update w3 302510 in
  let w5 := pump_update w4 344499 in
  let w6 := pump_update w5 344500 in
  target_pwm_duty (get4 (pumps w1) PH_DOWN) = 92
  /\ run_duration_ms (get4 (pumps w1) PH_DOWN) = 42000
  /\ ledc w2 PUMP_PH_DOWN_PIN = 63
  /\ get4 (pump_states (state_manager w3)) PH_DOWN = PumpState.DOSING
  /\ get4 (pump_state_entry_times (state_manager w3)) PH_DOWN = 302500
  /\ ledc w3 PUMP_PH_DOWN_PIN = 63
  /\ get4 (pump_states (state_manager w4)) PH_DOWN = PumpState.DOSING
  /\ running (get4 (pumps w4) PH_DOWN) = true
  /\ ledc w4 PUMP_PH_DOWN_PIN = 63
  /\ get4 (pump_states (state_manager w5)) PH_DOWN = PumpState.DOSING
  /\ ledc w5 PUMP_PH_DOWN_PIN = 63
  /\ ledc w6 PUMP_PH_DOWN_PIN = 0
  /\ get4 (pump_states (state_manager w6)) PH_DOWN = PumpState.COOLING_DOWN
  /\ ledc (pump_update w3 302500) PUMP_PH_DOWN_PIN = 92.
Proof. vm_compute. repeat split. Qed.

(** ** The pH 7.0 / 20 L scenario *)

(** The world left by an accepted [start_pump_dose]. *)
Lemma start_pump_dose_from_idle_eq (w : world) (now : Z) (p : PumpId)
  (dose_ml flow_rate : float) :
  p <> COUNT ->
  get4 (pump_states (state_manager w)) p = PumpState.IDLE ->
  start_pump_dose w now p dose_ml flow_rate
  = (true,
     let w1 :=
       store_pump w p
         (with_run_duration_ms (get4 (pumps w) p)
            (dose_run_duration dose_ml flow_rate)) in
     let w2 :=
       with_state_manager w1
         (with_pump (state_manager w) p PumpState.PRIMING now) in
     let p1 :=
       with_start_time
         (with_target_pwm_duty (get4 (pumps w2) p)
            (calculate_pwm_duty flow_rate)) now in
     store_pump w2 p
       (with_controller p1 (record_dose (controller p1) now dose_ml))).
Proof.
  intros Hp Hidle. unfold start_pump_dose.
  change (pump_index COUNT) with 4.
  rewrite (pump_index_guard p Hp), Hidle.
  cbv [PumpState.eqb negb].
  set (w1 := store_pump w p _).
  unfold request_pump_transition.
  change (state_manager w1) with (state_manager w).
  rewrite (pump_transition_priming_from_idle _ now p Hp Hidle).
  reflexivity.
Qed.

(** The gate changes nothing of a pump but the hourly counter and the
    window start of its controller. *)
Lemma can_dose_safely_pump (w : world) (now : Z) (p : PumpId) :
  p <> COUNT ->
  let q := get4 (pumps w) p in
  let q' := get4 (pumps (snd (can_dose_safely w now p))) p in
  kp (controller q') = kp (controller q)
  /\ ki (controller q') = ki (controller q)
  /\ kd (controller q') = kd (controller q)
  /\ target_value (controller q') = target_value (controller q)
  /\ integral (controller q') = integral (controller q)
  /\ last_error (controller q') = last_error (controller q)
  /\ total_ml_dosed (controller q') = total_ml_dosed (controller q).
Proof.
  intros Hp q q'.
  pose proof (can_dose_safely_cascade w now p Hp) as Hcan.
  cbv zeta in Hcan. unfold q'. rewrite Hcan.
  case_ifs;
    cbn [snd]; rewrite ?get4_store_pump_same by exact Hp; repeat split.
Qed.

(** The dose computed for pH 7.0 in 20 L by a fresh controller with the
    default gains and target 6.0. *)
Lemma calculate_pid_dose_scenario (c : pid_controller_t) :
  kp c = F32.of_Z 8 -> ki c = F32.lit 5 10 -> kd c = F32.of_Z 2 ->
  target_value c = F32.of_Z 6 ->
  integral c = F32.of_Z 0 -> last_error c = F32.of_Z 0 ->
  calculate_pid_dose c (F32.of_Z 7) (F32.of_Z 20)
  = (F32.of_Z 21,
     Build_pid_controller (kp c) (ki c) (kd c) (target_value c)
       (F32.of_Z (-1)) (F32.of_Z (-1)) (last_dose_time c)
       (doses_this_hour c) (hour_start c) (total_ml_dosed c)).
Proof.
  intros Hkp Hki Hkd Ht Hi He.
  unfold calculate_pid_dose, pid_scaled_output, pid_integral, pid_error.
  rewrite Hkp, Hki, Hkd, Ht, Hi, He.
  vm_compute. reflexivity.
Qed.

(** C6. Device in MONITORING, gate passing for PH_DOWN, set-point 6.0,
    fresh PID state, default gains: [pump_ph_dose] at pH 7.0 and 20 L
    selects PH_DOWN (PH_UP is left as it was), computes and accepts a
    dose of exactly 21.0 ml, and stores a run duration of 42000 ms for
    the default rate of 30 ml/min. *)
Theorem ph_dose_scenario_21ml :
  forall (w : world) (now : Z),
    initialized (pump_system w) = true ->
    auto_ph_control (pump_system w) = true ->
    system_state (state_manager w) = SystemState.MONITORING ->
    fst (can_dose_safely w now PH_DOWN) = true ->
    target_value (controller (get4 (pumps w) PH_UP)) = F32.of_Z 6 ->
    let c := controller (get4 (pumps w) PH_DOWN) in
    kp c = F32.of_Z 8 -> ki c = F32.lit 5 10 -> kd c = F32.of_Z 2 ->
    target_value c = F32.of_Z 6 ->
    integral c = F32.of_Z 0 -> last_error c = F32.of_Z 0 ->
    let r := pump_ph_dose w now (F32.of_Z 7) (F32.of_Z 20) in
    fst r = true
    /\ get4 (pump_states (state_manager (snd r))) PH_DOWN = PumpState.PRIMING
    /\ get4 (pump_states (state_manager (snd r))) PH_UP
       = get4 (pump_states (state_manager w)) PH_UP
    /\ get4 (pumps (snd r)) PH_UP = get4 (pumps w) PH_UP
    /\ fst (calculate_pid_dose c (F32.of_Z 7) (F32.of_Z 20)) = F32.of_Z 21
    /\ total_ml_dosed (controller (get4 (pumps (snd r)) PH_DOWN))
       = F32.add (total_ml_dosed c) (F32.of_Z 21)
    /\ run_duration_ms (get4 (pumps (snd r)) PH_DOWN) = 42000
    /\ F32.trunc
         (F32.mul (F32.div (F32.of_Z 21) PUMP_DEFAULT_FLOW_RATE)
            (F32.of_Z 60000)) = 42000
    /\ last_dose_time (controller (get4 (pumps (snd r)) PH_DOWN)) = now.
Proof.
  intros w now Hinit Hauto Hsys Hgate Htarget c Hkp Hki Hkd Ht Hi He r.
  assert (Hp : PH_DOWN <> COUNT) by discriminate.
  pose proof (can_dose_safely_keeps_states w now PH_DOWN) as Hsm.
  pose proof (can_dose_safely_true_idle w now PH_DOWN Hgate) as Hidle.
  pose proof (can_dose_safely_pump w now PH_DOWN Hp) as Hpump.
  cbv zeta in Hpump.
  assert (Hup : get4 (pumps (snd (can_dose_safely w now PH_DOWN))) PH_UP
                = get4 (pumps w) PH_UP).
  { unfold can_dose_safely.
    case_ifs; reflexivity. }
  assert (Hr : r = pump_ph_dose w now (F32.of_Z 7) (F32.of_Z 20))
    by reflexivity.
  unfold pump_ph_dose in Hr.
  rewrite Hinit, Hauto, Htarget in Hr.
  change (negb true || negb true) with false in Hr.
  change (F32.ltb (F32.of_Z 20) (F32.of_Z 5)
          || F32.gtb (F32.of_Z 20) (F32.of_Z 200)) with false in Hr.
  change (F32.ltb (F32.of_Z 7) (F32.of_Z 4)
          || F32.gtb (F32.of_Z 7) (F32.of_Z 9)) with false in Hr.
  change (F32.gtb (F32.of_Z 7) (F32.of_Z 6)) with true in Hr.
  cbv iota in Hr.
  destruct (can_dose_safely w now PH_DOWN) as [ok w1].
  cbv [fst] in Hgate. cbv [snd] in Hsm, Hpump, Hup. subst ok.
  cbv [negb] in Hr. cbv iota in Hr.
  destruct Hpump as (Hkp1 & Hki1 & Hkd1 & Ht1 & Hi1 & He1 & Htot1).
  fold c in Hkp1, Hki1, Hkd1, Ht1, Hi1, He1, Htot1.
  rewrite (calculate_pid_dose_scenario (controller (get4 (pumps w1) PH_DOWN)))
    in Hr by congruence.
  change (F32.ltb (F32.of_Z 21) PUMP_MIN_DOSE_VOLUME) with false in Hr.
  cbv iota in Hr.
  rewrite start_pump_dose_from_idle_eq in Hr;
    [|exact Hp
     |change (get4 (pump_states (state_manager w1)) PH_DOWN = PumpState.IDLE);
      rewrite Hsm; exact Hidle].
  rewrite Hr. cbv [fst snd].
  split; [reflexivity|].
  split; [reflexivity|].
  split; [change (get4 (pump_states (state_manager w1)) PH_UP
                  = get4 (pump_states (state_manager w)) PH_UP);
          rewrite Hsm; reflexivity|].
  split; [exact Hup|].
  split; [rewrite (calculate_pid_dose_scenario c) by assumption; reflexivity|].
  split; [change (F32.add (total_ml_dosed
                             (controller (get4 (pumps w1) PH_DOWN)))
                    (F32.of_Z 21)
                  = F32.add (total_ml_dosed c) (F32.of_Z 21));
          rewrite Htot1; reflexivity|].
  split; [vm_compute; reflexivity|].
  split; [vm_compute; reflexivity|].
  reflexivity.
Qed.

Lemma ph_dose_scenario_21ml_witness :
  let r := pump_ph_dose monitoring_world 300000 (F32.of_Z 7) (F32.of_Z 20) in
  fst r = true
  /\ get4 (pump_states (state_manager (snd r))) PH_DOWN = PumpState.PRIMING
  /\ run_duration_ms (get4 (pumps (snd r)) PH_DOWN) = 42000
  /\ total_ml_dosed (controller (get4 (pumps (snd r)) PH_DOWN)) = F32.of_Z 21.
Proof.
  pose proof (ph_dose_scenario_21ml monitoring_world 300000
                eq_refl eq_refl eq_refl eq_refl eq_refl
                eq_refl eq_refl eq_refl eq_refl eq_refl eq_refl) as H.
  cbv zeta in H.
  destruct H as (H1 & H2 & _ & _ & _ & H6 & H7 & _).
  cbv zeta. split; [exact H1|]. split; [exact H2|]. split; [exact H7|].
  rewrite H6. vm_compute. reflexivity.
Defined.

(** * Binary32 arithmetic of the duty mapping *)

(** ** Number of binary digits *)

Lemma digits2_pos_bounds (p : positive) :
  2 ^ (Zpos (digits2_pos p) - 1) <= Zpos p < 2 ^ Zpos (digits2_pos p).
Proof.
  induction p as [p IH|p IH|]; cbn [digits2_pos].
  - rewrite Pos2Z.inj_succ.
    replace (Z.succ (Zpos (digits2_pos p)) - 1)
      with (Z.succ (Zpos (digits2_pos p) - 1)) by lia.
    rewrite !Z.pow_succ_r by lia. rewrite (Pos2Z.inj_xI p).
    destruct IH as [IH1 IH2]. revert IH1 IH2.
    generalize (2 ^ (Zpos (digits2_pos p) - 1)) (2 ^ Zpos (digits2_pos p)).
    intros; lia.
  - rewrite Pos2Z.inj_succ.
    replace (Z.succ (Zpos (digits2_pos p)) - 1)
      with (Z.succ (Zpos (digits2_pos p) - 1)) by lia.
    rewrite !Z.pow_succ_r by lia. rewrite (Pos2Z.inj_xO p).
    destruct IH as [IH1 IH2]. revert IH1 IH2.
    generalize (2 ^ (Zpos (digits2_pos p) - 1)) (2 ^ Zpos (digits2_pos p)).
    intros; lia.
  - change (2 ^ 0 <= 1 < 2 ^ 1). lia.
Qed.

Lemma Zdigits2_bounds (m : Z) :
  0 < m -> 2 ^ (Zdigits2 m - 1) <= m < 2 ^ Zdigits2 m.
Proof.
  destruct m as [|p|p]; try lia. intros _. apply digits2_pos_bounds.
Qed.

Lemma Zdigits2_pos (m : Z) : 0 < m -> 0 < Zdigits2 m.
Proof. destruct m; simpl; lia. Qed.

Lemma Zdigits2_unique (m d : Z) :
  0 < m -> 2 ^ (d - 1) <= m < 2 ^ d -> Zdigits2 m = d.
Proof.
  intros Hm [Hlo Hhi].
  pose proof (Zdigits2_bounds m Hm) as [Blo Bhi].
  pose proof (Zdigits2_pos m Hm) as Hd.
  assert (Hd1 : 0 < d).
  { destruct (Z_lt_le_dec 0 d) as [|Hle]; [assumption|].
    assert (2 ^ d <= 2 ^ 0) by (destruct d; simpl; try lia;
      rewrite Z.pow_neg_r in * by lia; lia).
    simpl in *. lia. }
  destruct (Z_lt_le_dec (Zdigits2 m) d) as [Hlt|Hge].
  - assert (2 ^ Zdigits2 m <= 2 ^ (d - 1))
      by (apply Z.pow_le_mono_r; lia). lia.
  - destruct (Z_lt_le_dec d (Zdigits2 m)) as [Hlt|Hle]; [|lia].
    assert (2 ^ d <= 2 ^ (Zdigits2 m - 1))
      by (apply Z.pow_le_mono_r; lia). lia.
Qed.

(** ** Right shifts with round and sticky bits *)

(** One shift halves the mantissa, moves its low bit to the round bit
    and accumulates the old round bit into the sticky bit. *)
Lemma shr_1_nonneg (m : Z) (r s : bool) :
  0 <= m ->
  shr_1 (Build_shr_record m r s) = Build_shr_record (m / 2) (Z.odd m) (r || s).
Proof.
  intros Hm. rewrite <- Z.div2_div.
  destruct m as [|p|p]; [reflexivity| |lia].
  destruct p; reflexivity.
Qed.

(** A shift by one bit turns a record for [a/b] into one for [a/(2b)]. *)
Lemma represents_shr_1 (a b : Z) (mrs : shr_record) :
  0 <= a -> 0 < b -> represents a b mrs -> represents a (2 * b) (shr_1 mrs).
Proof.
  intros Ha Hb [Hm Hl]. destruct mrs as [m r s]. cbn [shr_m] in Hm.
  assert (Hm0 : 0 <= m) by (subst m; apply Z.div_pos; lia).
  rewrite (shr_1_nonneg m r s Hm0).
  pose proof (Z.mod_pos_bound a b Hb) as Hr.
  assert (Hmod : a mod (2 * b) = a mod b + b * (m mod 2)).
  { subst m. rewrite (Z.mul_comm 2 b). apply Z.rem_mul_r; lia. }
  assert (Hrs : r || s = negb (a mod b =? 0)).
  { unfold loc_of in Hl. destruct (a mod b =? 0), r, s; simpl in *;
      try reflexivity; try discriminate. }
  split.
  - cbn [shr_m]. subst m. rewrite Z.div_div by lia.
    f_equal. lia.
  - unfold loc_of. rewrite Hmod, Hrs.
    rewrite (Zmod_odd m).
    destruct (Z.odd m); destruct (Z.eqb_spec (a mod b) 0) as [E|E];
      cbn [negb loc_of_shr_record].
    + rewrite E. replace (0 + b * 1) with b by lia.
      destruct (Z.eqb_spec b 0); [lia|].
      replace (2 * b ?= 2 * b) with Eq by (symmetry; apply Z.compare_refl).
      reflexivity.
    + destruct (Z.eqb_spec (a mod b + b * 1) 0); [lia|].
      replace (2 * (a mod b + b * 1) ?= 2 * b) with Gt
        by (symmetry; apply Z.compare_gt_iff; lia).
      reflexivity.
    + rewrite E. replace (0 + b * 0) with 0 by lia. reflexivity.
    + destruct (Z.eqb_spec (a mod b + b * 0) 0); [lia|].
      replace (2 * (a mod b + b * 0) ?= 2 * b) with Lt
        by (symmetry; apply Z.compare_lt_iff; lia).
      reflexivity.
Qed.

Lemma represents_iter_shr_1 (p : positive) :
  forall (a b : Z) (mrs : shr_record),
    0 <= a -> 0 < b -> represents a b mrs ->
    represents a (b * 2 ^ Zpos p) (iter_pos shr_1 p mrs).
Proof.
  induction p as [p IH|p IH|]; intros a b mrs Ha Hb H; cbn [iter_pos].
  - replace (b * 2 ^ Zpos p~1) with ((2 * b) * 2 ^ Zpos p * 2 ^ Zpos p).
    + apply IH; [lia| |].
      * apply Z.mul_pos_pos; [lia|]. apply Z.pow_pos_nonneg; lia.
      * apply IH; [lia|lia|]. apply represents_shr_1; assumption.
    + rewrite (Pos2Z.inj_xI p).
      replace (2 * Zpos p + 1) with (1 + Zpos p + Zpos p) by lia.
      rewrite !Z.pow_add_r by lia. change (2 ^ 1) with 2. ring.
  - replace (b * 2 ^ Zpos p~0) with (b * 2 ^ Zpos p * 2 ^ Zpos p).
    + apply IH; [lia| |].
      * apply Z.mul_pos_pos; [lia|]. apply Z.pow_pos_nonneg; lia.
      * apply IH; assumption.
    + rewrite (Pos2Z.inj_xO p).
      replace (2 * Zpos p) with (Zpos p + Zpos p) by lia.
      rewrite !Z.pow_add_r by lia. ring.
  - change (2 ^ 1) with 2. rewrite Z.mul_comm.
    apply represents_shr_1; assumption.
Qed.

Lemma represents_initial (a b : Z) :
  represents a b (shr_record_of_loc (a / b) (loc_of a b)).
Proof.
  unfold represents. destruct (loc_of a b) as [|[| |]]; split; reflexivity.
Qed.

(** [shr] by [n] bits: a record for [a / (b * 2^n)], exponent raised by [n]. *)
Lemma represents_shr (a b e n : Z) (mrs : shr_record) :
  0 <= a -> 0 < b -> 0 <= n -> represents a b mrs ->
  represents a (b * 2 ^ n) (fst (shr mrs e n)) /\ snd (shr mrs e n) = e + n.
Proof.
  intros Ha Hb Hn H. unfold shr. destruct n as [|p|p]; [| |lia].
  - cbn [fst snd]. rewrite Z.mul_1_r, Z.add_0_r. split; [exact H|reflexivity].
  - cbn [fst snd]. split; [|reflexivity].
    apply represents_iter_shr_1; assumption.
Qed.

(** ** Rounding a fraction to the nearest integer, ties to even *)

Lemma rneF_cases (a b : Z) :
  0 < b ->
  (2 * (a mod b) < b -> rneF a b = a / b)
  /\ (2 * (a mod b) = b ->
      rneF a b = if Z.even (a / b) then a / b else a / b + 1)
  /\ (b < 2 * (a mod b) -> rneF a b = a / b + 1).
Proof.
  intros Hb. pose proof (Z.mod_pos_bound a b Hb) as Hr.
  unfold rneF, loc_of, round_nearest_even.
  destruct (Z.eqb_spec (a mod b) 0) as [E|E].
  - repeat split; intros; try reflexivity; lia.
  - destruct (Z.compare_spec (2 * (a mod b)) b); repeat split; intros;
      try reflexivity; lia.
Qed.

Lemma rneF_between (a b : Z) : 0 < b -> a / b <= rneF a b <= a / b + 1.
Proof.
  intros Hb. destruct (rneF_cases a b Hb) as (H1 & H2 & H3).
  destruct (Z.lt_trichotomy (2 * (a mod b)) b) as [H|[H|H]].
  - rewrite (H1 H). lia.
  - rewrite (H2 H). destruct (Z.even (a / b)); lia.
  - rewrite (H3 H). lia.
Qed.

Lemma div_le_cross (a1 b1 a2 b2 : Z) :
  0 < b1 -> 0 < b2 -> a1 * b2 <= a2 * b1 -> a1 / b1 <= a2 / b2.
Proof.
  intros H1 H2 H.
  pose proof (Z.div_mod a1 b1 ltac:(lia)) as E1.
  pose proof (Z.div_mod a2 b2 ltac:(lia)) as E2.
  pose proof (Z.mod_pos_bound a1 b1 H1) as R1.
  pose proof (Z.mod_pos_bound a2 b2 H2) as R2.
  destruct (Z_lt_le_dec (a2 / b2) (a1 / b1)) as [Hlt|]; [|assumption].
  exfalso.
  assert (a2 / b2 + 1 <= a1 / b1) by lia.
  assert (b1 * b2 * (a2 / b2 + 1) <= b1 * b2 * (a1 / b1))
    by (apply Z.mul_le_mono_nonneg_l; nia).
  nia.
Qed.

(** Rounding to nearest even is monotone in the fraction. *)
Lemma rneF_mono (a1 b1 a2 b2 : Z) :
  0 < b1 -> 0 < b2 -> a1 * b2 <= a2 * b1 -> rneF a1 b1 <= rneF a2 b2.
Proof.
  intros H1 H2 H.
  pose proof (div_le_cross a1 b1 a2 b2 H1 H2 H) as Hq.
  pose proof (rneF_between a1 b1 H1) as B1.
  pose proof (rneF_between a2 b2 H2) as B2.
  destruct (Z_lt_le_dec (a1 / b1) (a2 / b2)) as [Hlt|Hge]; [lia|].
  assert (Eq : a1 / b1 = a2 / b2) by lia.
  pose proof (Z.div_mod a1 b1 ltac:(lia)) as E1.
  pose proof (Z.div_mod a2 b2 ltac:(lia)) as E2.
  pose proof (Z.mod_pos_bound a1 b1 H1) as R1.
  pose proof (Z.mod_pos_bound a2 b2 H2) as R2.
  assert (Hr : (a1 mod b1) * b2 <= (a2 mod b2) * b1).
  { rewrite E1, E2, Eq in H at 1. nia. }
  destruct (rneF_cases a1 b1 H1) as (C1 & C2 & C3).
  destruct (rneF_cases a2 b2 H2) as (D1 & D2 & D3).
  destruct (Z.lt_trichotomy (2 * (a1 mod b1)) b1) as [T|[T|T]].
  - rewrite (C1 T). lia.
  - destruct (Z.lt_trichotomy (2 * (a2 mod b2)) b2) as [U|[U|U]].
    + exfalso. nia.
    + rewrite (C2 T), (D2 U), Eq. lia.
    + rewrite (D3 U), (C2 T), Eq. destruct (Z.even (a2 / b2)); lia.
  - destruct (Z.lt_trichotomy (2 * (a2 mod b2)) b2) as [U|[U|U]].
    + exfalso. nia.
    + exfalso. nia.
    + rewrite (C3 T), (D3 U). lia.
Qed.

Lemma rneF_ge (a b L : Z) : 0 < b -> L * b <= a -> L <= rneF a b.
Proof.
  intros Hb H. pose proof (rneF_between a b Hb).
  assert (L <= a / b) by (apply Z.div_le_lower_bound; lia). lia.
Qed.

Lemma rneF_le (a b U : Z) : 0 < b -> a <= U * b -> rneF a b <= U.
Proof.
  intros Hb H. pose proof (rneF_between a b Hb) as B.
  pose proof (Z.div_mod a b ltac:(lia)) as E.
  pose proof (Z.mod_pos_bound a b Hb) as R.
  assert (Hq : a / b <= U) by (apply Z.div_le_upper_bound; lia).
  destruct (Z_lt_le_dec (a / b) U) as [|Hge]; [lia|].
  assert (Eq : a / b = U) by lia.
  assert (a mod b = 0) by nia.
  destruct (rneF_cases a b Hb) as (C1 & _). rewrite C1 by lia. lia.
Qed.

Lemma rneF_exact (m : Z) : rneF m 1 = m.
Proof.
  unfold rneF, loc_of. rewrite Z.mod_1_r, Z.div_1_r. reflexivity.
Qed.

(** ** The rounding step of the binary32 operations *)

Lemma fexp_normal (x : Z) : -149 <= x - 24 -> fexp 24 128 x = x - 24.
Proof. unfold fexp, emin. lia. Qed.

Lemma pow2_split (x y : Z) : 0 <= x -> 0 <= y -> 2 ^ (x + y) = 2 ^ x * 2 ^ y.
Proof. intros. apply Z.pow_add_r; assumption. Qed.

Lemma pow2_pos (x : Z) : 0 <= x -> 0 < 2 ^ x.
Proof. intros. apply Z.pow_pos_nonneg; lia. Qed.

Lemma quotient_pos (a b : Z) :
  0 <= a -> 0 < b -> 24 <= Zdigits2 (a / b) -> 0 < a / b.
Proof.
  intros Ha Hb Hd. pose proof (Z.div_pos a b Ha Hb).
  destruct (a / b); simpl in Hd; lia.
Qed.

Lemma rnd_man_bounds (a b : Z) :
  0 <= a -> 0 < b -> 24 <= Zdigits2 (a / b) ->
  2 ^ 23 <= rnd_man a b <= 2 ^ 24.
Proof.
  intros Ha Hb Hd. unfold rnd_man.
  set (n := Zdigits2 (a / b) - 24).
  pose proof (quotient_pos a b Ha Hb Hd) as Hq.
  pose proof (Zdigits2_bounds (a / b) Hq) as [Blo Bhi].
  replace (Zdigits2 (a / b) - 1) with (n + 23) in Blo by (unfold n; lia).
  replace (Zdigits2 (a / b)) with (n + 24) in Bhi by (unfold n; lia).
  assert (Hn : 0 <= n) by (unfold n; lia).
  rewrite pow2_split in Blo, Bhi by lia.
  pose proof (pow2_pos n Hn) as Hp.
  pose proof (Z.div_mod a b ltac:(lia)) as E.
  pose proof (Z.mod_pos_bound a b Hb) as R.
  assert (Hbn : 0 < b * 2 ^ n) by (apply Z.mul_pos_pos; lia).
  split.
  - apply rneF_ge; [exact Hbn|].
    assert (b * (2 ^ n * 2 ^ 23) <= b * (a / b))
      by (apply Z.mul_le_mono_nonneg_l; lia).
    lia.
  - apply rneF_le; [exact Hbn|].
    assert (b * (a / b + 1) <= b * (2 ^ n * 2 ^ 24))
      by (apply Z.mul_le_mono_nonneg_l; lia).
    lia.
Qed.

(** [binary_round_aux], given the integer part and the position of a
    quotient [a/b] of at least 24 digits, returns the number described
    by [rnd_spec]: no underflow and no overflow in the stated window. *)
Lemma binary_round_aux_spec (a b e : Z) :
  0 <= a -> 0 < b ->
  24 <= Zdigits2 (a / b) ->
  -149 <= rnd_exp a b e -> rnd_exp a b e + 1 <= 104 ->
  binary_round_aux 24 128 false (a / b) e (loc_of a b) = rnd_spec a b e.
Proof.
  intros Ha Hb Hd Hlo Hhi.
  pose proof (rnd_man_bounds a b Ha Hb Hd) as HM.
  unfold rnd_spec. unfold rnd_exp in *. unfold rnd_man in *.
  set (n := Zdigits2 (a / b) - 24) in *.
  assert (Hn : 0 <= n) by (unfold n; lia).
  unfold binary_round_aux.
  assert (Hsh1 : shr_fexp 24 128 (a / b) e (loc_of a b)
                 = shr (shr_record_of_loc (a / b) (loc_of a b)) e n).
  { unfold shr_fexp. rewrite fexp_normal by (unfold n in Hlo; lia).
    f_equal. unfold n. lia. }
  rewrite Hsh1.
  destruct (represents_shr a b e n _ Ha Hb Hn (represents_initial a b))
    as [[Hm Hl] He].
  destruct (shr (shr_record_of_loc (a / b) (loc_of a b)) e n) as [mrs' e'].
  cbn [fst snd] in Hm, Hl, He. subst e'.
  rewrite Hm, Hl. fold (rneF a (b * 2 ^ n)).
  set (M := rneF a (b * 2 ^ n)) in *.
  destruct (Z.eqb_spec M (2 ^ 24)) as [EM|NM].
  - rewrite EM.
    unfold shr_fexp. change (Zdigits2 (2 ^ 24)) with 25.
    rewrite fexp_normal by lia.
    replace (25 + (e + n) - 24 - (e + n)) with 1 by lia.
    cbn [shr_record_of_loc shr iter_pos].
    change (shr_1 {| shr_m := 2 ^ 24; shr_r := false; shr_s := false |})
      with {| shr_m := 2 ^ 23; shr_r := false; shr_s := false |}.
    cbn [shr_m]. change (2 ^ 23) with (Zpos (Z.to_pos (2 ^ 23))).
    change (128 - 24) with 104.
    destruct (Z.leb_spec (e + n + 1) 104); [reflexivity|lia].
  - assert (HM' : 2 ^ 23 <= M < 2 ^ 24) by lia.
    assert (HdM : Zdigits2 M = 24).
    { apply Zdigits2_unique; [lia|]. exact HM'. }
    unfold shr_fexp. rewrite HdM.
    rewrite fexp_normal by lia.
    replace (24 + (e + n) - 24 - (e + n)) with 0 by lia.
    cbn [shr_record_of_loc shr shr_m].
    destruct M as [|p|p]; try lia.
    change (128 - 24) with 104.
    destruct (Z.leb_spec (e + n) 104); [reflexivity|lia].
Qed.

(** ** The integer key orders the numbers of the format *)

Lemma valid_finite_bounds (s : bool) (m : positive) (e : Z) :
  valid_binary 24 128 (S754_finite s m e) = true ->
  -149 <= e <= 104 /\ 0 < Zpos m < 2 ^ 24.
Proof.
  cbn [valid_binary]. unfold bounded, canonical_mantissa, fexp, emin.
  intros H. apply andb_prop in H. destruct H as [H1 H2].
  apply Z.eqb_eq in H1. apply Z.leb_le in H2.
  pose proof (digits2_pos_bounds m) as [_ Hm].
  assert (Hd : Zpos (digits2_pos m) <= 24) by lia.
  assert (2 ^ Zpos (digits2_pos m) <= 2 ^ 24)
    by (apply Z.pow_le_mono_r; lia).
  lia.
Qed.

Lemma compare_lex_key (e1 e2 m1 m2 : Z) :
  0 < m1 < 2 ^ 24 -> 0 < m2 < 2 ^ 24 ->
  match e1 ?= e2 with
  | Lt => Lt
  | Gt => Gt
  | Eq => m1 ?= m2
  end = ((e1 + 150) * 2 ^ 24 + m1 ?= (e2 + 150) * 2 ^ 24 + m2).
Proof.
  change (2 ^ 24) with 16777216. intros H1 H2.
  destruct (Z.compare_spec e1 e2) as [E|E|E].
  - subst e2. destruct (Z.compare_spec m1 m2) as [F|F|F]; symmetry.
    + apply Z.compare_eq_iff. lia.
    + apply Z.compare_lt_iff. lia.
    + apply Z.compare_gt_iff. lia.
  - symmetry. apply Z.compare_lt_iff. lia.
  - symmetry. apply Z.compare_gt_iff. lia.
Qed.

(** On binary32 data [SFcompare] is the comparison of the keys. *)
Lemma SFcompare_ord (x y : spec_float) :
  valid_binary 24 128 x = true -> valid_binary 24 128 y = true ->
  F32.is_nan x = false -> F32.is_nan y = false ->
  SFcompare x y = Some (ord x ?= ord y).
Proof.
  intros Vx Vy Nx Ny.
  destruct x as [sx|sx| |sx mx ex]; try discriminate;
    destruct y as [sy|sy| |sy my ey]; try discriminate.
  - reflexivity.
  - destruct sy; reflexivity.
  - cbn [SFcompare]. cbn [ord cond_Zopp] in *. f_equal.
    destruct (valid_finite_bounds sy my ey Vy) as [He Hm].
    pow_numerals.
    destruct sy; cbn [cond_Zopp]; symmetry;
      [apply Z.compare_gt_iff | apply Z.compare_lt_iff]; lia.
  - destruct sx; reflexivity.
  - destruct sx, sy; reflexivity.
  - destruct (valid_finite_bounds sy my ey Vy) as [He Hm].
    cbn [SFcompare ord]. f_equal.
    pow_numerals.
    destruct sx, sy; cbn [cond_Zopp]; symmetry;
      try (apply Z.compare_gt_iff; lia); try (apply Z.compare_lt_iff; lia).
  - destruct (valid_finite_bounds sx mx ex Vx) as [He Hm].
    cbn [SFcompare ord]. f_equal.
    pow_numerals.
    destruct sx; cbn [cond_Zopp]; symmetry;
      [apply Z.compare_lt_iff | apply Z.compare_gt_iff]; lia.
  - destruct (valid_finite_bounds sx mx ex Vx) as [He Hm].
    cbn [SFcompare ord]. f_equal.
    pow_numerals.
    destruct sx, sy; cbn [cond_Zopp]; symmetry;
      try (apply Z.compare_gt_iff; lia); try (apply Z.compare_lt_iff; lia).
  - destruct (valid_finite_bounds sx mx ex Vx) as [Hex Hmx].
    destruct (valid_finite_bounds sy my ey Vy) as [Hey Hmy].
    cbn [SFcompare ord]. f_equal.
    change (Pos.compare_cont Eq mx my) with (Zpos mx ?= Zpos my).
    destruct sx, sy; cbn [cond_Zopp].
    + rewrite Z.compare_opp.
      rewrite <- (compare_lex_key ey ex (Zpos my) (Zpos mx)) by assumption.
      rewrite (Z.compare_antisym ex ey), (Z.compare_antisym (Zpos mx) (Zpos my)).
      destruct (ex ?= ey); cbn [CompOpp]; reflexivity.
    + pow_numerals.
      symmetry. apply Z.compare_lt_iff. lia.
    + pow_numerals.
      symmetry. apply Z.compare_gt_iff. lia.
    + apply compare_lex_key; assumption.
Qed.

(** ** Rounding is monotone *)

Lemma ord_rnd_spec (a b e : Z) :
  0 <= a -> 0 < b -> 24 <= Zdigits2 (a / b) ->
  ord (rnd_spec a b e)
  = if rnd_man a b =? 2 ^ 24
    then (rnd_exp a b e + 151) * 2 ^ 24 + 2 ^ 23
    else (rnd_exp a b e + 150) * 2 ^ 24 + rnd_man a b.
Proof.
  intros Ha Hb Hd. pose proof (rnd_man_bounds a b Ha Hb Hd) as HM.
  unfold rnd_spec. destruct (rnd_man a b =? 2 ^ 24).
  - cbn [ord cond_Zopp]. change (Zpos (Z.to_pos (2 ^ 23))) with (2 ^ 23).
    change (2 ^ 24) with 16777216. lia.
  - cbn [ord cond_Zopp]. rewrite Z2Pos.id; [reflexivity|].
    change (2 ^ 23) with 8388608 in HM. lia.
Qed.

(** The quotient [a/b] scaled by its number of digits. *)
Lemma quotient_window (a b : Z) :
  0 <= a -> 0 < b -> 24 <= Zdigits2 (a / b) ->
  b * 2 ^ (Zdigits2 (a / b) - 1) <= a < b * 2 ^ Zdigits2 (a / b).
Proof.
  intros Ha Hb Hd.
  pose proof (quotient_pos a b Ha Hb Hd) as Hq.
  pose proof (Zdigits2_bounds (a / b) Hq) as [Blo Bhi].
  pose proof (Z.div_mod a b ltac:(lia)) as E.
  pose proof (Z.mod_pos_bound a b Hb) as R.
  split.
  - assert (b * 2 ^ (Zdigits2 (a / b) - 1) <= b * (a / b))
      by (apply Z.mul_le_mono_nonneg_l; lia).
    lia.
  - assert (b * (a / b + 1) <= b * 2 ^ Zdigits2 (a / b))
      by (apply Z.mul_le_mono_nonneg_l; lia).
    lia.
Qed.

(** Larger values have at least as large a magnitude. *)
Lemma magnitude_mono (a1 b1 e1 a2 b2 e2 K : Z) :
  0 <= a1 -> 0 < b1 -> 24 <= Zdigits2 (a1 / b1) ->
  0 <= a2 -> 0 < b2 -> 24 <= Zdigits2 (a2 / b2) ->
  K <= e1 -> K <= e2 ->
  a1 * b2 * 2 ^ (e1 - K) <= a2 * b1 * 2 ^ (e2 - K) ->
  Zdigits2 (a1 / b1) + e1 <= Zdigits2 (a2 / b2) + e2.
Proof.
  intros Ha1 Hb1 Hd1 Ha2 Hb2 Hd2 HK1 HK2 H.
  pose proof (quotient_window a1 b1 Ha1 Hb1 Hd1) as [L1 _].
  pose proof (quotient_window a2 b2 Ha2 Hb2 Hd2) as [_ U2].
  set (d1 := Zdigits2 (a1 / b1)) in *.
  set (d2 := Zdigits2 (a2 / b2)) in *.
  destruct (Z_lt_le_dec (d2 + e2) (d1 + e1)) as [Hlt|]; [|assumption].
  exfalso.
  assert (Hpow : 2 ^ (d2 + (e2 - K)) <= 2 ^ ((d1 - 1) + (e1 - K)))
    by (apply Z.pow_le_mono_r; lia).
  rewrite !pow2_split in Hpow by lia.
  pose proof (pow2_pos (e1 - K) ltac:(lia)) as P1.
  pose proof (pow2_pos (e2 - K) ltac:(lia)) as P2.
  pose proof (pow2_pos (d1 - 1) ltac:(lia)) as P3.
  pose proof (pow2_pos d2 ltac:(lia)) as P4.
  revert H L1 U2 Hpow P1 P2 P3 P4.
  generalize (2 ^ (e1 - K)) (2 ^ (e2 - K)) (2 ^ (d1 - 1)) (2 ^ d2).
  intros x y u v H L1 U2 Hpow P1 P2 P3 P4.
  assert (A1 : b1 * u * (b2 * x) <= a1 * (b2 * x))
    by (apply Z.mul_le_mono_nonneg_r; nia).
  assert (A2 : a2 * (b1 * y) < b2 * v * (b1 * y))
    by (apply Z.mul_lt_mono_pos_r; nia).
  assert (A3 : b1 * b2 * (v * y) <= b1 * b2 * (u * x))
    by (apply Z.mul_le_mono_nonneg_l; nia).
  nia.
Qed.

(** Rounding is monotone: if [(a1/b1) * 2^e1 <= (a2/b2) * 2^e2],
    compared at a common unit [2^K], the rounded numbers are in the
    same order. *)
Lemma rnd_spec_mono (a1 b1 e1 a2 b2 e2 K : Z) :
  0 <= a1 -> 0 < b1 -> 24 <= Zdigits2 (a1 / b1) ->
  0 <= a2 -> 0 < b2 -> 24 <= Zdigits2 (a2 / b2) ->
  K <= e1 -> K <= e2 ->
  a1 * b2 * 2 ^ (e1 - K) <= a2 * b1 * 2 ^ (e2 - K) ->
  ord (rnd_spec a1 b1 e1) <= ord (rnd_spec a2 b2 e2).
Proof.
  intros Ha1 Hb1 Hd1 Ha2 Hb2 Hd2 HK1 HK2 H.
  pose proof (magnitude_mono _ _ _ _ _ _ K Ha1 Hb1 Hd1 Ha2 Hb2 Hd2 HK1 HK2 H)
    as Hmag.
  rewrite !ord_rnd_spec by assumption.
  pose proof (rnd_man_bounds a1 b1 Ha1 Hb1 Hd1) as M1.
  pose proof (rnd_man_bounds a2 b2 Ha2 Hb2 Hd2) as M2.
  assert (HM : rnd_exp a1 b1 e1 = rnd_exp a2 b2 e2 ->
               rnd_man a1 b1 <= rnd_man a2 b2).
  { unfold rnd_exp, rnd_man. intros HE.
    set (n1 := Zdigits2 (a1 / b1) - 24) in *.
    set (n2 := Zdigits2 (a2 / b2) - 24) in *.
    pose proof (pow2_pos n1 ltac:(lia)) as P1.
    pose proof (pow2_pos n2 ltac:(lia)) as P2.
    apply rneF_mono; try (apply Z.mul_pos_pos; lia).
    assert (Hs : 2 ^ (e1 - K) * 2 ^ n1 = 2 ^ (e2 - K) * 2 ^ n2).
    { rewrite <- !pow2_split by lia. f_equal. lia. }
    pose proof (pow2_pos (e1 - K) ltac:(lia)) as Q1.
    pose proof (pow2_pos (e2 - K) ltac:(lia)) as Q2.
    revert H Hs P1 P2 Q1 Q2.
    generalize (2 ^ (e1 - K)) (2 ^ (e2 - K)) (2 ^ n1) (2 ^ n2).
    intros x y u v H Hs P1 P2 Q1 Q2.
    assert (A : a1 * b2 * x * (u * v) <= a2 * b1 * y * (u * v))
      by (apply Z.mul_le_mono_nonneg_r; nia).
    assert (B : a1 * (b2 * v) * (x * u) <= a2 * (b1 * u) * (x * u)).
    { replace (a1 * (b2 * v) * (x * u)) with (a1 * b2 * x * (u * v)) by ring.
      replace (a2 * (b1 * u) * (x * u)) with (a2 * b1 * (y * v) * u).
      - replace (a2 * b1 * (y * v) * u) with (a2 * b1 * y * (u * v)) by ring.
        exact A.
      - rewrite <- Hs. ring. }
    apply Z.mul_le_mono_pos_r in B; [exact B|nia]. }
  assert (HE : rnd_exp a1 b1 e1 <= rnd_exp a2 b2 e2)
    by (unfold rnd_exp; lia).
  revert HM HE M1 M2.
  generalize (rnd_exp a1 b1 e1) (rnd_exp a2 b2 e2) (rnd_man a1 b1)
    (rnd_man a2 b2).
  intros E1 E2 m1 m2 HM HE M1 M2.
  pow_numerals.
  destruct (Z.eqb_spec m1 16777216), (Z.eqb_spec m2 16777216);
    destruct (Z.eq_dec E1 E2) as [EE|NE];
    try (specialize (HM EE)); lia.
Qed.

(** ** The operations on positive normal numbers *)

Lemma Zdigits2_range (m lo hi : Z) :
  0 <= lo -> 2 ^ lo <= m < 2 ^ hi -> lo + 1 <= Zdigits2 m <= hi.
Proof.
  intros Hlo [H1 H2].
  assert (Hm : 0 < m) by (pose proof (pow2_pos lo Hlo); lia).
  pose proof (Zdigits2_bounds m Hm) as [B1 B2].
  pose proof (Zdigits2_pos m Hm) as Hd.
  split.
  - destruct (Z_lt_le_dec (Zdigits2 m) (lo + 1)) as [Hlt|]; [|lia].
    assert (2 ^ Zdigits2 m <= 2 ^ lo) by (apply Z.pow_le_mono_r; lia). lia.
  - destruct (Z_lt_le_dec hi (Zdigits2 m)) as [Hlt|]; [|lia].
    assert (hi < 0 \/ 0 <= hi) as [Hneg|Hnn] by lia.
    + rewrite Z.pow_neg_r in H2 by lia. lia.
    + assert (2 ^ hi <= 2 ^ (Zdigits2 m - 1))
        by (apply Z.pow_le_mono_r; lia). lia.
Qed.

Lemma Zdigits2_shift (m k : Z) :
  0 < m -> 0 <= k -> Zdigits2 (m * 2 ^ k) = Zdigits2 m + k.
Proof.
  intros Hm Hk. pose proof (pow2_pos k Hk) as Pk.
  pose proof (Zdigits2_bounds m Hm) as [B1 B2].
  pose proof (Zdigits2_pos m Hm) as Hd.
  apply Zdigits2_unique; [nia|].
  replace (Zdigits2 m + k - 1) with ((Zdigits2 m - 1) + k) by lia.
  rewrite !pow2_split by lia. nia.
Qed.

Lemma normal_mantissa (m : positive) :
  Zpos (digits2_pos m) = 24 -> 2 ^ 23 <= Zpos m < 2 ^ 24.
Proof.
  intros H. pose proof (digits2_pos_bounds m) as B. rewrite H in B. exact B.
Qed.

Lemma loc_of_1 (a : Z) : loc_of a 1 = loc_Exact.
Proof. unfold loc_of. rewrite Z.mod_1_r. reflexivity. Qed.

Lemma binary_round_aux_exact (a e : Z) :
  0 <= a -> 24 <= Zdigits2 a ->
  -149 <= e + (Zdigits2 a - 24) -> e + (Zdigits2 a - 24) + 1 <= 104 ->
  binary_round_aux 24 128 false a e loc_Exact = rnd_spec a 1 e.
Proof.
  intros Ha Hd Hlo Hhi.
  rewrite <- (loc_of_1 a). rewrite <- (Z.div_1_r a) at 1.
  apply binary_round_aux_spec; unfold rnd_exp; rewrite ?Z.div_1_r; lia.
Qed.

(** The product of two positive normal numbers is the rounding of the
    exact product of the mantissas. *)
Lemma mul_normal (m : positive) (e : Z) (mc : positive) (ec : Z) :
  Zpos (digits2_pos m) = 24 -> Zpos (digits2_pos mc) = 24 ->
  -149 <= e + ec + 23 -> e + ec + 25 <= 104 ->
  SFmul 24 128 (S754_finite false m e) (S754_finite false mc ec)
  = rnd_spec (Zpos m * Zpos mc) 1 (e + ec)
    /\ 47 <= Zdigits2 (Zpos m * Zpos mc) <= 48.
Proof.
  intros Hm Hc Hlo Hhi.
  pose proof (normal_mantissa m Hm) as Bm.
  pose proof (normal_mantissa mc Hc) as Bc.
  assert (Hd : 47 <= Zdigits2 (Zpos m * Zpos mc) <= 48).
  { apply (Zdigits2_range _ 46 48); [lia|].
    change (2 ^ 46) with (2 ^ 23 * 2 ^ 23).
    change (2 ^ 48) with (2 ^ 24 * 2 ^ 24). nia. }
  split; [|exact Hd].
  cbn [SFmul xorb]. rewrite Pos2Z.inj_mul.
  apply binary_round_aux_exact; lia.
Qed.

(** The location computed by the division is the position of the
    quotient. *)
Lemma new_location_loc_of (a b : Z) :
  0 < b -> new_location b (a mod b) = loc_of a b.
Proof.
  intros Hb. pose proof (Z.mod_pos_bound a b Hb) as R.
  unfold new_location, new_location_even, new_location_odd, loc_of.
  destruct (Z.even b) eqn:Ev; [reflexivity|].
  destruct (a mod b =? 0); [reflexivity|]. f_equal.
  assert (Hodd : Z.odd b = true) by (rewrite <- Z.negb_even, Ev; reflexivity).
  apply Z.odd_spec in Hodd. destruct Hodd as [k Hk].
  destruct (Z.compare_spec (2 * (a mod b) + 1) b);
    destruct (Z.compare_spec (2 * (a mod b)) b); try reflexivity; lia.
Qed.

(** The quotient of two positive normal numbers is the rounding of
    [(m * 2^24) / mc]. *)
Lemma div_normal (m : positive) (e : Z) (mc : positive) (ec : Z) :
  Zpos (digits2_pos m) = 24 -> Zpos (digits2_pos mc) = 24 ->
  -149 <= e - ec - 24 -> e - ec + 1 <= 104 ->
  SFdiv 24 128 (S754_finite false m e) (S754_finite false mc ec)
  = rnd_spec (Zpos m * 2 ^ 24) (Zpos mc) (e - ec - 24)
    /\ 24 <= Zdigits2 (Zpos m * 2 ^ 24 / Zpos mc) <= 25.
Proof.
  intros Hm Hc Hlo Hhi.
  pose proof (normal_mantissa m Hm) as Bm.
  pose proof (normal_mantissa mc Hc) as Bc.
  assert (Hd : 24 <= Zdigits2 (Zpos m * 2 ^ 24 / Zpos mc) <= 25).
  { apply (Zdigits2_range _ 23 25); [lia|]. split.
    - apply Z.div_le_lower_bound; [lia|].
      pow_numerals.
      lia.
    - apply Z.div_lt_upper_bound; [lia|].
      pow_numerals.
      change (2 ^ 25) with 33554432. lia. }
  split; [|exact Hd].
  cbn [SFdiv xorb]. unfold SFdiv_core_binary. cbn [Zdigits2].
  rewrite Hm, Hc.
  replace (24 + e - (24 + ec)) with (e - ec) by lia.
  rewrite fexp_normal by lia.
  rewrite Z.min_l by lia.
  replace (e - ec - (e - ec - 24)) with 24 by lia.
  cbv iota. rewrite Z.shiftl_mul_pow2 by lia.
  assert (Hqr : Z.div_eucl (Zpos m * 2 ^ 24) (Zpos mc)
                = (Zpos m * 2 ^ 24 / Zpos mc, (Zpos m * 2 ^ 24) mod Zpos mc)).
  { unfold Z.div, Z.modulo.
    destruct (Z.div_eucl (Zpos m * 2 ^ 24) (Zpos mc)); reflexivity. }
  rewrite Hqr.
  rewrite new_location_loc_of by lia.
  apply binary_round_aux_spec; unfold rnd_exp; lia.
Qed.

Lemma shl_align_value (m : positive) (e e' : Z) :
  e' <= e ->
  Zpos (fst (shl_align m e e')) = Zpos m * 2 ^ (e - e')
  /\ snd (shl_align m e e') = e'.
Proof.
  intros H. unfold shl_align.
  destruct (e' - e) as [|p|p] eqn:E.
  - replace (e - e') with 0 by lia. cbn [fst snd]. split; lia.
  - lia.
  - cbn [fst snd]. split; [|reflexivity].
    replace (e - e') with (Zpos p) by lia.
    change (Pos.iter xO m p) with (shift_pos p m).
    rewrite shift_pos_correct. rewrite Z.mul_comm. reflexivity.
Qed.

(** [binary_round] aligns a short mantissa to 24 digits, then rounds. *)
Lemma binary_round_normal (N : positive) (e : Z) :
  -149 <= Zpos (digits2_pos N) + e - 24 ->
  Zpos (digits2_pos N) + e - 24 + 1 <= 104 ->
  binary_round 24 128 false N e
  = rnd_spec (Zpos N * 2 ^ Z.max 0 (24 - Zpos (digits2_pos N))) 1
      (e - Z.max 0 (24 - Zpos (digits2_pos N)))
  /\ 24 <= Zdigits2 (Zpos N * 2 ^ Z.max 0 (24 - Zpos (digits2_pos N)))
  /\ rnd_exp (Zpos N * 2 ^ Z.max 0 (24 - Zpos (digits2_pos N))) 1
       (e - Z.max 0 (24 - Zpos (digits2_pos N)))
     = Zpos (digits2_pos N) + e - 24.
Proof.
  intros Hlo Hhi.
  set (d := Zpos (digits2_pos N)) in *.
  set (k := Z.max 0 (24 - d)).
  assert (Hk : 0 <= k) by (unfold k; lia).
  assert (Hdig : Zdigits2 (Zpos N * 2 ^ k) = d + k).
  { rewrite Zdigits2_shift by lia. reflexivity. }
  assert (Hexp : rnd_exp (Zpos N * 2 ^ k) 1 (e - k) = d + e - 24).
  { unfold rnd_exp. rewrite Z.div_1_r, Hdig. lia. }
  split; [|split; [rewrite Hdig; unfold k; lia | exact Hexp]].
  unfold binary_round. fold d.
  rewrite fexp_normal by lia.
  destruct (shl_align_value N e (e - k) ltac:(lia)) as [Hv He].
  assert (Hal : shl_align N e (d + e - 24) = shl_align N e (e - k)).
  { unfold shl_align.
    destruct (d + e - 24 - e) as [|p|p] eqn:E1;
      destruct (e - k - e) as [|q|q] eqn:E2; try reflexivity;
      try (unfold k in E2; lia).
    assert (p = q) by (unfold k in E2; lia). subst q.
    f_equal. unfold k. lia. }
  rewrite Hal.
  destruct (shl_align N e (e - k)) as [mz ez]. cbn [fst snd] in Hv, He.
  subst ez. replace (e - (e - k)) with k in Hv by lia. rewrite Hv.
  apply binary_round_aux_exact; rewrite ?Hdig; lia.
Qed.


Lemma pn_weaken (lo hi lo' hi' : Z) (x : spec_float) :
  lo' <= lo -> hi <= hi' -> pn lo hi x -> pn lo' hi' x.
Proof.
  intros H1 H2 (m & e & E & D & B). exists m, e. repeat split; try assumption; lia.
Qed.

Lemma pn_ord_pos (lo hi : Z) (x : spec_float) :
  -149 <= lo -> pn lo hi x -> 0 < ord x.
Proof.
  intros Hlo (m & e & E & D & B). subst x. cbn [ord cond_Zopp].
  pose proof (normal_mantissa m D) as Bm.
  pow_numerals. lia.
Qed.

Lemma nn_ord_nonneg (lo hi : Z) (x : spec_float) :
  -149 <= lo -> nn lo hi x -> 0 <= ord x.
Proof.
  intros Hlo [Z|P]; [subst x; simpl; lia|].
  pose proof (pn_ord_pos lo hi x Hlo P). lia.
Qed.

Lemma digits2_to_pos (M : Z) :
  2 ^ 23 <= M < 2 ^ 24 -> Zpos (digits2_pos (Z.to_pos M)) = 24.
Proof.
  intros H. change (2 ^ 23) with 8388608 in H.
  assert (E : Zpos (Z.to_pos M) = M) by (apply Z2Pos.id; lia).
  change (Zpos (digits2_pos (Z.to_pos M))) with (Zdigits2 (Zpos (Z.to_pos M))).
  rewrite E. apply Zdigits2_unique; [lia|exact H].
Qed.

Lemma rnd_spec_pn (a b e : Z) :
  0 <= a -> 0 < b -> 24 <= Zdigits2 (a / b) ->
  pn (rnd_exp a b e) (rnd_exp a b e + 1) (rnd_spec a b e).
Proof.
  intros Ha Hb Hd. pose proof (rnd_man_bounds a b Ha Hb Hd) as HM.
  unfold rnd_spec. destruct (Z.eqb_spec (rnd_man a b) (2 ^ 24)) as [E|E].
  - exists (Z.to_pos (2 ^ 23)), (rnd_exp a b e + 1).
    split; [reflexivity|]. split; [reflexivity|lia].
  - exists (Z.to_pos (rnd_man a b)), (rnd_exp a b e).
    split; [reflexivity|]. split; [apply digits2_to_pos; lia|lia].
Qed.

(** The order of the keys is the order of the values. *)
Lemma ord_le_value (m1 : positive) (e1 : Z) (m2 : positive) (e2 K : Z) :
  Zpos (digits2_pos m1) = 24 -> Zpos (digits2_pos m2) = 24 ->
  ord (S754_finite false m1 e1) <= ord (S754_finite false m2 e2) ->
  K <= e1 -> K <= e2 ->
  Zpos m1 * 2 ^ (e1 - K) <= Zpos m2 * 2 ^ (e2 - K).
Proof.
  intros D1 D2 H K1 K2. cbn [ord cond_Zopp] in H.
  pose proof (normal_mantissa m1 D1) as B1.
  pose proof (normal_mantissa m2 D2) as B2.
  pow_numerals.
  assert (He : e1 <= e2) by lia.
  destruct (Z.eq_dec e1 e2) as [E|E].
  - subst e2. pose proof (pow2_pos (e1 - K) ltac:(lia)). nia.
  - replace (e2 - K) with ((e2 - e1 - 1) + 1 + (e1 - K)) by lia.
    rewrite !pow2_split by lia. change (2 ^ 1) with 2.
    pose proof (pow2_pos (e1 - K) ltac:(lia)) as PX.
    pose proof (pow2_pos (e2 - e1 - 1) ltac:(lia)) as PY.
    revert PX PY. generalize (2 ^ (e1 - K)) (2 ^ (e2 - e1 - 1)).
    intros X Y PX PY.
    assert (A : Zpos m1 <= Zpos m2 * (Y * 2)) by nia.
    replace (Zpos m2 * (Y * 2 * X)) with (Zpos m2 * (Y * 2) * X) by ring.
    apply Z.mul_le_mono_nonneg_r; lia.
Qed.

(** Multiplication by a positive normal constant is monotone and keeps
    zero at zero and positive numbers positive and normal. *)
Lemma mul_const_mono (mc : positive) (ec lo hi : Z) (x y : spec_float) :
  Zpos (digits2_pos mc) = 24 -> -149 <= lo ->
  -149 <= lo + ec + 23 -> hi + ec + 25 <= 104 ->
  nn lo hi x -> nn lo hi y -> ord x <= ord y ->
  ord (SFmul 24 128 x (S754_finite false mc ec))
  <= ord (SFmul 24 128 y (S754_finite false mc ec))
  /\ nn (lo + ec + 23) (hi + ec + 25)
       (SFmul 24 128 x (S754_finite false mc ec))
  /\ (pn lo hi x ->
      pn (lo + ec + 23) (hi + ec + 25)
        (SFmul 24 128 x (S754_finite false mc ec))).
Proof.
  intros Hc Hlo0 Hlo Hhi Hx Hy Hle.
  assert (Hpn : forall z, pn lo hi z ->
            pn (lo + ec + 23) (hi + ec + 25)
              (SFmul 24 128 z (S754_finite false mc ec))).
  { intros z (m & e & E & D & B); subst z.
    destruct (mul_normal m e mc ec D Hc ltac:(lia) ltac:(lia)) as [Eq Hd].
    rewrite Eq.
    pose proof (rnd_spec_pn (Zpos m * Zpos mc) 1 (e + ec) ltac:(lia)
                  ltac:(lia) ltac:(rewrite Z.div_1_r; lia)) as P.
    eapply pn_weaken; [| |exact P]; unfold rnd_exp; rewrite Z.div_1_r; lia. }
  assert (Hres : forall z, nn lo hi z ->
            nn (lo + ec + 23) (hi + ec + 25)
              (SFmul 24 128 z (S754_finite false mc ec))).
  { intros z [Z|P]; [subst z; left; reflexivity|right; apply Hpn; exact P]. }
  split; [|split; [apply Hres; exact Hx|apply Hpn]].
  destruct Hx as [Zx|(m1 & e1 & E1 & D1 & B1)].
  - subst x. cbn [SFmul xorb ord].
    apply (nn_ord_nonneg (lo + ec + 23) (hi + ec + 25)); [lia|].
    apply Hres; exact Hy.
  - destruct Hy as [Zy|(m2 & e2 & E2 & D2 & B2)].
    + exfalso. subst y.
      assert (0 < ord x) by (apply (pn_ord_pos lo hi); [lia|];
        exists m1, e1; repeat split; try assumption; lia).
      simpl in Hle. lia.
    + subst x y.
      destruct (mul_normal m1 e1 mc ec D1 Hc ltac:(lia) ltac:(lia)) as [Q1 H1].
      destruct (mul_normal m2 e2 mc ec D2 Hc ltac:(lia) ltac:(lia)) as [Q2 H2].
      rewrite Q1, Q2.
      pose proof (ord_le_value m1 e1 m2 e2 (Z.min e1 e2) D1 D2 Hle
                    ltac:(lia) ltac:(lia)) as Hv.
      apply (rnd_spec_mono _ _ _ _ _ _ (Z.min e1 e2 + ec));
        rewrite ?Z.div_1_r; try lia.
      replace (e1 + ec - (Z.min e1 e2 + ec)) with (e1 - Z.min e1 e2) by lia.
      replace (e2 + ec - (Z.min e1 e2 + ec)) with (e2 - Z.min e1 e2) by lia.
      nia.
Qed.

(** The same for the division by a positive normal constant. *)
Lemma div_const_mono (mc : positive) (ec lo hi : Z) (x y : spec_float) :
  Zpos (digits2_pos mc) = 24 -> -149 <= lo ->
  -149 <= lo - ec - 24 -> hi - ec + 1 <= 104 ->
  nn lo hi x -> nn lo hi y -> ord x <= ord y ->
  ord (SFdiv 24 128 x (S754_finite false mc ec))
  <= ord (SFdiv 24 128 y (S754_finite false mc ec))
  /\ nn (lo - ec - 24) (hi - ec - 22)
       (SFdiv 24 128 x (S754_finite false mc ec))
  /\ (pn lo hi x ->
      pn (lo - ec - 24) (hi - ec - 22)
        (SFdiv 24 128 x (S754_finite false mc ec))).
Proof.
  intros Hc Hlo0 Hlo Hhi Hx Hy Hle.
  pose proof (normal_mantissa mc Hc) as Bc.
  assert (Hpn : forall z, pn lo hi z ->
            pn (lo - ec - 24) (hi - ec - 22)
              (SFdiv 24 128 z (S754_finite false mc ec))).
  { intros z (m & e & E & D & B); subst z.
    destruct (div_normal m e mc ec D Hc ltac:(lia) ltac:(lia)) as [Eq Hd].
    rewrite Eq.
    pose proof (rnd_spec_pn (Zpos m * 2 ^ 24) (Zpos mc) (e - ec - 24)
                  ltac:(lia) ltac:(lia) ltac:(lia)) as P.
    eapply pn_weaken; [| |exact P]; unfold rnd_exp; lia. }
  assert (Hres : forall z, nn lo hi z ->
            nn (lo - ec - 24) (hi - ec - 22)
              (SFdiv 24 128 z (S754_finite false mc ec))).
  { intros z [Z|P]; [subst z; left; reflexivity|right; apply Hpn; exact P]. }
  split; [|split; [apply Hres; exact Hx|apply Hpn]].
  destruct Hx as [Zx|(m1 & e1 & E1 & D1 & B1)].
  - subst x. cbn [SFdiv xorb ord].
    apply (nn_ord_nonneg (lo - ec - 24) (hi - ec - 22)); [lia|].
    apply Hres; exact Hy.
  - destruct Hy as [Zy|(m2 & e2 & E2 & D2 & B2)].
    + exfalso. subst y.
      assert (0 < ord x) by (apply (pn_ord_pos lo hi); [lia|];
        exists m1, e1; repeat split; try assumption; lia).
      simpl in Hle. lia.
    + subst x y.
      destruct (div_normal m1 e1 mc ec D1 Hc ltac:(lia) ltac:(lia)) as [Q1 H1].
      destruct (div_normal m2 e2 mc ec D2 Hc ltac:(lia) ltac:(lia)) as [Q2 H2].
      rewrite Q1, Q2.
      pose proof (ord_le_value m1 e1 m2 e2 (Z.min e1 e2) D1 D2 Hle
                    ltac:(lia) ltac:(lia)) as Hv.
      apply (rnd_spec_mono _ _ _ _ _ _ (Z.min e1 e2 - ec - 24)); try lia.
      replace (e1 - ec - 24 - (Z.min e1 e2 - ec - 24))
        with (e1 - Z.min e1 e2) by lia.
      replace (e2 - ec - 24 - (Z.min e1 e2 - ec - 24))
        with (e2 - Z.min e1 e2) by lia.
      change (2 ^ 24) with 16777216.
      nia.
Qed.

Lemma rnd_spec_exact (m : positive) (e : Z) :
  Zpos (digits2_pos m) = 24 -> rnd_spec (Zpos m) 1 e = S754_finite false m e.
Proof.
  intros D. pose proof (normal_mantissa m D) as B.
  unfold rnd_spec, rnd_man, rnd_exp. rewrite Z.div_1_r. cbn [Zdigits2].
  rewrite D. change (24 - 24) with 0. change (1 * 2 ^ 0) with 1.
  rewrite rneF_exact.
  destruct (Z.eqb_spec (Zpos m) (2 ^ 24)) as [E|E]; [lia|].
  rewrite Pos2Z.id, Z.add_0_r. reflexivity.
Qed.

(** The exact sum or difference of two numbers, as an integer count of
    units [2^ez], goes through [binary_normalize]. *)
Lemma binary_normalize_pos (N e : Z) :
  0 < N ->
  -149 <= Zdigits2 N + e - 24 -> Zdigits2 N + e - 24 + 1 <= 104 ->
  binary_normalize 24 128 N e false
  = rnd_spec (N * 2 ^ Z.max 0 (24 - Zdigits2 N)) 1
      (e - Z.max 0 (24 - Zdigits2 N))
  /\ 24 <= Zdigits2 (N * 2 ^ Z.max 0 (24 - Zdigits2 N))
  /\ rnd_exp (N * 2 ^ Z.max 0 (24 - Zdigits2 N)) 1
       (e - Z.max 0 (24 - Zdigits2 N)) = Zdigits2 N + e - 24.
Proof.
  intros HN Hlo Hhi. destruct N as [|n|n]; try lia.
  cbn [binary_normalize Zdigits2] in *.
  apply binary_round_normal; assumption.
Qed.

(** Subtraction of a positive normal constant, on the numbers at or
    above it. *)
Lemma sub_const_mono (mc : positive) (ec hi : Z) (x y : spec_float) :
  Zpos (digits2_pos mc) = 24 ->
  -149 <= ec - 23 -> hi + 2 <= 104 ->
  pn ec hi x -> pn ec hi y ->
  ord (S754_finite false mc ec) <= ord x -> ord x <= ord y ->
  ord (SFsub 24 128 x (S754_finite false mc ec))
  <= ord (SFsub 24 128 y (S754_finite false mc ec))
  /\ nn (ec - 23) (hi + 1) (SFsub 24 128 x (S754_finite false mc ec)).
Proof.
  intros Hc Hlo Hhi Hx Hy Hcx Hxy.
  pose proof (normal_mantissa mc Hc) as Bc.
  assert (Hform : forall z, pn ec hi z ->
            ord (S754_finite false mc ec) <= ord z ->
            exists N, 0 <= N /\
              (forall m e, z = S754_finite false m e ->
                 N = Zpos m * 2 ^ (e - ec) - Zpos mc) /\
              SFsub 24 128 z (S754_finite false mc ec)
              = binary_normalize 24 128 N ec false /\
              (0 < N -> Zdigits2 N <= 24 + (hi - ec))).
  { intros z (m & e & E & D & B) Hz. subst z.
    pose proof (normal_mantissa m D) as Bm.
    exists (Zpos m * 2 ^ (e - ec) - Zpos mc).
    pose proof (ord_le_value mc ec m e ec Hc D Hz ltac:(lia) ltac:(lia)) as Hv.
    replace (ec - ec) with 0 in Hv by lia. change (2 ^ 0) with 1 in Hv.
    split; [lia|]. split.
    { intros m' e' E'. inversion E'. reflexivity. }
    split.
    - cbn [SFsub cond_Zopp]. rewrite Z.min_r by lia.
      destruct (shl_align_value m e ec ltac:(lia)) as [V1 _].
      destruct (shl_align_value mc ec ec ltac:(lia)) as [V2 _].
      rewrite V1, V2. replace (ec - ec) with 0 by lia.
      change (2 ^ 0) with 1. rewrite Z.mul_1_r. reflexivity.
    - intros HN.
      apply (Zdigits2_range _ 0 (24 + (hi - ec))); [lia|].
      split; [change (2 ^ 0) with 1; lia|].
      rewrite pow2_split by lia.
      assert (2 ^ (e - ec) <= 2 ^ (hi - ec))
        by (apply Z.pow_le_mono_r; lia).
      pose proof (pow2_pos (e - ec) ltac:(lia)).
      nia. }
  assert (Hres : forall z, pn ec hi z ->
            ord (S754_finite false mc ec) <= ord z ->
            nn (ec - 23) (hi + 1) (SFsub 24 128 z (S754_finite false mc ec))).
  { intros z Pz Hz. destruct (Hform z Pz Hz) as (N & HN & _ & Eq & Hd).
    rewrite Eq. destruct (Z.eq_dec N 0) as [E0|E0].
    - subst N. left. reflexivity.
    - right. assert (HN' : 0 < N) by lia. specialize (Hd HN').
      pose proof (Zdigits2_pos N HN') as Hd0.
      destruct (binary_normalize_pos N ec HN' ltac:(lia) ltac:(lia))
        as (Es & Hdig & Hexp).
      rewrite Es.
      eapply pn_weaken;
        [| |apply rnd_spec_pn; rewrite ?Z.div_1_r; try lia];
        rewrite ?Hexp; lia. }
  split; [|apply Hres; assumption].
  assert (Hcy : ord (S754_finite false mc ec) <= ord y) by lia.
  destruct (Hform x Hx Hcx) as (Nx & HNx & Fx & Ex & Dx).
  destruct (Hform y Hy Hcy) as (Ny & HNy & Fy & Ey & Dy).
  assert (Hle : Nx <= Ny).
  { destruct Hx as (m1 & e1 & E1 & D1 & B1).
    destruct Hy as (m2 & e2 & E2 & D2 & B2).
    rewrite (Fx m1 e1 E1), (Fy m2 e2 E2). subst x y.
    pose proof (ord_le_value m1 e1 m2 e2 ec D1 D2 Hxy ltac:(lia) ltac:(lia)).
    lia. }
  destruct (Z.eq_dec Nx 0) as [E0|E0].
  - rewrite Ex. subst Nx. cbn [binary_normalize ord].
    apply (nn_ord_nonneg (ec - 23) (hi + 1)); [lia|].
    apply Hres; assumption.
  - assert (HNx' : 0 < Nx) by lia. assert (HNy' : 0 < Ny) by lia.
    specialize (Dx HNx'). specialize (Dy HNy').
    pose proof (Zdigits2_pos Nx HNx'). pose proof (Zdigits2_pos Ny HNy').
    destruct (binary_normalize_pos Nx ec HNx' ltac:(lia) ltac:(lia))
      as (Esx & Hdx & _).
    destruct (binary_normalize_pos Ny ec HNy' ltac:(lia) ltac:(lia))
      as (Esy & Hdy & _).
    rewrite Ex, Ey, Esx, Esy.
    set (kx := Z.max 0 (24 - Zdigits2 Nx)) in *.
    set (ky := Z.max 0 (24 - Zdigits2 Ny)) in *.
    pose proof (pow2_pos kx ltac:(unfold kx; lia)) as Pkx.
    pose proof (pow2_pos ky ltac:(unfold ky; lia)) as Pky.
    apply (rnd_spec_mono _ _ _ _ _ _ (ec - 24));
      rewrite ?Z.div_1_r; try assumption; try lia; try nia;
      try (unfold kx; lia); try (unfold ky; lia).
    rewrite !Z.mul_1_r.
    rewrite <- !Z.mul_assoc, <- !pow2_split
      by (try (unfold kx; lia); try (unfold ky; lia)).
    replace (kx + (ec - kx - (ec - 24))) with 24 by lia.
    replace (ky + (ec - ky - (ec - 24))) with 24 by lia.
    change (2 ^ 24) with 16777216. lia.
Qed.

(** Addition of a non-negative number to a positive normal constant. *)
Lemma add_const_mono (mc : positive) (ec lo hi : Z) (x y : spec_float) :
  Zpos (digits2_pos mc) = 24 ->
  -149 <= lo -> -149 <= ec -> lo <= hi -> Z.max ec hi + 2 <= 104 ->
  nn lo hi x -> nn lo hi y -> ord x <= ord y ->
  ord (SFadd 24 128 (S754_finite false mc ec) x)
  <= ord (SFadd 24 128 (S754_finite false mc ec) y)
  /\ pn ec (Z.max ec hi + 2) (SFadd 24 128 (S754_finite false mc ec) x).
Proof.
  intros Hc Hlo Hec Hlh Hhi Hx Hy Hle.
  pose proof (normal_mantissa mc Hc) as Bc.
  assert (Hform : forall m e, Zpos (digits2_pos m) = 24 -> lo <= e <= hi ->
            let ez := Z.min ec e in
            let N := Zpos mc * 2 ^ (ec - ez) + Zpos m * 2 ^ (e - ez) in
            SFadd 24 128 (S754_finite false mc ec) (S754_finite false m e)
            = rnd_spec N 1 ez
            /\ 0 < N /\ 24 <= Zdigits2 N
            /\ ec <= rnd_exp N 1 ez <= Z.max ec hi + 1).
  { intros m e D B ez N.
    pose proof (normal_mantissa m D) as Bm.
    pose proof (pow2_pos (ec - ez) ltac:(unfold ez; lia)) as P1.
    pose proof (pow2_pos (e - ez) ltac:(unfold ez; lia)) as P2.
    assert (HN : 0 < N) by (unfold N; nia).
    assert (Hd : 23 + (ec - ez) + 1 <= Zdigits2 N
                 <= 25 + (Z.max ec e - ez)).
    { apply (Zdigits2_range _ (23 + (ec - ez)) (25 + (Z.max ec e - ez)));
        [unfold ez; lia|]. split.
      - rewrite pow2_split by (unfold ez; lia). unfold N. nia.
      - replace (25 + (Z.max ec e - ez))
          with (1 + (24 + (Z.max ec e - ez))) by lia.
        rewrite pow2_split by (unfold ez; lia). change (2 ^ 1) with 2.
        rewrite pow2_split by (unfold ez; lia).
        assert (2 ^ (ec - ez) <= 2 ^ (Z.max ec e - ez))
          by (apply Z.pow_le_mono_r; unfold ez; lia).
        assert (2 ^ (e - ez) <= 2 ^ (Z.max ec e - ez))
          by (apply Z.pow_le_mono_r; unfold ez; lia).
        unfold N. nia. }
    assert (Hk : Z.max 0 (24 - Zdigits2 N) = 0) by (unfold ez in Hd; lia).
    destruct (binary_normalize_pos N ez HN ltac:(unfold ez in *; lia)
                ltac:(unfold ez in *; lia)) as (Es & Hdig & Hexp).
    rewrite Hk in Es, Hdig, Hexp. change (2 ^ 0) with 1 in Es, Hdig, Hexp.
    rewrite Z.mul_1_r in Es, Hdig, Hexp. rewrite Z.sub_0_r in Es, Hexp.
    split; [|split; [exact HN|split; [exact Hdig|]]].
    - rewrite <- Es. cbn [SFadd cond_Zopp]. fold ez.
      destruct (shl_align_value mc ec ez ltac:(unfold ez; lia)) as [V1 _].
      destruct (shl_align_value m e ez ltac:(unfold ez; lia)) as [V2 _].
      rewrite V1, V2. reflexivity.
    - rewrite Hexp. unfold ez in *. lia. }
  assert (Hres : forall z, nn lo hi z ->
            pn ec (Z.max ec hi + 2)
              (SFadd 24 128 (S754_finite false mc ec) z)).
  { intros z [Z|(m & e & E & D & B)]; subst z.
    - exists mc, ec. split; [reflexivity|]. split; [exact Hc|lia].
    - destruct (Hform m e D B) as (Eq & HN & Hd & He). rewrite Eq.
      eapply pn_weaken;
        [| |apply rnd_spec_pn; rewrite ?Z.div_1_r; lia]; lia. }
  split; [|apply Hres; exact Hx].
  destruct Hy as [Zy|(m2 & e2 & E2 & D2 & B2)].
  - subst y. destruct Hx as [Zx|Px].
    + subst x. lia.
    + exfalso. pose proof (pn_ord_pos lo hi x Hlo Px). simpl in Hle. lia.
  - subst y. destruct (Hform m2 e2 D2 B2) as (Eq2 & HN2 & Hd2 & He2).
    rewrite Eq2.
    pose proof (normal_mantissa m2 D2) as Bm2.
    destruct Hx as [Zx|(m1 & e1 & E1 & D1 & B1)].
    + subst x. cbn [SFadd].
      rewrite <- (rnd_spec_exact mc ec Hc).
      apply (rnd_spec_mono _ _ _ _ _ _ (Z.min ec e2));
        rewrite ?Z.div_1_r; try lia.
      * cbn [Zdigits2]. lia.
      * rewrite !Z.mul_1_r.
        replace (Z.min ec e2 - Z.min ec e2) with 0 by lia.
        change (2 ^ 0) with 1.
        pose proof (pow2_pos (e2 - Z.min ec e2) ltac:(lia)). nia.
    + subst x. destruct (Hform m1 e1 D1 B1) as (Eq1 & HN1 & Hd1 & He1).
      rewrite Eq1.
      set (K := Z.min ec (Z.min e1 e2)).
      pose proof (ord_le_value m1 e1 m2 e2 K D1 D2 Hle
                    ltac:(unfold K; lia) ltac:(unfold K; lia)) as Hv.
      apply (rnd_spec_mono _ _ _ _ _ _ K);
        rewrite ?Z.div_1_r; try lia; try (unfold K; lia).
      rewrite !Z.mul_1_r, !Z.mul_add_distr_r.
      rewrite <- !Z.mul_assoc, <- !pow2_split by (unfold K; lia).
      replace (ec - Z.min ec e1 + (Z.min ec e1 - K)) with (ec - K) by lia.
      replace (e1 - Z.min ec e1 + (Z.min ec e1 - K)) with (e1 - K) by lia.
      replace (ec - Z.min ec e2 + (Z.min ec e2 - K)) with (ec - K) by lia.
      replace (e2 - Z.min ec e2 + (Z.min ec e2 - K)) with (e2 - K) by lia.
      lia.
Qed.

Lemma trunc_of_negative_exp (m : positive) (e : Z) :
  e < 0 -> F32.trunc (S754_finite false m e) = Zpos m / 2 ^ (- e).
Proof. destruct e; try lia. intros _. reflexivity. Qed.

(** Truncation to an integer is monotone on the positive normal
    numbers below [2^24]. *)
Lemma trunc_mono (lo hi : Z) (x y : spec_float) :
  hi < 0 -> pn lo hi x -> pn lo hi y -> ord x <= ord y ->
  F32.trunc x <= F32.trunc y.
Proof.
  intros Hhi (m1 & e1 & E1 & D1 & B1) (m2 & e2 & E2 & D2 & B2) Hle.
  subst x y. rewrite !trunc_of_negative_exp by lia.
  pose proof (normal_mantissa m1 D1) as Bm1.
  pose proof (normal_mantissa m2 D2) as Bm2.
  assert (He : e1 <= e2).
  { cbn [ord cond_Zopp] in Hle. pow_numerals. lia. }
  pose proof (ord_le_value m1 e1 m2 e2 e1 D1 D2 Hle ltac:(lia) ltac:(lia)) as Hv.
  replace (e1 - e1) with 0 in Hv by lia. change (2 ^ 0) with 1 in Hv.
  replace (- e1) with ((- e2) + (e2 - e1)) by lia.
  rewrite pow2_split by lia.
  pose proof (pow2_pos (- e2) ltac:(lia)) as P1.
  pose proof (pow2_pos (e2 - e1) ltac:(lia)) as P2.
  rewrite <- (Z.div_mul_cancel_r (Zpos m2) (2 ^ (- e2)) (2 ^ (e2 - e1)))
    by lia.
  apply Z.div_le_mono; [nia|lia].
Qed.

(** ** The duty mapping *)

Lemma valid_normal_digits (m : positive) (e : Z) :
  valid (S754_finite false m e) = true -> -148 <= e ->
  Zpos (digits2_pos m) = 24.
Proof.
  unfold valid. cbn [valid_binary].
  unfold bounded, canonical_mantissa, fexp, emin, F32.prec, F32.emax.
  intros H He. apply andb_prop in H. destruct H as [H1 _].
  apply Z.eqb_eq in H1. lia.
Qed.

(** [<=] and [<] on binary32 data, through the keys. *)
Lemma leb_ord (x y : float) :
  valid x = true -> valid y = true ->
  F32.leb x y = true ->
  F32.is_nan x = false /\ F32.is_nan y = false /\ ord x <= ord y.
Proof.
  intros Vx Vy H. unfold F32.leb, SFleb in H.
  assert (Nx : F32.is_nan x = false)
    by (destruct x; try reflexivity; discriminate).
  assert (Ny : F32.is_nan y = false)
    by (destruct x, y; try reflexivity; discriminate).
  rewrite (SFcompare_ord x y Vx Vy Nx Ny) in H.
  split; [exact Nx|]. split; [exact Ny|].
  destruct (Z.compare_spec (ord x) (ord y)); try lia; discriminate.
Qed.

Lemma ltb_ord (x y : float) :
  valid x = true -> valid y = true ->
  F32.is_nan x = false -> F32.is_nan y = false ->
  F32.ltb x y = (ord x <? ord y).
Proof.
  intros Vx Vy Nx Ny. unfold F32.ltb, SFltb.
  rewrite (SFcompare_ord x y Vx Vy Nx Ny). unfold Z.ltb. reflexivity.
Qed.

(** The clamped rate is a positive normal number between the two
    bounds, and clamping acts on the keys as the clamp of integers. *)
Lemma constrain_flow_domain (r : float) :
  valid r = true -> F32.is_nan r = false ->
  let c := F32.constrain r flow_5_2 PUMP_MAX_FLOW_RATE in
  pn (-21) (-17) c
  /\ ord c = Z.max (ord flow_5_2) (Z.min (ord r) (ord PUMP_MAX_FLOW_RATE)).
Proof.
  intros Vr Nr c. subst c. unfold F32.constrain, F32.gtb.
  change (SFltb PUMP_MAX_FLOW_RATE r) with (F32.ltb PUMP_MAX_FLOW_RATE r).
  rewrite (ltb_ord r flow_5_2 Vr eq_refl Nr eq_refl).
  rewrite (ltb_ord PUMP_MAX_FLOW_RATE r eq_refl Vr eq_refl Nr).
  change (ord flow_5_2) with 2175166054.
  change (ord PUMP_MAX_FLOW_RATE) with 2243166208.
  destruct (Z.ltb_spec (ord r) 2175166054) as [H1|H1].
  - split; [|change (ord flow_5_2) with 2175166054; lia].
    exists 10905190%positive, (-21). repeat split; lia.
  - destruct (Z.ltb_spec 2243166208 (ord r)) as [H2|H2].
    + split; [|change (ord PUMP_MAX_FLOW_RATE) with 2243166208; lia].
      exists 11796480%positive, (-17). repeat split; lia.
    + split; [|lia].
      destruct r as [s|s| |s m e]; try discriminate;
        cbn [ord] in H1, H2; try lia.
      * destruct s; cbn [cond_Zopp] in *;
          change (2 ^ 40) with 1099511627776 in *; lia.
      * pose proof Vr as Vr'. unfold valid, F32.prec, F32.emax in Vr'.
        destruct (valid_finite_bounds s m e Vr') as [He Hm].
        pow_numerals.
        destruct s; cbn [cond_Zopp] in *; [lia|].
        exists m, e. split; [reflexivity|].
        split; [apply (valid_normal_digits m e); [exact Vr|lia]|lia].
Qed.

(** The six rounded operations of [calculate_pwm_duty], in sequence:
    the converted value is monotone in the clamped rate and is a
    positive normal number with an exponent in [[-20, -7]]. *)
Lemma duty_value_mono (x y : float) :
  pn (-21) (-17) x -> pn (-21) (-17) y ->
  ord flow_5_2 <= ord x -> ord x <= ord y ->
  ord (duty_value x) <= ord (duty_value y)
  /\ pn (-20) (-7) (duty_value x).
Proof.
  intros Px Py Hx Hxy.
  assert (Hy : ord flow_5_2 <= ord y) by lia.
  unfold duty_value, duty_percent_of.
  unfold F32.div, F32.mul, F32.add, F32.sub, F32.prec, F32.emax.
  change flow_5_2 with (S754_finite false 10905190 (-21)) in *.
  change flow_84_8 with (S754_finite false 11114906 (-17)).
  change (F32.of_Z 90) with (S754_finite false 11796480 (-17)).
  change (F32.of_Z 10) with (S754_finite false 10485760 (-20)).
  change (F32.of_Z 255) with (S754_finite false 16711680 (-16)).
  change (F32.of_Z 100) with (S754_finite false 13107200 (-17)).
  destruct (sub_const_mono 10905190 (-21) (-17) x y eq_refl
              ltac:(lia) ltac:(lia) Px Py Hx Hxy) as [M1 R1x].
  destruct (sub_const_mono 10905190 (-21) (-17) y y eq_refl
              ltac:(lia) ltac:(lia) Py Py Hy ltac:(lia)) as [_ R1y].
  set (x1 := SFsub 24 128 x _) in *. set (y1 := SFsub 24 128 y _) in *.
  change (-21 - 23) with (-44) in *. change (-17 + 1) with (-16) in *.
  destruct (mul_const_mono 11796480 (-17) (-44) (-16) x1 y1 eq_refl
              ltac:(lia) ltac:(lia) ltac:(lia) R1x R1y M1) as (M2 & R2x & _).
  destruct (mul_const_mono 11796480 (-17) (-44) (-16) y1 y1 eq_refl
              ltac:(lia) ltac:(lia) ltac:(lia) R1y R1y ltac:(lia))
    as (_ & R2y & _).
  set (x2 := SFmul 24 128 x1 _) in *. set (y2 := SFmul 24 128 y1 _) in *.
  change (-44 + -17 + 23) with (-38) in *.
  change (-16 + -17 + 25) with (-8) in *.
  destruct (div_const_mono 11114906 (-17) (-38) (-8) x2 y2 eq_refl
              ltac:(lia) ltac:(lia) ltac:(lia) R2x R2y M2) as (M3 & R3x & _).
  destruct (div_const_mono 11114906 (-17) (-38) (-8) y2 y2 eq_refl
              ltac:(lia) ltac:(lia) ltac:(lia) R2y R2y ltac:(lia))
    as (_ & R3y & _).
  set (x3 := SFdiv 24 128 x2 _) in *. set (y3 := SFdiv 24 128 y2 _) in *.
  change (-38 - -17 - 24) with (-45) in *.
  change (-8 - -17 - 22) with (-13) in *.
  destruct (add_const_mono 10485760 (-20) (-45) (-13) x3 y3 eq_refl
              ltac:(lia) ltac:(lia) ltac:(lia) ltac:(lia) R3x R3y M3)
    as [M4 R4x].
  destruct (add_const_mono 10485760 (-20) (-45) (-13) y3 y3 eq_refl
              ltac:(lia) ltac:(lia) ltac:(lia) ltac:(lia) R3y R3y ltac:(lia))
    as [_ R4y].
  set (x4 := SFadd 24 128 _ x3) in *. set (y4 := SFadd 24 128 _ y3) in *.
  change (Z.max (-20) (-13) + 2) with (-11) in *.
  destruct (mul_const_mono 16711680 (-16) (-20) (-11) x4 y4 eq_refl
              ltac:(lia) ltac:(lia) ltac:(lia) (or_intror R4x)
              (or_intror R4y) M4) as (M5 & _ & R5x).
  specialize (R5x R4x).
  destruct (mul_const_mono 16711680 (-16) (-20) (-11) y4 y4 eq_refl
              ltac:(lia) ltac:(lia) ltac:(lia) (or_intror R4y)
              (or_intror R4y) ltac:(lia)) as (_ & _ & R5y).
  specialize (R5y R4y).
  set (x5 := SFmul 24 128 x4 _) in *. set (y5 := SFmul 24 128 y4 _) in *.
  change (-20 + -16 + 23) with (-13) in *.
  change (-11 + -16 + 25) with (-2) in *.
  destruct (div_const_mono 13107200 (-17) (-13) (-2) x5 y5 eq_refl
              ltac:(lia) ltac:(lia) ltac:(lia) (or_intror R5x)
              (or_intror R5y) M5) as (M6 & _ & R6x).
  split; [exact M6|].
  change (-13 - -17 - 24) with (-20) in *.
  change (-2 - -17 - 22) with (-7) in *.
  exact (R6x R5x).
Qed.

Lemma pn_ord_inj (lo hi lo' hi' : Z) (x y : float) :
  pn lo hi x -> pn lo' hi' y -> ord x = ord y -> x = y.
Proof.
  intros (m1 & e1 & E1 & D1 & _) (m2 & e2 & E2 & D2 & _) H. subst x y.
  pose proof (normal_mantissa m1 D1) as B1.
  pose proof (normal_mantissa m2 D2) as B2.
  cbn [ord cond_Zopp] in H.
  pow_numerals.
  assert (e1 = e2) by lia. subst e2.
  assert (Zpos m1 = Zpos m2) by lia.
  f_equal. congruence.
Qed.

Lemma calculate_pwm_duty_unfold (r : float) :
  calculate_pwm_duty r
  = to_uint8
      (F32.trunc (duty_value (F32.constrain r flow_5_2 PUMP_MAX_FLOW_RATE))).
Proof. reflexivity. Qed.

Lemma flow_5_2_pn : pn (-21) (-17) flow_5_2.
Proof. exists 10905190%positive, (-21). repeat split; lia. Qed.

Lemma flow_90_pn : pn (-21) (-17) PUMP_MAX_FLOW_RATE.
Proof. exists 11796480%positive, (-17). repeat split; lia. Qed.

(** On the clamped range the truncated value is between 25 and 255:
    the conversion to [uint8_t] is exact. *)
Lemma duty_value_range (c : float) :
  pn (-21) (-17) c ->
  ord flow_5_2 <= ord c <= ord PUMP_MAX_FLOW_RATE ->
  25 <= F32.trunc (duty_value c) <= 255.
Proof.
  intros Pc [H1 H2].
  destruct (duty_value_mono flow_5_2 c flow_5_2_pn Pc ltac:(lia) H1)
    as [Mlo Plo].
  destruct (duty_value_mono c PUMP_MAX_FLOW_RATE Pc flow_90_pn H1 H2)
    as [Mhi Pc'].
  destruct (duty_value_mono PUMP_MAX_FLOW_RATE PUMP_MAX_FLOW_RATE
              flow_90_pn flow_90_pn
              ltac:(vm_compute; discriminate) ltac:(lia)) as [_ Phi].
  pose proof (trunc_mono (-20) (-7) _ _ ltac:(lia) Plo Pc' Mlo) as T1.
  pose proof (trunc_mono (-20) (-7) _ _ ltac:(lia) Pc' Phi Mhi) as T2.
  change (F32.trunc (duty_value flow_5_2)) with 25 in T1.
  change (F32.trunc (duty_value PUMP_MAX_FLOW_RATE)) with 255 in T2.
  lia.
Qed.

Lemma calculate_pwm_duty_exact (r : float) :
  valid r = true -> F32.is_nan r = false ->
  calculate_pwm_duty r
  = F32.trunc (duty_value (F32.constrain r flow_5_2 PUMP_MAX_FLOW_RATE))
  /\ 25 <= calculate_pwm_duty r <= 255.
Proof.
  intros Vr Nr. rewrite calculate_pwm_duty_unfold.
  destruct (constrain_flow_domain r Vr Nr) as [Pc Hc].
  assert (Hr : ord flow_5_2
               <= ord (F32.constrain r flow_5_2 PUMP_MAX_FLOW_RATE)
               <= ord PUMP_MAX_FLOW_RATE).
  { rewrite Hc. change (ord PUMP_MAX_FLOW_RATE) with 2243166208.
    change (ord flow_5_2) with 2175166054. lia. }
  pose proof (duty_value_range _ Pc Hr) as R.
  unfold to_uint8. rewrite Z.mod_small by (change (2 ^ 8) with 256; lia).
  split; [reflexivity|exact R].
Qed.

(** C7. [calculate_pwm_duty] on the numbers of binary32: it is
    non-decreasing in the flow rate; its result is in [[0, 255]] (and
    for every rate that is a number it is in [[25, 255]], the value
    converted to [uint8_t] being in range); the rate 5.2 gives 25, the
    integer part of 25.5 = 10% of 255; the rate 90 gives 255; every
    rate at or below 5.2 gives the duty of 5.2 and every rate at or
    above 90 gives 255. *)
Theorem calculate_pwm_duty_monotone_bounded :
  (forall r1 r2 : float,
      valid r1 = true -> valid r2 = true -> F32.leb r1 r2 = true ->
      calculate_pwm_duty r1 <= calculate_pwm_duty r2)
  /\ (forall r : float, 0 <= calculate_pwm_duty r <= 255)
  /\ (forall r : float,
        valid r = true -> F32.is_nan r = false ->
        25 <= calculate_pwm_duty r <= 255
        /\ calculate_pwm_duty r
           = F32.trunc
               (duty_value (F32.constrain r flow_5_2 PUMP_MAX_FLOW_RATE)))
  /\ duty_value flow_5_2 = F32.lit 255 10
  /\ calculate_pwm_duty flow_5_2 = 25
  /\ duty_value (F32.of_Z 90) = F32.of_Z 255
  /\ calculate_pwm_duty (F32.of_Z 90) = 255
  /\ (forall r : float,
        valid r = true -> F32.leb r flow_5_2 = true ->
        calculate_pwm_duty r = calculate_pwm_duty flow_5_2)
  /\ (forall r : float,
        valid r = true -> F32.leb (F32.of_Z 90) r = true ->
        calculate_pwm_duty r = 255).
Proof.
  split; [|split; [|split; [|split; [|split; [|split; [|split; [|split]]]]]]].
  - intros r1 r2 V1 V2 Hle.
    destruct (leb_ord r1 r2 V1 V2 Hle) as (N1 & N2 & Ho).
    destruct (calculate_pwm_duty_exact r1 V1 N1) as [E1 _].
    destruct (calculate_pwm_duty_exact r2 V2 N2) as [E2 _].
    rewrite E1, E2.
    destruct (constrain_flow_domain r1 V1 N1) as [P1 H1].
    destruct (constrain_flow_domain r2 V2 N2) as [P2 H2].
    change (ord PUMP_MAX_FLOW_RATE) with 2243166208 in *.
    change (ord flow_5_2) with 2175166054 in *.
    assert (L1 : 2175166054
                 <= ord (F32.constrain r1 flow_5_2 PUMP_MAX_FLOW_RATE))
      by lia.
    assert (L2 : 2175166054
                 <= ord (F32.constrain r2 flow_5_2 PUMP_MAX_FLOW_RATE))
      by lia.
    assert (L12 : ord (F32.constrain r1 flow_5_2 PUMP_MAX_FLOW_RATE)
                  <= ord (F32.constrain r2 flow_5_2 PUMP_MAX_FLOW_RATE))
      by lia.
    destruct (duty_value_mono _ _ P1 P2 L1 L12) as [M Q1].
    destruct (duty_value_mono _ _ P2 P2 L2 ltac:(lia)) as [_ Q2].
    exact (trunc_mono (-20) (-7) _ _ ltac:(lia) Q1 Q2 M).
  - intros r. rewrite calculate_pwm_duty_unfold. unfold to_uint8.
    pose proof (Z.mod_pos_bound
                  (F32.trunc
                     (duty_value
                        (F32.constrain r flow_5_2 PUMP_MAX_FLOW_RATE)))
                  (2 ^ 8) ltac:(reflexivity)) as B.
    change (2 ^ 8) with 256 in *. lia.
  - intros r Vr Nr. destruct (calculate_pwm_duty_exact r Vr Nr) as [E R].
    split; [exact R|exact E].
  - vm_compute. reflexivity.
  - vm_compute. reflexivity.
  - vm_compute. reflexivity.
  - vm_compute. reflexivity.
  - intros r Vr Hle.
    destruct (leb_ord r flow_5_2 Vr eq_refl Hle) as (Nr & _ & Ho).
    destruct (constrain_flow_domain r Vr Nr) as [Pc Hc].
    assert (E : F32.constrain r flow_5_2 PUMP_MAX_FLOW_RATE = flow_5_2).
    { apply (pn_ord_inj _ _ _ _ _ _ Pc flow_5_2_pn).
      rewrite Hc. change (ord PUMP_MAX_FLOW_RATE) with 2243166208.
      change (ord flow_5_2) with 2175166054 in *. lia. }
    rewrite !calculate_pwm_duty_unfold, E. reflexivity.
  - intros r Vr Hle.
    change (F32.of_Z 90) with PUMP_MAX_FLOW_RATE in Hle.
    destruct (leb_ord PUMP_MAX_FLOW_RATE r eq_refl Vr Hle) as (_ & Nr & Ho).
    destruct (constrain_flow_domain r Vr Nr) as [Pc Hc].
    assert (E : F32.constrain r flow_5_2 PUMP_MAX_FLOW_RATE
                = PUMP_MAX_FLOW_RATE).
    { apply (pn_ord_inj _ _ _ _ _ _ Pc flow_90_pn).
      rewrite Hc. change (ord PUMP_MAX_FLOW_RATE) with 2243166208 in *.
      change (ord flow_5_2) with 2175166054. lia. }
    rewrite calculate_pwm_duty_unfold, E. vm_compute. reflexivity.
Qed.

Lemma calculate_pwm_duty_monotone_bounded_witness :
  calculate_pwm_duty (F32.of_Z 30) <= calculate_pwm_duty (F32.of_Z 60)
  /\ 25 <= calculate_pwm_duty (F32.of_Z 30) <= 255
  /\ calculate_pwm_duty (F32.of_Z 2) = calculate_pwm_duty flow_5_2
  /\ calculate_pwm_duty (F32.of_Z 1000) = 255.
Proof.
  destruct calculate_pwm_duty_monotone_bounded
    as (Hmono & _ & Hrange & _ & _ & _ & _ & Hlow & Hhigh).
  split; [|split; [|split]].
  - apply Hmono; reflexivity.
  - apply (Hrange (F32.of_Z 30)); reflexivity.
  - apply Hlow; reflexivity.
  - apply Hhigh; reflexivity.
Defined.

(** * The periodic functions and the dose requests *)

(** ** Pump loops, pump by pump *)

Lemma fold_all_pumps_view {S V : Type} (Inv : S -> Prop)
  (view : S -> PumpId -> V) (f : S -> PumpId -> S) (G : V -> V) :
  (forall s j, Inv s -> Inv (f s j)) ->
  (forall s i j, Inv s -> i <> j -> i <> COUNT -> j <> COUNT ->
     view (f s j) i = view s i) ->
  (forall s j, Inv s -> j <> COUNT -> view (f s j) j = G (view s j)) ->
  forall s i, Inv s -> i <> COUNT ->
    view (fold_left f all_pumps s) i = G (view s i).
Proof.
  intros Hinv Hframe Hloc s i Hs Hi.
  unfold all_pumps. cbn [fold_left].
  pose proof (Hinv s PH_UP Hs) as H1.
  pose proof (Hinv _ PH_DOWN H1) as H2.
  pose proof (Hinv _ NUTRIENT_A H2) as H3.
  destruct i; try congruence.
  - rewrite (Hframe _ PH_UP NUTRIENT_B H3) by discriminate.
    rewrite (Hframe _ PH_UP NUTRIENT_A H2) by discriminate.
    rewrite (Hframe _ PH_UP PH_DOWN H1) by discriminate.
    apply Hloc; [exact Hs | discriminate].
  - rewrite (Hframe _ PH_DOWN NUTRIENT_B H3) by discriminate.
    rewrite (Hframe _ PH_DOWN NUTRIENT_A H2) by discriminate.
    rewrite (Hloc _ PH_DOWN H1) by discriminate.
    rewrite (Hframe _ PH_DOWN PH_UP Hs) by discriminate.
    reflexivity.
  - rewrite (Hframe _ NUTRIENT_A NUTRIENT_B H3) by discriminate.
    rewrite (Hloc _ NUTRIENT_A H2) by discriminate.
    rewrite (Hframe _ NUTRIENT_A PH_DOWN H1) by discriminate.
    rewrite (Hframe _ NUTRIENT_A PH_UP Hs) by discriminate.
    reflexivity.
  - rewrite (Hloc _ NUTRIENT_B H3) by discriminate.
    rewrite (Hframe _ NUTRIENT_B NUTRIENT_A H2) by discriminate.
    rewrite (Hframe _ NUTRIENT_B PH_DOWN H1) by discriminate.
    rewrite (Hframe _ NUTRIENT_B PH_UP Hs) by discriminate.
    reflexivity.
Qed.

Lemma fold_all_pumps_keeps {S X : Type} (P : S -> X) (f : S -> PumpId -> S) :
  (forall s j, P (f s j) = P s) ->
  forall s, P (fold_left f all_pumps s) = P s.
Proof.
  intros H s. unfold all_pumps. cbn [fold_left].
  rewrite !H. reflexivity.
Qed.

Lemma pump_slot_with_pump_same (sm : state_manager_t) (i : PumpId)
  (s : PumpState.t) (t : Z) :
  i <> COUNT -> pump_slot (with_pump sm i s t) i = (s, t).
Proof.
  intros Hi. unfold pump_slot, with_pump. cbn [pump_states pump_state_entry_times].
  rewrite !get4_set4_same by exact Hi. reflexivity.
Qed.

Lemma pump_slot_with_pump_other (sm : state_manager_t) (i j : PumpId)
  (s : PumpState.t) (t : Z) :
  i <> j -> j <> COUNT -> pump_slot (with_pump sm i s t) j = pump_slot sm j.
Proof.
  intros Hij Hj. unfold pump_slot, with_pump.
  cbn [pump_states pump_state_entry_times].
  rewrite !get4_set4_other by assumption. reflexivity.
Qed.

(** The outcome of [pump_transition_to] on a valid index. *)
Lemma pump_transition_to_cases (sm : state_manager_t) (now : Z) (i : PumpId)
  (s : PumpState.t) :
  i <> COUNT ->
  pump_transition_to sm now i s
  = if is_valid_pump_transition (get4 (pump_states sm) i) s
    then (true, with_pump sm i s now) else (false, sm).
Proof.
  intros Hi. unfold pump_transition_to.
  rewrite (pump_index_guard i Hi).
  destruct (is_valid_pump_transition (get4 (pump_states sm) i) s); reflexivity.
Qed.

Lemma pump_transition_to_other (sm : state_manager_t) (now : Z) (i j : PumpId)
  (s : PumpState.t) :
  i <> j -> j <> COUNT ->
  pump_slot (snd (pump_transition_to sm now i s)) j = pump_slot sm j.
Proof.
  intros Hij Hj. unfold pump_transition_to.
  destruct (pump_index i >=? 4); [reflexivity|].
  destruct (negb (is_valid_pump_transition (get4 (pump_states sm) i) s));
    [reflexivity|].
  apply pump_slot_with_pump_other; assumption.
Qed.

Lemma request_pump_transition_snd (w : world) (now : Z) (i : PumpId)
  (s : PumpState.t) :
  snd (request_pump_transition w now i s)
  = with_state_manager w (snd (pump_transition_to (state_manager w) now i s)).
Proof.
  unfold request_pump_transition.
  destruct (pump_transition_to (state_manager w) now i s); reflexivity.
Qed.

Lemma u32_sub_self (t : Z) : u32_sub t t = 0.
Proof. unfold u32_sub. rewrite Z.sub_diag. reflexivity. Qed.

(** ** The pump machine *)

(** X1. [pump_transition_to] accepts a transition exactly when the
    index names a pump and either the target is IDLE, ERROR or
    MAINTENANCE, or the move is IDLE to PRIMING, PRIMING to DOSING or
    DOSING to COOLING_DOWN; no other entry of the legality table has
    an effect.  So a pump enters DOSING from PRIMING only and
    COOLING_DOWN from DOSING only.  An accepted transition stores the
    target and the time of the call for that pump; a refused one
    returns the state manager as it was. *)
Theorem pump_transition_accepted_iff :
  forall (sm : state_manager_t) (now : Z) (i : PumpId) (s : PumpState.t),
    let old := get4 (pump_states sm) i in
    (fst (pump_transition_to sm now i s) = true <->
     i <> COUNT
     /\ (s = PumpState.IDLE \/ s = PumpState.ERROR \/ s = PumpState.MAINTENANCE
         \/ (old = PumpState.IDLE /\ s = PumpState.PRIMING)
         \/ (old = PumpState.PRIMING /\ s = PumpState.DOSING)
         \/ (old = PumpState.DOSING /\ s = PumpState.COOLING_DOWN)))
    /\ (fst (pump_transition_to sm now i s) = true ->
        pump_slot (snd (pump_transition_to sm now i s)) i = (s, now))
    /\ (fst (pump_transition_to sm now i s) = false ->
        snd (pump_transition_to sm now i s) = sm).
Proof.
  intros sm now i s old. split; [|split].
  - split.
    + intros H. assert (Hi : i <> COUNT).
      { intros ->. discriminate H. }
      split; [exact Hi|].
      rewrite (pump_transition_to_cases sm now i s Hi) in H. fold old in H.
      destruct old, s; cbn in H; try discriminate H; tauto.
    + intros [Hi H].
      rewrite (pump_transition_to_cases sm now i s Hi). fold old.
      destruct H as [-> | [-> | [-> | [[-> ->] | [[-> ->] | [-> ->]]]]]];
        try reflexivity; destruct old; reflexivity.
  - intros H. assert (Hi : i <> COUNT).
    { intros ->. discriminate H. }
    rewrite (pump_transition_to_cases sm now i s Hi) in *.
    destruct (is_valid_pump_transition (get4 (pump_states sm) i) s);
      [|discriminate H].
    apply pump_slot_with_pump_same, Hi.
  - intros H. unfold pump_transition_to in *.
    destruct (pump_index i >=? 4); [reflexivity|].
    destruct (negb (is_valid_pump_transition (get4 (pump_states sm) i) s));
      [reflexivity | discriminate H].
Qed.

Lemma pump_transition_accepted_iff_witness :
  snd (pump_transition_to (state_manager_default 0) 7 PH_UP PumpState.DOSING)
  = state_manager_default 0.
Proof.
  apply (proj2 (proj2 (pump_transition_accepted_iff (state_manager_default 0)
                         7 PH_UP PumpState.DOSING))).
  reflexivity.
Defined.

(** X2. Time in state is measured in [uint32_t] arithmetic and
    survives the wrap of [millis()]: [d] milliseconds after an accepted
    transition at time [t], the duration reported is [d], also when
    [t + d] has passed [2^32].  For the device, each pump and the
    sensor. *)
Theorem state_duration_across_wraparound :
  forall (sm : state_manager_t) (t d : Z),
    0 <= t < 2 ^ 32 -> 0 <= d < 2 ^ 32 ->
    let later := (t + d) mod 2 ^ 32 in
    (forall s, fst (system_transition_to sm t s) = true ->
       system_get_state_duration_ms (snd (system_transition_to sm t s)) later
       = d)
    /\ (forall i s, fst (pump_transition_to sm t i s) = true ->
          pump_get_state_duration_ms (snd (pump_transition_to sm t i s))
            later i = d)
    /\ (forall s, fst (sensor_transition_to sm t s) = true ->
          sensor_get_state_duration_ms (snd (sensor_transition_to sm t s))
            later = d).
Proof.
  intros sm t d Ht Hd later.
  assert (E : u32_sub later t = d).
  { unfold u32_sub, later. rewrite Zminus_mod_idemp_l.
    replace (t + d - t) with d by ring. apply Z.mod_small. exact Hd. }
  split; [|split].
  - intros s H. unfold system_transition_to in *.
    destruct (negb (is_valid_system_transition (system_state sm) s));
      [discriminate H|]. exact E.
  - intros i s H. assert (Hi : i <> COUNT).
    { intros ->. discriminate H. }
    unfold pump_get_state_duration_ms. rewrite (pump_index_guard i Hi).
    rewrite (pump_transition_to_cases sm t i s Hi) in *.
    destruct (is_valid_pump_transition (get4 (pump_states sm) i) s);
      [|discriminate H].
    cbn [snd with_pump pump_state_entry_times].
    rewrite get4_set4_same by exact Hi. exact E.
  - intros s H. unfold sensor_transition_to in *.
    destruct (negb (is_valid_sensor_transition (sensor_state sm) s));
      [discriminate H|]. exact E.
Qed.

Lemma state_duration_across_wraparound_witness :
  pump_get_state_duration_ms
    (snd (pump_transition_to (state_manager_default 0) 4294967000 PH_UP
            PumpState.PRIMING)) ((4294967000 + 2500) mod 2 ^ 32) PH_UP = 2500.
Proof.
  refine (proj1 (proj2 (state_duration_across_wraparound
            (state_manager_default 0) 4294967000 2500 _ _)) PH_UP
            PumpState.PRIMING _).
  - vm_compute. split; [discriminate | reflexivity].
  - vm_compute. split; [discriminate | reflexivity].
  - reflexivity.
Defined.

(** ** The periodic sweep *)

Lemma maintenance_sweep_one_other (now : Z) (sm : state_manager_t)
  (i j : PumpId) :
  i <> j -> i <> COUNT ->
  pump_slot (maintenance_sweep_one now sm j) i = pump_slot sm i.
Proof.
  intros Hij Hi. unfold maintenance_sweep_one.
  destruct (negb (PumpState.eqb (get4 (pump_states sm) j) PumpState.MAINTENANCE)
            && negb (PumpState.eqb (get4 (pump_states sm) j) PumpState.IDLE));
    [|reflexivity].
  apply pump_transition_to_other; congruence.
Qed.

Lemma maintenance_sweep_one_same (now : Z) (sm : state_manager_t) (j : PumpId) :
  j <> COUNT ->
  pump_slot (maintenance_sweep_one now sm j) j
  = maintenance_slot now (pump_slot sm j).
Proof.
  intros Hj. unfold maintenance_sweep_one, maintenance_slot.
  rewrite (pump_transition_to_cases sm now j _ Hj).
  change (pump_slot sm j)
    with (get4 (pump_states sm) j, get4 (pump_state_entry_times sm) j).
  cbn [fst snd].
  destruct (get4 (pump_states sm) j) eqn:E; cbn [PumpState.eqb negb andb];
    try (unfold pump_slot; rewrite E; reflexivity);
    cbn [is_valid_pump_transition snd];
    apply pump_slot_with_pump_same, Hj.
Qed.

Lemma timeout_sweep_one_other (now : Z) (sm : state_manager_t) (i j : PumpId) :
  i <> j -> i <> COUNT ->
  pump_slot (timeout_sweep_one now sm j) i = pump_slot sm i.
Proof.
  intros Hij Hi. unfold timeout_sweep_one.
  set (sm1 := if PumpState.eqb (get4 (pump_states sm) j) PumpState.COOLING_DOWN
              then _ else _).
  assert (E1 : pump_slot sm1 i = pump_slot sm i).
  { subst sm1.
    destruct (PumpState.eqb (get4 (pump_states sm) j) PumpState.COOLING_DOWN);
      [|reflexivity].
    destruct (pump_get_state_duration_ms sm now j >? 300000); [|reflexivity].
    apply pump_transition_to_other; congruence. }
  rewrite <- E1.
  destruct (PumpState.eqb (get4 (pump_states sm1) j) PumpState.DOSING);
    [|reflexivity].
  destruct (pump_get_state_duration_ms sm1 now j >? 600000); [|reflexivity].
  apply pump_transition_to_other; congruence.
Qed.

Lemma timeout_sweep_one_same (now : Z) (sm : state_manager_t) (j : PumpId) :
  j <> COUNT ->
  pump_slot (timeout_sweep_one now sm j) j = timeout_slot now (pump_slot sm j).
Proof.
  intros Hj. unfold timeout_sweep_one, timeout_slot, pump_get_state_duration_ms.
  rewrite (pump_index_guard j Hj).
  rewrite !(fun s sm => pump_transition_to_cases sm now j s Hj).
  change (pump_slot sm j)
    with (get4 (pump_states sm) j, get4 (pump_state_entry_times sm) j).
  cbn [fst snd].
  destruct (get4 (pump_states sm) j) eqn:E; cbn [PumpState.eqb];
    try (rewrite E; cbn [PumpState.eqb]; unfold pump_slot; rewrite E;
         reflexivity).
  - (* DOSING *)
    rewrite E. cbn [PumpState.eqb is_valid_pump_transition snd].
    destruct (u32_sub now (get4 (pump_state_entry_times sm) j) >? 600000).
    + apply pump_slot_with_pump_same, Hj.
    + unfold pump_slot. rewrite E. reflexivity.
  - (* COOLING_DOWN *)
    cbn [is_valid_pump_transition snd].
    destruct (u32_sub now (get4 (pump_state_entry_times sm) j) >? 300000).
    + cbn [with_pump pump_states]. rewrite get4_set4_same by exact Hj.
      cbn [PumpState.eqb]. apply pump_slot_with_pump_same, Hj.
    + rewrite E. cbn [PumpState.eqb]. unfold pump_slot. rewrite E. reflexivity.
Qed.

Lemma pump_safety_check_one_other (now : Z) (w : world) (i j : PumpId) :
  i <> j -> i <> COUNT ->
  pump_slot (state_manager (pump_safety_check_one now w j)) i
  = pump_slot (state_manager w) i.
Proof.
  intros Hij Hi. unfold pump_safety_check_one.
  destruct (get4 (pump_states (state_manager w)) j); try reflexivity;
    match goal with
    | |- context [if ?b then _ else _] => destruct b; [|reflexivity]
    end;
    rewrite request_pump_transition_snd;
    cbn [state_manager with_state_manager store_pump with_pumps ledcWrite];
    apply pump_transition_to_other; congruence.
Qed.

Lemma pump_safety_check_one_same (now : Z) (w : world) (j : PumpId) :
  j <> COUNT ->
  pump_slot (state_manager (pump_safety_check_one now w j)) j
  = safety_slot now (pump_slot (state_manager w) j).
Proof.
  intros Hj. unfold pump_safety_check_one, safety_slot,
    pump_get_state_duration_ms, PUMP_TIMEOUT_MS.
  rewrite (pump_index_guard j Hj).
  change (pump_slot (state_manager w) j)
    with (get4 (pump_states (state_manager w)) j,
          get4 (pump_state_entry_times (state_manager w)) j).
  cbn [fst snd].
  destruct (get4 (pump_states (state_manager w)) j) eqn:E;
    try (unfold pump_slot; rewrite E; reflexivity);
    match goal with
    | |- context [if ?b then _ else _] =>
        destruct b; [|unfold pump_slot; rewrite E; reflexivity]
    end;
    rewrite request_pump_transition_snd;
    cbn [state_manager with_state_manager store_pump with_pumps ledcWrite];
    rewrite (pump_transition_to_cases _ now j _ Hj);
    cbn [is_valid_pump_transition snd];
    apply pump_slot_with_pump_same, Hj.
Qed.

Lemma pump_transition_to_device_part (sm : state_manager_t) (now : Z)
  (i : PumpId) (s : PumpState.t) :
  device_part (snd (pump_transition_to sm now i s)) = device_part sm.
Proof.
  unfold pump_transition_to.
  destruct (pump_index i >=? 4); [reflexivity|].
  destruct (negb (is_valid_pump_transition (get4 (pump_states sm) i) s));
    reflexivity.
Qed.

Lemma maintenance_sweep_one_device_part (now : Z) (sm : state_manager_t)
  (j : PumpId) :
  device_part (maintenance_sweep_one now sm j) = device_part sm.
Proof.
  unfold maintenance_sweep_one.
  destruct (_ && _); [apply pump_transition_to_device_part | reflexivity].
Qed.

Lemma timeout_sweep_one_device_part (now : Z) (sm : state_manager_t)
  (j : PumpId) :
  device_part (timeout_sweep_one now sm j) = device_part sm.
Proof.
  unfold timeout_sweep_one.
  set (sm1 := if PumpState.eqb (get4 (pump_states sm) j) PumpState.COOLING_DOWN
              then _ else _).
  assert (E1 : device_part sm1 = device_part sm).
  { subst sm1.
    destruct (PumpState.eqb (get4 (pump_states sm) j) PumpState.COOLING_DOWN);
      [|reflexivity].
    destruct (pump_get_state_duration_ms sm now j >? 300000); [|reflexivity].
    apply pump_transition_to_device_part. }
  rewrite <- E1.
  destruct (PumpState.eqb (get4 (pump_states sm1) j) PumpState.DOSING);
    [|reflexivity].
  destruct (pump_get_state_duration_ms sm1 now j >? 600000); [|reflexivity].
  apply pump_transition_to_device_part.
Qed.

Lemma pump_safety_check_one_device_part (now : Z) (w : world) (j : PumpId) :
  device_part (state_manager (pump_safety_check_one now w j))
  = device_part (state_manager w).
Proof.
  unfold pump_safety_check_one.
  destruct (get4 (pump_states (state_manager w)) j); try reflexivity;
    match goal with
    | |- context [if ?b then _ else _] => destruct b; [|reflexivity]
    end;
    rewrite request_pump_transition_snd;
    cbn [state_manager with_state_manager store_pump with_pumps ledcWrite];
    apply pump_transition_to_device_part.
Qed.

Lemma pump_safety_check_one_pump_system (now : Z) (w : world) (j : PumpId) :
  pump_system (pump_safety_check_one now w j) = pump_system w.
Proof.
  unfold pump_safety_check_one.
  destruct (get4 (pump_states (state_manager w)) j); try reflexivity;
    match goal with
    | |- context [if ?b then _ else _] => destruct b; [|reflexivity]
    end;
    rewrite request_pump_transition_snd; reflexivity.
Qed.

(** A pump that is IDLE, COOLING_DOWN or in MAINTENANCE is passed over
    by the safety check. *)
Lemma pump_safety_check_one_skips (now : Z) (w : world) (j : PumpId) :
  get4 (pump_states (state_manager w)) j = PumpState.IDLE
  \/ get4 (pump_states (state_manager w)) j = PumpState.MAINTENANCE
  \/ get4 (pump_states (state_manager w)) j = PumpState.COOLING_DOWN ->
  pump_safety_check_one now w j = w.
Proof.
  unfold pump_safety_check_one.
  intros [E | [E | E]]; rewrite E; reflexivity.
Qed.

Lemma pump_safety_check_slot (w : world) (now : Z) (i : PumpId) :
  i <> COUNT ->
  pump_slot (state_manager (pump_safety_check w now)) i
  = if initialized (pump_system w)
    then safety_slot now (pump_slot (state_manager w) i)
    else pump_slot (state_manager w) i.
Proof.
  intros Hi. unfold pump_safety_check.
  destruct (initialized (pump_system w)); [|reflexivity].
  cbn [negb].
  apply (fold_all_pumps_view (fun _ => True)
           (fun w i => pump_slot (state_manager w) i)
           (pump_safety_check_one now) (safety_slot now)); auto.
  - intros s a b _ Hab Ha _. apply pump_safety_check_one_other; assumption.
  - intros s j _ Hj. apply pump_safety_check_one_same, Hj.
Qed.

Lemma pump_safety_check_device_part (w : world) (now : Z) :
  device_part (state_manager (pump_safety_check w now))
  = device_part (state_manager w).
Proof.
  unfold pump_safety_check.
  destruct (negb (initialized (pump_system w))); [reflexivity|].
  apply (fold_all_pumps_keeps (fun w => device_part (state_manager w))).
  intros s j. apply pump_safety_check_one_device_part.
Qed.

Lemma error_recovery_sweep_pumps (sm : state_manager_t) (now : Z) (i : PumpId) :
  pump_slot (error_recovery_sweep sm now) i = pump_slot sm i.
Proof.
  unfold error_recovery_sweep, system_transition_to.
  destruct (SystemState.eqb (system_state sm) SystemState.ERROR);
    [|reflexivity].
  destruct (system_get_state_duration_ms sm now >? 5000); [|reflexivity].
  destruct (negb (is_valid_system_transition (system_state sm)
                    SystemState.MONITORING)); reflexivity.
Qed.

Lemma sensor_sweep_pumps (sm : state_manager_t) (now : Z) (i : PumpId) :
  pump_slot (sensor_sweep sm now) i = pump_slot sm i.
Proof.
  unfold sensor_sweep, sensor_transition_to.
  destruct (sensor_state sm); cbn; case_ifs; reflexivity.
Qed.

Lemma sensor_sweep_system (sm : state_manager_t) (now : Z) :
  system_state (sensor_sweep sm now) = system_state sm
  /\ system_state_entry_time (sensor_sweep sm now) = system_state_entry_time sm.
Proof.
  unfold sensor_sweep, sensor_transition_to.
  destruct (sensor_state sm); cbn; case_ifs; split; reflexivity.
Qed.

Lemma maintenance_sweep_slot (sm : state_manager_t) (now : Z) (i : PumpId) :
  i <> COUNT ->
  pump_slot (maintenance_sweep sm now) i
  = if SystemState.eqb (system_state sm) SystemState.MAINTENANCE
    then maintenance_slot now (pump_slot sm i) else pump_slot sm i.
Proof.
  intros Hi. unfold maintenance_sweep.
  destruct (SystemState.eqb (system_state sm) SystemState.MAINTENANCE);
    [|reflexivity].
  apply (fold_all_pumps_view (fun _ => True) pump_slot
           (maintenance_sweep_one now) (maintenance_slot now)); auto.
  - intros s a b _ Hab Ha _. apply maintenance_sweep_one_other; assumption.
  - intros s j _ Hj. apply maintenance_sweep_one_same, Hj.
Qed.

Lemma maintenance_sweep_device_part (sm : state_manager_t) (now : Z) :
  device_part (maintenance_sweep sm now) = device_part sm.
Proof.
  unfold maintenance_sweep.
  destruct (SystemState.eqb (system_state sm) SystemState.MAINTENANCE);
    [|reflexivity].
  apply (fold_all_pumps_keeps device_part).
  intros s j. apply maintenance_sweep_one_device_part.
Qed.

Lemma timeout_sweep_slot (sm : state_manager_t) (now : Z) (i : PumpId) :
  i <> COUNT ->
  pump_slot (fold_left (timeout_sweep_one now) all_pumps sm) i
  = timeout_slot now (pump_slot sm i).
Proof.
  intros Hi.
  apply (fold_all_pumps_view (fun _ => True) pump_slot
           (timeout_sweep_one now) (timeout_slot now)); auto.
  - intros s a b _ Hab Ha _. apply timeout_sweep_one_other; assumption.
  - intros s j _ Hj. apply timeout_sweep_one_same, Hj.
Qed.

Lemma timeout_sweep_device_part (sm : state_manager_t) (now : Z) :
  device_part (fold_left (timeout_sweep_one now) all_pumps sm) = device_part sm.
Proof.
  apply (fold_all_pumps_keeps device_part).
  intros s j. apply timeout_sweep_one_device_part.
Qed.

Lemma device_part_system (a b : state_manager_t) :
  device_part a = device_part b ->
  system_state a = system_state b
  /\ system_state_entry_time a = system_state_entry_time b
  /\ sensor_state a = sensor_state b
  /\ sensor_state_entry_time a = sensor_state_entry_time b.
Proof.
  unfold device_part. intros H. injection H as H1 H2 H3 H4 H5 H6 H7. auto.
Qed.

(** The pumps after one sweep, pump by pump. *)
Lemma state_machine_update_slot (w : world) (now : Z) (i : PumpId) :
  i <> COUNT ->
  pump_slot (state_manager (state_machine_update w now)) i
  = let sl0 := pump_slot (state_manager w) i in
    let sys1 := system_state (error_recovery_sweep (state_manager w) now) in
    let sl1 :=
      if SystemState.eqb sys1 SystemState.MAINTENANCE
      then maintenance_slot now sl0 else sl0 in
    let sl2 := timeout_slot now sl1 in
    if initialized (pump_system w) then safety_slot now sl2 else sl2.
Proof.
  intros Hi. unfold state_machine_update. cbv zeta.
  rewrite (pump_safety_check_slot _ now i Hi).
  cbn [pump_system state_manager with_state_manager].
  rewrite sensor_sweep_pumps.
  rewrite (timeout_sweep_slot _ now i Hi).
  rewrite (maintenance_sweep_slot _ now i Hi).
  rewrite error_recovery_sweep_pumps.
  reflexivity.
Qed.

(** The device after one sweep. *)
Lemma state_machine_update_system (w : world) (now : Z) :
  let sm' := state_manager (state_machine_update w now) in
  system_state sm' = system_state (error_recovery_sweep (state_manager w) now)
  /\ system_state_entry_time sm'
     = system_state_entry_time (error_recovery_sweep (state_manager w) now).
Proof.
  unfold state_machine_update. cbv zeta.
  destruct (device_part_system _ _ (pump_safety_check_device_part
    (with_state_manager w
       (sensor_sweep
          (fold_left (timeout_sweep_one now) all_pumps
             (maintenance_sweep (error_recovery_sweep (state_manager w) now)
                now)) now)) now)) as (E1 & E2 & _).
  rewrite E1, E2. cbn [state_manager with_state_manager].
  destruct (sensor_sweep_system
    (fold_left (timeout_sweep_one now) all_pumps
       (maintenance_sweep (error_recovery_sweep (state_manager w) now) now))
    now) as [E3 E4].
  rewrite E3, E4.
  destruct (device_part_system _ _ (timeout_sweep_device_part
    (maintenance_sweep (error_recovery_sweep (state_manager w) now) now) now))
    as (E5 & E6 & _).
  rewrite E5, E6.
  destruct (device_part_system _ _ (maintenance_sweep_device_part
    (error_recovery_sweep (state_manager w) now) now)) as (E7 & E8 & _).
  rewrite E7, E8. split; reflexivity.
Qed.

(** The sensor after one sweep. *)
Lemma state_machine_update_sensor (w : world) (now : Z) :
  let sm' := state_manager (state_machine_update w now) in
  sensor_state sm' = sensor_state (sensor_sweep (state_manager w) now)
  /\ sensor_state_entry_time sm'
     = sensor_state_entry_time (sensor_sweep (state_manager w) now).
Proof.
  unfold state_machine_update. cbv zeta.
  destruct (device_part_system _ _ (pump_safety_check_device_part
    (with_state_manager w
       (sensor_sweep
          (fold_left (timeout_sweep_one now) all_pumps
             (maintenance_sweep (error_recovery_sweep (state_manager w) now)
                now)) now)) now)) as (_ & _ & E1 & E2).
  rewrite E1, E2. cbn [state_manager with_state_manager].
  set (sm3 := fold_left (timeout_sweep_one now) all_pumps
       (maintenance_sweep (error_recovery_sweep (state_manager w) now) now)).
  assert (E : sensor_state sm3 = sensor_state (state_manager w)
              /\ sensor_state_entry_time sm3
                 = sensor_state_entry_time (state_manager w)).
  { subst sm3.
    destruct (device_part_system _ _ (timeout_sweep_device_part
      (maintenance_sweep (error_recovery_sweep (state_manager w) now) now) now))
      as (_ & _ & E5 & E6).
    rewrite E5, E6.
    destruct (device_part_system _ _ (maintenance_sweep_device_part
      (error_recovery_sweep (state_manager w) now) now)) as (_ & _ & E7 & E8).
    rewrite E7, E8.
    unfold error_recovery_sweep, system_transition_to.
    case_ifs; split; reflexivity. }
  destruct E as [Ea Eb]. clearbody sm3.
  unfold sensor_sweep, sensor_get_state_duration_ms, sensor_transition_to.
  rewrite Ea, Eb.
  destruct (sensor_state (state_manager w)) eqn:Es;
    cbn [SensorState.eqb andb is_valid_sensor_transition negb];
    case_ifs; split; cbn; congruence.
Qed.

(** Case split on every [if] of the goal, keeping the equations. *)
Ltac case_ifs_eqn :=
  repeat match goal with
         | |- context [if ?b then _ else _] =>
             let E := fresh "E" in destruct b eqn:E; cbn [fst snd]
         end.

Ltac gtb_facts :=
  repeat match goal with
         | H : (_ >? _) = false |- _ =>
             rewrite Z.gtb_ltb in H; apply Z.ltb_ge in H
         | H : (_ >? _) = true |- _ =>
             rewrite Z.gtb_ltb in H; apply Z.ltb_lt in H
         end.

(** X3. After one pass of [state_machine_update] no machine is left in
    a timed state beyond its limit, measured at the time of the pass:
    a pump in DOSING has been there for at most 600000 ms, in
    COOLING_DOWN for at most 300000 ms, and, once the pump system is
    initialised, in PRIMING for at most 5000 ms and in ERROR for at
    most 30000 ms; the device is in ERROR for at most 5000 ms; the
    sensor in ERROR for at most 10000 ms and in WARMING_UP for at most
    5000 ms. *)
Theorem state_machine_update_no_overstay :
  forall (w : world) (now : Z) (i : PumpId),
    i <> COUNT ->
    let sm' := state_manager (state_machine_update w now) in
    let st := get4 (pump_states sm') i in
    let d := pump_get_state_duration_ms sm' now i in
    (st = PumpState.DOSING -> d <= 600000)
    /\ (st = PumpState.COOLING_DOWN -> d <= 300000)
    /\ (initialized (pump_system w) = true ->
        st = PumpState.PRIMING -> d <= 5000)
    /\ (initialized (pump_system w) = true ->
        st = PumpState.ERROR -> d <= 30000)
    /\ (system_state sm' = SystemState.ERROR ->
        system_get_state_duration_ms sm' now <= 5000)
    /\ (sensor_state sm' = SensorState.ERROR ->
        sensor_get_state_duration_ms sm' now <= 10000)
    /\ (sensor_state sm' = SensorState.WARMING_UP ->
        sensor_get_state_duration_ms sm' now <= 5000).
Proof.
  intros w now i Hi sm' st d.
  pose proof (state_machine_update_slot w now i Hi) as H. cbv zeta in H.
  assert (Hst : st = fst (pump_slot sm' i)) by reflexivity.
  assert (Hd : d = u32_sub now (snd (pump_slot sm' i))).
  { unfold d, pump_get_state_duration_ms.
    rewrite (pump_index_guard i Hi). reflexivity. }
  fold sm' in H. rewrite H in Hst, Hd. clear H.
  destruct (state_machine_update_system w now) as [Hs1 Hs2].
  destruct (state_machine_update_sensor w now) as [Hn1 Hn2].
  fold sm' in Hs1, Hs2, Hn1, Hn2.
  unfold system_get_state_duration_ms, sensor_get_state_duration_ms.
  rewrite Hs1, Hs2, Hn1, Hn2.
  clearbody st d. clear Hs1 Hs2 Hn1 Hn2. clearbody sm'.
  split; [|split; [|split; [|split; [|split; [|split]]]]].
  - revert Hst Hd.
    destruct (pump_slot (state_manager w) i) as [s0 t0].
    unfold maintenance_slot, timeout_slot, safety_slot.
    destruct s0; cbn [fst snd]; case_ifs_eqn; cbn [fst snd];
      intros -> -> Hx; try discriminate Hx;
      rewrite ?u32_sub_self; gtb_facts; lia.
  - revert Hst Hd.
    destruct (pump_slot (state_manager w) i) as [s0 t0].
    unfold maintenance_slot, timeout_slot, safety_slot.
    destruct s0; cbn [fst snd]; case_ifs_eqn; cbn [fst snd];
      intros -> -> Hx; try discriminate Hx;
      rewrite ?u32_sub_self; gtb_facts; lia.
  - intros Hinit. rewrite Hinit in Hst, Hd. revert Hst Hd.
    destruct (pump_slot (state_manager w) i) as [s0 t0].
    unfold maintenance_slot, timeout_slot, safety_slot.
    destruct s0; cbn [fst snd]; case_ifs_eqn; cbn [fst snd];
      intros -> -> Hx; try discriminate Hx;
      rewrite ?u32_sub_self; gtb_facts; lia.
  - intros Hinit. rewrite Hinit in Hst, Hd. revert Hst Hd.
    destruct (pump_slot (state_manager w) i) as [s0 t0].
    unfold maintenance_slot, timeout_slot, safety_slot.
    destruct s0; cbn [fst snd]; case_ifs_eqn; cbn [fst snd];
      intros -> -> Hx; try discriminate Hx;
      rewrite ?u32_sub_self; gtb_facts; lia.
  - unfold error_recovery_sweep, system_transition_to,
      system_get_state_duration_ms.
    destruct (system_state (state_manager w)) eqn:Es;
      cbn [SystemState.eqb is_valid_system_transition negb orb];
      try (cbn; congruence).
    destruct (u32_sub now (system_state_entry_time (state_manager w)) >? 5000)
      eqn:E.
    + cbn. discriminate.
    + intros _. gtb_facts. exact E.
  - unfold sensor_sweep, sensor_transition_to, sensor_get_state_duration_ms.
    destruct (sensor_state (state_manager w)) eqn:Es;
      cbn [SensorState.eqb is_valid_sensor_transition negb orb andb];
      try (cbn; congruence).
    + destruct (u32_sub now (sensor_state_entry_time (state_manager w))
                >? 5000) eqn:E.
      * cbn. intros _. rewrite u32_sub_self. lia.
      * cbn. congruence.
    + destruct (u32_sub now (sensor_state_entry_time (state_manager w))
                >? 10000) eqn:E.
      * cbn. discriminate.
      * intros _. gtb_facts. exact E.
  - unfold sensor_sweep, sensor_transition_to, sensor_get_state_duration_ms.
    destruct (sensor_state (state_manager w)) eqn:Es;
      cbn [SensorState.eqb is_valid_sensor_transition negb orb andb];
      try (cbn; congruence).
    + destruct (u32_sub now (sensor_state_entry_time (state_manager w))
                >? 5000) eqn:E.
      * cbn. discriminate.
      * intros _. gtb_facts. exact E.
    + destruct (u32_sub now (sensor_state_entry_time (state_manager w))
                >? 10000) eqn:E.
      * cbn. discriminate.
      * cbn. congruence.
Qed.

Lemma state_machine_update_no_overstay_witness :
  let w :=
    with_state_manager monitoring_world
      (with_pump (state_manager monitoring_world) PH_DOWN PumpState.DOSING 0) in
  let sm' := state_manager (state_machine_update w 700000) in
  get4 (pump_states sm') PH_DOWN = PumpState.ERROR
  /\ pump_get_state_duration_ms sm' 700000 PH_DOWN <= 30000.
Proof.
  intros w sm'. split; [reflexivity|].
  assert (Hi : PH_DOWN <> COUNT) by discriminate.
  destruct (state_machine_update_no_overstay w 700000 PH_DOWN Hi)
    as (_ & _ & _ & H & _).
  apply H; reflexivity.
Defined.

(** X4. The moves one pass of [state_machine_update] (with
    [pump_safety_check] inside it) can make on a pump.  It never starts
    a pump: no pump enters PRIMING or DOSING.  An IDLE pump stays IDLE
    and a pump in MAINTENANCE stays in MAINTENANCE.  PRIMING and DOSING
    can only be kept or left for ERROR or MAINTENANCE, never for IDLE;
    COOLING_DOWN and ERROR can only be kept or left for IDLE or
    MAINTENANCE.  A pump whose state is the same after the pass keeps
    its entry time. *)
Theorem state_machine_update_pump_steps :
  forall (w : world) (now : Z) (i : PumpId),
    i <> COUNT ->
    let s := get4 (pump_states (state_manager w)) i in
    let s' := get4 (pump_states (state_manager (state_machine_update w now))) i in
    match s with
    | PumpState.IDLE => s' = PumpState.IDLE
    | PumpState.MAINTENANCE => s' = PumpState.MAINTENANCE
    | PumpState.PRIMING =>
        s' = PumpState.PRIMING \/ s' = PumpState.ERROR
        \/ s' = PumpState.MAINTENANCE
    | PumpState.DOSING =>
        s' = PumpState.DOSING \/ s' = PumpState.ERROR
        \/ s' = PumpState.MAINTENANCE
    | PumpState.COOLING_DOWN =>
        s' = PumpState.COOLING_DOWN \/ s' = PumpState.IDLE
        \/ s' = PumpState.MAINTENANCE
    | PumpState.ERROR =>
        s' = PumpState.ERROR \/ s' = PumpState.IDLE
        \/ s' = PumpState.MAINTENANCE
    end
    /\ (s' = s ->
        get4 (pump_state_entry_times (state_manager (state_machine_update w now)))
          i
        = get4 (pump_state_entry_times (state_manager w)) i).
Proof.
  intros w now i Hi s s'.
  pose proof (state_machine_update_slot w now i Hi) as H. cbv zeta in H.
  assert (Hs' : s' = fst (pump_slot (state_manager (state_machine_update w now)) i))
    by reflexivity.
  change (get4 (pump_state_entry_times (state_manager (state_machine_update w now))) i)
    with (snd (pump_slot (state_manager (state_machine_update w now)) i)).
  rewrite H in *. clear H. clearbody s'. subst s'.
  change (get4 (pump_state_entry_times (state_manager w)) i)
    with (snd (pump_slot (state_manager w) i)).
  change s with (fst (pump_slot (state_manager w) i)).
  clear s.
  destruct (pump_slot (state_manager w) i) as [s0 t0].
  unfold maintenance_slot, timeout_slot, safety_slot.
  destruct s0; cbn [fst snd]; case_ifs_eqn; cbn [fst snd];
    try (split; [tauto | intros Hx; try discriminate Hx; reflexivity]);
    rewrite u32_sub_self in *; discriminate.
Qed.

Lemma state_machine_update_pump_steps_witness :
  let w :=
    with_state_manager monitoring_world
      (with_pump (state_manager monitoring_world) PH_DOWN PumpState.PRIMING 0) in
  get4 (pump_states (state_manager (state_machine_update w 5001))) PH_DOWN
  = PumpState.ERROR
  /\ get4 (pump_states (state_manager (state_machine_update w 5001))) PH_UP
     = PumpState.IDLE.
Proof.
  intros w. split; [reflexivity|].
  assert (Hi : PH_UP <> COUNT) by discriminate.
  exact (proj1 (state_machine_update_pump_steps w 5001 PH_UP Hi)).
Defined.

Lemma pump_safety_check_skips_all (w : world) (now : Z) :
  (forall i, i <> COUNT ->
     get4 (pump_states (state_manager w)) i = PumpState.IDLE
     \/ get4 (pump_states (state_manager w)) i = PumpState.MAINTENANCE
     \/ get4 (pump_states (state_manager w)) i = PumpState.COOLING_DOWN) ->
  pump_safety_check w now = w.
Proof.
  intros H. unfold pump_safety_check.
  destruct (negb (initialized (pump_system w))); [reflexivity|].
  unfold all_pumps. cbn [fold_left].
  rewrite (pump_safety_check_one_skips now w PH_UP)
    by (apply H; discriminate).
  rewrite (pump_safety_check_one_skips now w PH_DOWN)
    by (apply H; discriminate).
  rewrite (pump_safety_check_one_skips now w NUTRIENT_A)
    by (apply H; discriminate).
  apply pump_safety_check_one_skips. apply H. discriminate.
Qed.

(** X5. While the device is in MAINTENANCE, one pass of
    [state_machine_update] leaves every pump IDLE (if it was IDLE) or
    in MAINTENANCE (from any other state), the device in MAINTENANCE,
    and writes nothing: the pump records and every PWM duty are as
    before, and [pump_update] passes over a pump in MAINTENANCE.  A
    pump that was running when maintenance mode was entered therefore
    keeps its output. *)
Theorem maintenance_parks_pumps_outputs_untouched :
  forall (w : world) (now : Z),
    system_state (state_manager w) = SystemState.MAINTENANCE ->
    let w' := state_machine_update w now in
    (forall i, i <> COUNT ->
       get4 (pump_states (state_manager w')) i
       = match get4 (pump_states (state_manager w)) i with
         | PumpState.IDLE => PumpState.IDLE
         | _ => PumpState.MAINTENANCE
         end)
    /\ system_state (state_manager w') = SystemState.MAINTENANCE
    /\ pumps w' = pumps w
    /\ ledc w' = ledc w
    /\ (forall i, i <> COUNT ->
          get4 (pump_states (state_manager w')) i = PumpState.MAINTENANCE ->
          pump_update_one now w' i = w').
Proof.
  intros w now Hm w'.
  assert (He : error_recovery_sweep (state_manager w) now = state_manager w).
  { unfold error_recovery_sweep. rewrite Hm. reflexivity. }
  assert (Hslot : forall i, i <> COUNT ->
    pump_slot (fold_left (timeout_sweep_one now) all_pumps
                 (maintenance_sweep (state_manager w) now)) i
    = match fst (pump_slot (state_manager w) i) with
      | PumpState.IDLE => pump_slot (state_manager w) i
      | PumpState.MAINTENANCE => pump_slot (state_manager w) i
      | _ => (PumpState.MAINTENANCE, now)
      end).
  { intros i Hi.
    rewrite (timeout_sweep_slot _ now i Hi).
    rewrite (maintenance_sweep_slot _ now i Hi).
    rewrite Hm. cbn [SystemState.eqb].
    destruct (pump_slot (state_manager w) i) as [s0 t0].
    unfold maintenance_slot, timeout_slot.
    destruct s0; reflexivity. }
  assert (Hw' : w' = with_state_manager w
                       (sensor_sweep
                          (fold_left (timeout_sweep_one now) all_pumps
                             (maintenance_sweep (state_manager w) now)) now)).
  { unfold w', state_machine_update. cbv zeta. rewrite He.
    apply pump_safety_check_skips_all.
    intros i Hi. cbn [state_manager with_state_manager].
    change (get4 (pump_states ?sm) i) with (fst (pump_slot sm i)).
    rewrite sensor_sweep_pumps, (Hslot i Hi).
    destruct (pump_slot (state_manager w) i) as [s0 t0].
    destruct s0; cbn [fst]; tauto. }
  assert (Hst : forall i, i <> COUNT ->
       get4 (pump_states (state_manager w')) i
       = match get4 (pump_states (state_manager w)) i with
         | PumpState.IDLE => PumpState.IDLE
         | _ => PumpState.MAINTENANCE
         end).
  { intros i Hi. rewrite Hw'. cbn [state_manager with_state_manager].
    change (get4 (pump_states ?sm) i) with (fst (pump_slot sm i)).
    rewrite sensor_sweep_pumps, (Hslot i Hi).
    destruct (pump_slot (state_manager w) i) as [s0 t0].
    destruct s0; reflexivity. }
  split; [exact Hst|].
  split.
  { destruct (state_machine_update_system w now) as [E _].
    fold w' in E. rewrite E, He. exact Hm. }
  split; [rewrite Hw'; reflexivity|].
  split; [rewrite Hw'; reflexivity|].
  intros i Hi E. unfold pump_update_one. rewrite E. reflexivity.
Qed.

Lemma maintenance_parks_pumps_outputs_untouched_witness :
  let w0 := snd (pump_ph_dose monitoring_world 300000 (F32.of_Z 7)
                   (F32.of_Z 20)) in
  let w1 := pump_update w0 300010 in
  let w2 := state_machine_update (cli_maintenance w1 300020) 300030 in
  ledc w1 PUMP_PH_DOWN_PIN = 63
  /\ get4 (pump_states (state_manager w2)) PH_DOWN = PumpState.MAINTENANCE
  /\ ledc w2 = ledc (cli_maintenance w1 300020).
Proof.
  intros w0 w1 w2.
  split; [vm_compute; reflexivity|].
  split; [vm_compute; reflexivity|].
  assert (Hm : system_state (state_manager (cli_maintenance w1 300020))
               = SystemState.MAINTENANCE) by (vm_compute; reflexivity).
  exact (proj1 (proj2 (proj2 (proj2
           (maintenance_parks_pumps_outputs_untouched
              (cli_maintenance w1 300020) 300030 Hm))))).
Defined.

(** ** The sequencer, pump by pump *)

Ltac world_fields :=
  cbn [state_manager pumps pump_system ledc with_state_manager store_pump
       with_pumps ledcWrite with_pump pump_states pump_state_entry_times
       snd fst].

Lemma pump_view_eq (w : world) (i : PumpId) :
  pump_view w i
  = (get4 (pump_states (state_manager w)) i,
     get4 (pump_state_entry_times (state_manager w)) i, get4 (pumps w) i).
Proof. reflexivity. Qed.

Lemma pump_update_one_view_same (now : Z) (w : world) (j : PumpId) :
  j <> COUNT ->
  pump_view (pump_update_one now w j) j = sequencer_view now (pump_view w j).
Proof.
  intros Hj. unfold pump_update_one, sequencer_view, pump_get_state_duration_ms.
  rewrite (pump_index_guard j Hj).
  rewrite (pump_view_eq w j). cbn [fst snd].
  destruct (get4 (pump_states (state_manager w)) j) eqn:E;
    try match goal with
      | |- context [if ?b then _ else _] => destruct b
      end;
    try match goal with
      | |- context [if ?b then _ else _] => destruct b
      end;
    rewrite ?request_pump_transition_snd;
    rewrite ?(fun sm s => pump_transition_to_cases sm now j s Hj);
    world_fields; rewrite ?E; cbn [is_valid_pump_transition PumpState.eqb snd];
    rewrite pump_view_eq; world_fields;
    rewrite ?get4_set4_same by exact Hj; rewrite ?E; reflexivity.
Qed.

Lemma pump_update_one_view_other (now : Z) (w : world) (i j : PumpId) :
  i <> j -> i <> COUNT ->
  pump_view (pump_update_one now w j) i = pump_view w i.
Proof.
  intros Hij Hi. assert (Hji : j <> i) by congruence.
  unfold pump_update_one.
  destruct (get4 (pump_states (state_manager w)) j) eqn:E;
    try match goal with
      | |- context [if ?b then _ else _] => destruct b
      end;
    try match goal with
      | |- context [if ?b then _ else _] => destruct b
      end;
    rewrite ?request_pump_transition_snd;
    rewrite !pump_view_eq; world_fields;
    rewrite ?(get4_set4_other _ j i) by assumption;
    try reflexivity;
    match goal with
    | |- context [pump_transition_to ?sm now j ?s] =>
        pose proof (pump_transition_to_other sm now j i s Hji Hi) as Ho;
        unfold pump_slot in Ho; injection Ho as -> ->
    end;
    world_fields; reflexivity.
Qed.

Lemma pump_update_one_gpio (now : Z) (w : world) (j k : PumpId) :
  gpio_pin (get4 (pumps (pump_update_one now w j)) k)
  = gpio_pin (get4 (pumps w) k).
Proof.
  unfold pump_update_one.
  destruct (get4 (pump_states (state_manager w)) j) eqn:E;
    try match goal with
      | |- context [if ?b then _ else _] => destruct b
      end;
    try match goal with
      | |- context [if ?b then _ else _] => destruct b
      end;
    rewrite ?request_pump_transition_snd; world_fields;
    try reflexivity;
    destruct (pumps w) as [p0 p1 p2 p3]; destruct j, k; reflexivity.
Qed.

Lemma pump_update_one_ledc_other (now : Z) (w : world) (j : PumpId) (q : Z) :
  q <> gpio_pin (get4 (pumps w) j) ->
  ledc (pump_update_one now w j) q = ledc w q.
Proof.
  intros Hq. apply Z.eqb_neq in Hq.
  unfold pump_update_one.
  destruct (get4 (pump_states (state_manager w)) j) eqn:E;
    try match goal with
      | |- context [if ?b then _ else _] => destruct b
      end;
    try match goal with
      | |- context [if ?b then _ else _] => destruct b
      end;
    rewrite ?request_pump_transition_snd; world_fields;
    rewrite ?Hq; reflexivity.
Qed.

Lemma pump_update_one_ledc_same (now : Z) (w : world) (j : PumpId) :
  j <> COUNT ->
  ledc (pump_update_one now w j) (gpio_pin (get4 (pumps w) j))
  = sequencer_duty now (pump_view w j) (ledc w (gpio_pin (get4 (pumps w) j))).
Proof.
  intros Hj. unfold pump_update_one, sequencer_duty, pump_get_state_duration_ms.
  rewrite (pump_index_guard j Hj).
  rewrite (pump_view_eq w j). cbn [fst snd].
  destruct (get4 (pump_states (state_manager w)) j) eqn:E;
    try match goal with
      | |- context [if ?b then _ else _] => destruct b
      end;
    try match goal with
      | |- context [if ?b then _ else _] => destruct b
      end;
    rewrite ?request_pump_transition_snd; world_fields;
    rewrite ?Z.eqb_refl; reflexivity.
Qed.

Lemma pump_update_one_keeps (now : Z) (w : world) (j : PumpId) :
  device_part (state_manager (pump_update_one now w j))
  = device_part (state_manager w)
  /\ pump_system (pump_update_one now w j) = pump_system w.
Proof.
  unfold pump_update_one.
  destruct (get4 (pump_states (state_manager w)) j) eqn:E;
    try match goal with
      | |- context [if ?b then _ else _] => destruct b
      end;
    try match goal with
      | |- context [if ?b then _ else _] => destruct b
      end;
    rewrite ?request_pump_transition_snd; world_fields;
    rewrite ?pump_transition_to_device_part; split; reflexivity.
Qed.

Lemma pins_distinct_pump_update_one (now : Z) (w : world) (j : PumpId) :
  pins_distinct w -> pins_distinct (pump_update_one now w j).
Proof.
  intros H a b Ha Hb Hab. rewrite !pump_update_one_gpio. apply H; assumption.
Qed.

(** The loop of [pump_update] treats each pump on its own. *)
Lemma pump_update_view (w : world) (now : Z) (i : PumpId) :
  initialized (pump_system w) = true -> i <> COUNT ->
  pump_view (pump_update w now) i = sequencer_view now (pump_view w i).
Proof.
  intros Hinit Hi. unfold pump_update. rewrite Hinit. cbn [negb].
  apply (fold_all_pumps_view (fun _ => True) pump_view (pump_update_one now)
           (sequencer_view now)); auto.
  - intros s a b _ Hab Ha _. apply pump_update_one_view_other; assumption.
  - intros s j _ Hj. apply pump_update_one_view_same, Hj.
Qed.

Lemma pump_update_ledc (w : world) (now : Z) (i : PumpId) :
  initialized (pump_system w) = true -> pins_distinct w -> i <> COUNT ->
  ledc (pump_update w now) (gpio_pin (get4 (pumps w) i))
  = sequencer_duty now (pump_view w i) (ledc w (gpio_pin (get4 (pumps w) i))).
Proof.
  intros Hinit Hpins Hi. unfold pump_update. rewrite Hinit. cbn [negb].
  pose proof (fold_all_pumps_view pins_distinct
    (fun w i => (pump_view w i, gpio_pin (get4 (pumps w) i),
                 ledc w (gpio_pin (get4 (pumps w) i))))
    (pump_update_one now)
    (fun x => (sequencer_view now (fst (fst x)), snd (fst x),
               sequencer_duty now (fst (fst x)) (snd x)))) as H.
  cbn beta in H.
  specialize (H (fun s j => pins_distinct_pump_update_one now s j)).
  assert (H1 : forall (s : world) (a b : PumpId),
    pins_distinct s -> a <> b -> a <> COUNT -> b <> COUNT ->
    (pump_view (pump_update_one now s b) a,
     gpio_pin (get4 (pumps (pump_update_one now s b)) a),
     ledc (pump_update_one now s b)
       (gpio_pin (get4 (pumps (pump_update_one now s b)) a)))
    = (pump_view s a, gpio_pin (get4 (pumps s) a),
       ledc s (gpio_pin (get4 (pumps s) a)))).
  { intros s a b Hs Hab Ha Hb.
    rewrite pump_update_one_gpio.
    rewrite (pump_update_one_view_other now s a b Hab Ha).
    rewrite pump_update_one_ledc_other by (apply Hs; assumption).
    reflexivity. }
  specialize (H H1).
  assert (H2 : forall (s : world) (j : PumpId),
    pins_distinct s -> j <> COUNT ->
    (pump_view (pump_update_one now s j) j,
     gpio_pin (get4 (pumps (pump_update_one now s j)) j),
     ledc (pump_update_one now s j)
       (gpio_pin (get4 (pumps (pump_update_one now s j)) j)))
    = (sequencer_view now (fst (fst (pump_view s j, gpio_pin (get4 (pumps s) j),
                                  ledc s (gpio_pin (get4 (pumps s) j))))),
       snd (fst (pump_view s j, gpio_pin (get4 (pumps s) j),
                 ledc s (gpio_pin (get4 (pumps s) j)))),
       sequencer_duty now
         (fst (fst (pump_view s j, gpio_pin (get4 (pumps s) j),
                    ledc s (gpio_pin (get4 (pumps s) j)))))
         (snd (pump_view s j, gpio_pin (get4 (pumps s) j),
               ledc s (gpio_pin (get4 (pumps s) j)))))).
  { intros s j Hs Hj. cbn [fst snd].
    rewrite pump_update_one_gpio.
    rewrite (pump_update_one_view_same now s j Hj).
    rewrite (pump_update_one_ledc_same now s j Hj). reflexivity. }
  specialize (H H2 w i Hpins Hi).
  pose proof (f_equal (fun x => snd (fst x)) H) as Hg.
  pose proof (f_equal snd H) as Hl.
  cbv beta in Hg. cbn [fst snd] in Hg, Hl.
  rewrite Hg in Hl. exact Hl.
Qed.

Lemma priming_pwm_63 : priming_pwm = 63.
Proof. vm_compute. reflexivity. Qed.

(** X6. [pump_update], once the pump system is initialised, treats the
    four pumps independently.  The only state changes it makes are
    PRIMING to DOSING once 2500 ms have passed and DOSING to
    COOLING_DOWN once the planned run time has passed, each stamped
    with the time of the call; every other pump keeps state and entry
    time.  Of the pump record only the [running] flag can change: the
    controller (gains, target, counters, totals), the pin, the planned
    run time, the target duty and the start time are untouched. *)
Theorem pump_update_state_steps :
  forall (w : world) (now : Z) (i : PumpId),
    initialized (pump_system w) = true -> i <> COUNT ->
    let w' := pump_update w now in
    let s := get4 (pump_states (state_manager w)) i in
    let t := get4 (pump_state_entry_times (state_manager w)) i in
    let p := get4 (pumps w) i in
    let p' := get4 (pumps w') i in
    pump_slot (state_manager w') i
    = match s with
      | PumpState.PRIMING =>
          if u32_sub now t <? 2500 then (s, t) else (PumpState.DOSING, now)
      | PumpState.DOSING =>
          if u32_sub now t <? run_duration_ms p then (s, t)
          else (PumpState.COOLING_DOWN, now)
      | _ => (s, t)
      end
    /\ controller p' = controller p
    /\ gpio_pin p' = gpio_pin p
    /\ run_duration_ms p' = run_duration_ms p
    /\ target_pwm_duty p' = target_pwm_duty p
    /\ start_time p' = start_time p.
Proof.
  intros w now i Hinit Hi w' s t p p'.
  pose proof (pump_update_view w now i Hinit Hi) as H.
  fold w' in H. rewrite !pump_view_eq in H. fold s t p p' in H.
  unfold pump_slot.
  unfold sequencer_view in H. cbn [fst snd] in H.
  destruct s;
    repeat match type of H with
      | context [if ?b then _ else _] => destruct b
      end;
    injection H as -> -> ->; repeat split; reflexivity.
Qed.

Lemma pump_update_state_steps_witness :
  let w :=
    with_state_manager monitoring_world
      (with_pump (state_manager monitoring_world) PH_UP PumpState.PRIMING 0) in
  pump_slot (state_manager (pump_update w 2500)) PH_UP
  = (PumpState.DOSING, 2500).
Proof.
  intros w.
  assert (Hinit : initialized (pump_system w) = true) by reflexivity.
  assert (Hi : PH_UP <> COUNT) by discriminate.
  exact (proj1 (pump_update_state_steps w 2500 PH_UP Hinit Hi)).
Defined.

(** X7. With four different pins, each pass of [pump_update] leaves the
    outputs consistent with the pump states: a pump that is IDLE,
    COOLING_DOWN or in ERROR after the pass has duty 0 on its pin and
    [running = false]; a pump that is PRIMING after the pass has the
    priming duty 63 and [running = true]; a pump in MAINTENANCE keeps
    its duty and its record. *)
Theorem pump_update_outputs_follow_states :
  forall (w : world) (now : Z) (i : PumpId),
    initialized (pump_system w) = true -> pins_distinct w -> i <> COUNT ->
    let w' := pump_update w now in
    let s' := get4 (pump_states (state_manager w')) i in
    let pin := gpio_pin (get4 (pumps w') i) in
    (s' = PumpState.IDLE \/ s' = PumpState.COOLING_DOWN
     \/ s' = PumpState.ERROR ->
     ledc w' pin = 0 /\ running (get4 (pumps w') i) = false)
    /\ (s' = PumpState.PRIMING ->
        ledc w' pin = 63 /\ running (get4 (pumps w') i) = true)
    /\ (get4 (pump_states (state_manager w)) i = PumpState.MAINTENANCE ->
        ledc w' pin = ledc w pin
        /\ get4 (pumps w') i = get4 (pumps w) i).
Proof.
  intros w now i Hinit Hpins Hi w' s' pin.
  pose proof (pump_update_view w now i Hinit Hi) as H.
  pose proof (pump_update_ledc w now i Hinit Hpins Hi) as L.
  fold w' in H, L. rewrite !pump_view_eq in H. rewrite pump_view_eq in L.
  fold s' in H.
  unfold sequencer_view in H. unfold sequencer_duty in L.
  cbn [fst snd] in H, L.
  assert (Hpin : pin = gpio_pin (get4 (pumps w) i)).
  { unfold pin.
    destruct (get4 (pump_states (state_manager w)) i);
      repeat match type of H with
        | context [if ?b then _ else _] => destruct b
        end;
      injection H as _ _ ->; reflexivity. }
  rewrite Hpin. clearbody pin s'.
  destruct (get4 (pump_states (state_manager w)) i);
    repeat match type of H with
      | context [if ?b then _ else _] =>
          let E := fresh "E" in destruct b eqn:E; rewrite ?E in L
      end;
    injection H as -> _ ->;
    (split; [|split]);
    try (intros [Hx | [Hx | Hx]]; discriminate Hx);
    try (intros Hx; discriminate Hx);
    intros _; rewrite ?L, ?priming_pwm_63; split; reflexivity.
Qed.

Lemma pins_distinct_monitoring_world : pins_distinct monitoring_world.
Proof.
  intros i j Hi Hj Hij.
  destruct i, j; try congruence; vm_compute; discriminate.
Qed.

Lemma pump_update_outputs_follow_states_witness :
  ledc (pump_update monitoring_world 5) PUMP_PH_UP_PIN = 0
  /\ running (get4 (pumps (pump_update monitoring_world 5)) PH_UP) = false.
Proof.
  assert (Hinit : initialized (pump_system monitoring_world) = true)
    by reflexivity.
  assert (Hi : PH_UP <> COUNT) by discriminate.
  apply (proj1 (pump_update_outputs_follow_states monitoring_world 5 PH_UP
                  Hinit pins_distinct_monitoring_world Hi)).
  left. reflexivity.
Defined.

(** X8. With four different pins, [pump_update] writes the target duty
    of a dose at one instant only: on a pump in DOSING whose planned
    run is not over, the pin gets the target duty if the time in state
    is exactly 0 ms and keeps the duty it had otherwise; the pass that
    moves a pump from PRIMING to DOSING keeps the duty too.  Once the
    planned run is over the pin gets duty 0. *)
Theorem pump_update_target_duty_only_at_entry :
  forall (w : world) (now : Z) (i : PumpId),
    initialized (pump_system w) = true -> pins_distinct w -> i <> COUNT ->
    let w' := pump_update w now in
    let p := get4 (pumps w) i in
    let s := get4 (pump_states (state_manager w)) i in
    let d := u32_sub now (get4 (pump_state_entry_times (state_manager w)) i) in
    (s = PumpState.PRIMING -> 2500 <= d ->
     ledc w' (gpio_pin p) = ledc w (gpio_pin p)
     /\ get4 (pump_states (state_manager w')) i = PumpState.DOSING)
    /\ (s = PumpState.DOSING -> d < run_duration_ms p ->
        ledc w' (gpio_pin p)
        = (if d =? 0 then target_pwm_duty p else ledc w (gpio_pin p))
        /\ get4 (pump_states (state_manager w')) i = PumpState.DOSING)
    /\ (s = PumpState.DOSING -> run_duration_ms p <= d ->
        ledc w' (gpio_pin p) = 0
        /\ get4 (pump_states (state_manager w')) i = PumpState.COOLING_DOWN).
Proof.
  intros w now i Hinit Hpins Hi w' p s d.
  pose proof (pump_update_view w now i Hinit Hi) as H.
  pose proof (pump_update_ledc w now i Hinit Hpins Hi) as L.
  fold w' in H, L. rewrite !pump_view_eq in H. rewrite pump_view_eq in L.
  fold p s in H, L. fold p in L.
  unfold sequencer_view in H. unfold sequencer_duty in L.
  cbn [fst snd] in H, L. fold d in H, L.
  pose proof (f_equal (fun v => fst (fst v)) H) as Hs. cbv beta in Hs.
  cbn [fst] in Hs. clear H.
  split; [|split].
  - intros E Hd. rewrite E in Hs, L.
    apply Z.ltb_ge in Hd. rewrite Hd in Hs, L.
    split; [exact L | exact Hs].
  - intros E Hd. rewrite E in Hs, L.
    apply Z.ltb_lt in Hd. rewrite Hd in Hs, L.
    split; [exact L | exact Hs].
  - intros E Hd. rewrite E in Hs, L.
    apply Z.ltb_ge in Hd. rewrite Hd in Hs, L.
    split; [exact L | exact Hs].
Qed.

Lemma pump_update_target_duty_only_at_entry_witness :
  let w0 := snd (pump_ph_dose monitoring_world 300000 (F32.of_Z 7)
                   (F32.of_Z 20)) in
  let w1 := pump_update (pump_update w0 300010) 302500 in
  get4 (pump_states (state_manager w1)) PH_DOWN = PumpState.DOSING
  /\ target_pwm_duty (get4 (pumps w1) PH_DOWN) = 92
  /\ ledc w1 PUMP_PH_DOWN_PIN = 63
  /\ ledc (pump_update w1 302510) PUMP_PH_DOWN_PIN = 63.
Proof.
  intros w0 w1.
  assert (Hs : get4 (pump_states (state_manager w1)) PH_DOWN
               = PumpState.DOSING) by (vm_compute; reflexivity).
  assert (Hl : ledc w1 PUMP_PH_DOWN_PIN = 63) by (vm_compute; reflexivity).
  split; [exact Hs|]. split; [vm_compute; reflexivity|]. split; [exact Hl|].
  assert (Hinit : initialized (pump_system w1) = true)
    by (vm_compute; reflexivity).
  assert (Hpins : pins_distinct w1).
  { intros i j Hi Hj Hij.
    destruct i, j; try congruence; intros E; vm_compute in E; discriminate E. }
  assert (Hi : PH_DOWN <> COUNT) by discriminate.
  destruct (pump_update_target_duty_only_at_entry w1 302510 PH_DOWN Hinit
              Hpins Hi) as (_ & H & _).
  destruct (H Hs) as [E _]; [vm_compute; reflexivity|].
  change (gpio_pin (get4 (pumps w1) PH_DOWN)) with PUMP_PH_DOWN_PIN in E.
  rewrite E, Hl. reflexivity.
Defined.

(** ** Stopping *)

Lemma pump_stop_all_fold (w : world) (now : Z) :
  pump_stop_all w now = fold_left (pump_stop_one now) all_pumps w.
Proof. reflexivity. Qed.

Lemma pump_stop_one_view_same (now : Z) (w : world) (j : PumpId) :
  j <> COUNT ->
  pump_view (pump_stop_one now w j) j
  = (PumpState.IDLE, now, with_running (get4 (pumps w) j) false).
Proof.
  intros Hj. unfold pump_stop_one. cbv zeta.
  rewrite request_pump_transition_snd.
  rewrite (pump_transition_to_cases _ now j _ Hj).
  cbn [is_valid_pump_transition snd].
  rewrite pump_view_eq. world_fields.
  rewrite !get4_set4_same by exact Hj. reflexivity.
Qed.

Lemma pump_stop_one_view_other (now : Z) (w : world) (i j : PumpId) :
  i <> j -> i <> COUNT ->
  pump_view (pump_stop_one now w j) i = pump_view w i.
Proof.
  intros Hij Hi. assert (Hji : j <> i) by congruence.
  unfold pump_stop_one. cbv zeta.
  rewrite request_pump_transition_snd.
  rewrite !pump_view_eq. world_fields.
  rewrite (get4_set4_other _ j i) by assumption.
  match goal with
  | |- context [pump_transition_to ?sm now j ?s] =>
      pose proof (pump_transition_to_other sm now j i s Hji Hi) as Ho;
      unfold pump_slot in Ho; injection Ho as -> ->
  end.
  reflexivity.
Qed.

Lemma pump_stop_one_gpio (now : Z) (w : world) (j k : PumpId) :
  gpio_pin (get4 (pumps (pump_stop_one now w j)) k)
  = gpio_pin (get4 (pumps w) k).
Proof.
  unfold pump_stop_one. cbv zeta.
  rewrite request_pump_transition_snd. world_fields.
  destruct (pumps w) as [p0 p1 p2 p3]; destruct j, k; reflexivity.
Qed.

Lemma pump_stop_one_ledc (now : Z) (w : world) (j : PumpId) (q : Z) :
  ledc (pump_stop_one now w j) q
  = if q =? gpio_pin (get4 (pumps w) j) then 0 else ledc w q.
Proof.
  unfold pump_stop_one. cbv zeta.
  rewrite request_pump_transition_snd. reflexivity.
Qed.

Lemma pump_stop_one_keeps (now : Z) (w : world) (j : PumpId) :
  device_part (state_manager (pump_stop_one now w j))
  = device_part (state_manager w)
  /\ pump_system (pump_stop_one now w j) = pump_system w.
Proof.
  unfold pump_stop_one. cbv zeta.
  rewrite request_pump_transition_snd. world_fields.
  rewrite pump_transition_to_device_part. split; reflexivity.
Qed.

Lemma pump_stop_all_ledc (w : world) (now : Z) (q : Z) :
  ledc (pump_stop_all w now) q
  = if q =? gpio_pin (get4 (pumps w) NUTRIENT_B) then 0
    else if q =? gpio_pin (get4 (pumps w) NUTRIENT_A) then 0
    else if q =? gpio_pin (get4 (pumps w) PH_DOWN) then 0
    else if q =? gpio_pin (get4 (pumps w) PH_UP) then 0
    else ledc w q.
Proof.
  rewrite pump_stop_all_fold. unfold all_pumps. cbn [fold_left].
  rewrite !pump_stop_one_ledc, !pump_stop_one_gpio. reflexivity.
Qed.

Lemma pump_stop_all_view (w : world) (now : Z) (i : PumpId) :
  i <> COUNT ->
  pump_view (pump_stop_all w now) i
  = (PumpState.IDLE, now, with_running (get4 (pumps w) i) false).
Proof.
  intros Hi. rewrite pump_stop_all_fold.
  rewrite (fold_all_pumps_view (fun _ => True) pump_view (pump_stop_one now)
             (fun v => (PumpState.IDLE, now, with_running (snd v) false)));
    auto.
  - intros s a b _ Hab Ha _. apply pump_stop_one_view_other; assumption.
  - intros s j _ Hj. apply pump_stop_one_view_same, Hj.
Qed.

Lemma pump_stop_all_keeps (w : world) (now : Z) :
  device_part (state_manager (pump_stop_all w now))
  = device_part (state_manager w)
  /\ pump_system (pump_stop_all w now) = pump_system w.
Proof.
  rewrite pump_stop_all_fold. split.
  - apply (fold_all_pumps_keeps (fun w => device_part (state_manager w))).
    intros s j. apply pump_stop_one_keeps.
  - apply (fold_all_pumps_keeps pump_system).
    intros s j. apply pump_stop_one_keeps.
Qed.

Lemma pump_stop_all_pins_zero (w : world) (now : Z) (i : PumpId) :
  i <> COUNT -> ledc (pump_stop_all w now) (gpio_pin (get4 (pumps w) i)) = 0.
Proof.
  intros Hi. rewrite pump_stop_all_ledc.
  destruct i; try congruence; rewrite ?Z.eqb_refl; case_ifs; reflexivity.
Qed.

(** X9. [pump_stop_all] puts every pump in IDLE, stamped with the time
    of the call, clears its [running] flag and writes duty 0 to its
    pin, from every prior state; the rest of each pump record, every
    other pin, the device and sensor states and the pump-system flags
    are unchanged. *)
Theorem pump_stop_all_effects :
  forall (w : world) (now : Z),
    let w' := pump_stop_all w now in
    (forall i, i <> COUNT ->
       pump_view w' i
       = (PumpState.IDLE, now, with_running (get4 (pumps w) i) false)
       /\ ledc w' (gpio_pin (get4 (pumps w) i)) = 0)
    /\ (forall q, (forall i, i <> COUNT -> q <> gpio_pin (get4 (pumps w) i)) ->
          ledc w' q = ledc w q)
    /\ system_state (state_manager w') = system_state (state_manager w)
    /\ sensor_state (state_manager w') = sensor_state (state_manager w)
    /\ pump_system w' = pump_system w.
Proof.
  intros w now w'. subst w'.
  split; [|split].
  - intros i Hi. split; [apply pump_stop_all_view, Hi|].
    apply pump_stop_all_pins_zero, Hi.
  - intros q Hq. rewrite pump_stop_all_ledc.
    pose proof (Hq PH_UP ltac:(discriminate)) as H0.
    pose proof (Hq PH_DOWN ltac:(discriminate)) as H1.
    pose proof (Hq NUTRIENT_A ltac:(discriminate)) as H2.
    pose proof (Hq NUTRIENT_B ltac:(discriminate)) as H3.
    apply Z.eqb_neq in H0, H1, H2, H3.
    rewrite H0, H1, H2, H3. reflexivity.
  - destruct (pump_stop_all_keeps w now) as [Hd Hp].
    destruct (device_part_system _ _ Hd) as (E1 & _ & E3 & _).
    auto.
Qed.

Lemma pump_stop_all_effects_witness :
  let w0 := snd (pump_ph_dose monitoring_world 300000 (F32.of_Z 7)
                   (F32.of_Z 20)) in
  let w1 := pump_update w0 300010 in
  ledc w1 PUMP_PH_DOWN_PIN = 63
  /\ ledc (pump_stop_all w1 300020) PUMP_PH_DOWN_PIN = 0.
Proof.
  intros w0 w1. split; [vm_compute; reflexivity|].
  assert (Hi : PH_DOWN <> COUNT) by discriminate.
  exact (proj2 (proj1 (pump_stop_all_effects w1 300020) PH_DOWN Hi)).
Defined.

Lemma can_dose_safely_mode_gate (w : world) (now : Z) (p : PumpId) :
  SystemState.eqb (system_state (state_manager w)) SystemState.MONITORING
  || SystemState.eqb (system_state (state_manager w)) SystemState.DOSING
  = false ->
  fst (can_dose_safely w now p) = false.
Proof.
  intros H. apply orb_false_elim in H. destruct H as [H1 H2].
  unfold can_dose_safely.
  destruct (negb (PumpState.eqb _ PumpState.IDLE)); [reflexivity|].
  destruct (_ <? PUMP_MIN_DOSE_INTERVAL); [reflexivity|].
  cbv zeta.
  destruct (_ >=? kHourMs); world_fields;
    (destruct (_ >=? PUMP_MAX_DOSES_PER_HOUR); [reflexivity|]);
    rewrite H1, H2; reflexivity.
Qed.

Lemma pump_manual_dose_needs_gate (w : world) (now : Z) (p : PumpId)
  (ml : float) :
  fst (can_dose_safely w now p) = false ->
  fst (pump_manual_dose w now p ml) = false.
Proof.
  intros H. unfold pump_manual_dose.
  destruct (_ || _); [reflexivity|].
  destruct (can_dose_safely w now p) as [ok w1]. cbn [fst] in H. subst ok.
  reflexivity.
Qed.

Lemma pump_ph_dose_needs_gate (w : world) (now : Z) (ph vol : float) :
  (forall p, fst (can_dose_safely w now p) = false) ->
  fst (pump_ph_dose w now ph vol) = false.
Proof.
  intros H. unfold pump_ph_dose.
  destruct (_ || _); [reflexivity|].
  destruct (_ || _); [reflexivity|].
  destruct (_ || _); [reflexivity|].
  match goal with
  | |- context [can_dose_safely w now ?q] =>
      pose proof (H q) as Hq; destruct (can_dose_safely w now q) as [ok w1]
  end.
  cbn [fst] in Hq. subst ok. reflexivity.
Qed.

(** X10. The emergency command of the main loop
    ([state_machine_emergency_stop] followed by [pump_stop_all]) leaves
    the device in ERROR, the sensor in READY, every pump IDLE with duty
    0 and [running = false].  In that world every dose request,
    manual or automatic, at any time, for any pump and amount, is
    refused.  The lock is lifted without an operator: the first
    [state_machine_update] more than 5000 ms after the stop returns
    the device to MONITORING, an earlier one leaves it in ERROR. *)
Theorem cli_emergency_stop_locks_dosing :
  forall (w : world) (now now' : Z),
    let w' := cli_emergency_stop w now now' in
    system_state (state_manager w') = SystemState.ERROR
    /\ system_state_entry_time (state_manager w') = now
    /\ sensor_state (state_manager w') = SensorState.READY
    /\ (forall i, i <> COUNT ->
          pump_view w' i
          = (PumpState.IDLE, now', with_running (get4 (pumps w) i) false)
          /\ ledc w' (gpio_pin (get4 (pumps w) i)) = 0)
    /\ (forall t p ml, fst (pump_manual_dose w' t p ml) = false)
    /\ (forall t ph vol, fst (pump_ph_dose w' t ph vol) = false)
    /\ (forall t,
          system_state (state_manager (state_machine_update w' t))
          = if u32_sub t now >? 5000
            then SystemState.MONITORING else SystemState.ERROR).
Proof.
  intros w now now' w'.
  set (w1 := with_state_manager w
               (state_machine_emergency_stop (state_manager w) now)).
  assert (Hw' : w' = pump_stop_all w1 now') by reflexivity.
  destruct (pump_stop_all_keeps w1 now') as [Hd _].
  rewrite <- Hw' in Hd.
  assert (Hsys : system_state (state_manager w') = SystemState.ERROR).
  { destruct (device_part_system _ _ Hd) as (E & _). rewrite E. reflexivity. }
  assert (Hent : system_state_entry_time (state_manager w') = now).
  { destruct (device_part_system _ _ Hd) as (_ & E & _). rewrite E.
    reflexivity. }
  assert (Hgate : forall t p, fst (can_dose_safely w' t p) = false).
  { intros t p. apply can_dose_safely_mode_gate. rewrite Hsys. reflexivity. }
  split; [exact Hsys|]. split; [exact Hent|].
  split.
  { destruct (device_part_system _ _ Hd) as (_ & _ & E & _). rewrite E.
    reflexivity. }
  split.
  { intros i Hi. rewrite Hw'. split.
    - apply (pump_stop_all_view w1 now' i Hi).
    - exact (pump_stop_all_pins_zero w1 now' i Hi). }
  split.
  { intros t p ml. apply pump_manual_dose_needs_gate, Hgate. }
  split.
  { intros t ph vol. apply pump_ph_dose_needs_gate. intros p. apply Hgate. }
  intros t.
  destruct (state_machine_update_system w' t) as [E _]. rewrite E.
  unfold error_recovery_sweep, system_transition_to,
    system_get_state_duration_ms.
  rewrite Hsys, Hent. cbn [SystemState.eqb is_valid_system_transition negb orb].
  destruct (u32_sub t now >? 5000); [reflexivity | exact Hsys].
Qed.

Lemma cli_emergency_stop_locks_dosing_witness :
  let w0 := snd (pump_ph_dose monitoring_world 300000 (F32.of_Z 7)
                   (F32.of_Z 20)) in
  let w1 := pump_update w0 300010 in
  let w2 := cli_emergency_stop w1 300020 300021 in
  ledc w1 PUMP_PH_DOWN_PIN = 63
  /\ ledc w2 PUMP_PH_DOWN_PIN = 0
  /\ fst (pump_manual_dose w2 700000 PH_UP (F32.of_Z 10)) = false.
Proof.
  intros w0 w1 w2. split; [vm_compute; reflexivity|].
  destruct (cli_emergency_stop_locks_dosing w1 300020 300021)
    as (_ & _ & _ & H4 & H5 & _).
  fold w2 in H4, H5.
  assert (Hi : PH_DOWN <> COUNT) by discriminate.
  split; [exact (proj2 (H4 PH_DOWN Hi)) | apply H5].
Defined.

Lemma pump_safety_check_one_view_same (now : Z) (w : world) (j : PumpId) :
  j <> COUNT ->
  pump_view (pump_safety_check_one now w j) j = safety_view now (pump_view w j).
Proof.
  intros Hj. unfold pump_safety_check_one, safety_view,
    pump_get_state_duration_ms, PUMP_TIMEOUT_MS.
  rewrite (pump_index_guard j Hj).
  rewrite (pump_view_eq w j). cbn [fst snd].
  destruct (get4 (pump_states (state_manager w)) j) eqn:E;
    try match goal with
      | |- context [if ?b then _ else _] => destruct b
      end;
    rewrite ?request_pump_transition_snd;
    rewrite ?(fun sm s => pump_transition_to_cases sm now j s Hj);
    world_fields; rewrite ?E; cbn [is_valid_pump_transition PumpState.eqb snd];
    rewrite pump_view_eq; world_fields;
    rewrite ?get4_set4_same by exact Hj; rewrite ?E; reflexivity.
Qed.

Lemma pump_safety_check_one_view_other (now : Z) (w : world) (i j : PumpId) :
  i <> j -> i <> COUNT ->
  pump_view (pump_safety_check_one now w j) i = pump_view w i.
Proof.
  intros Hij Hi. assert (Hji : j <> i) by congruence.
  unfold pump_safety_check_one.
  destruct (get4 (pump_states (state_manager w)) j) eqn:E;
    try match goal with
      | |- context [if ?b then _ else _] => destruct b
      end;
    rewrite ?request_pump_transition_snd;
    rewrite !pump_view_eq; world_fields;
    rewrite ?(get4_set4_other _ j i) by assumption;
    try reflexivity;
    match goal with
    | |- context [pump_transition_to ?sm now j ?s] =>
        pose proof (pump_transition_to_other sm now j i s Hji Hi) as Ho;
        unfold pump_slot in Ho; injection Ho as -> ->
    end;
    world_fields; reflexivity.
Qed.

Lemma pump_safety_check_one_channel (now : Z) (w : world) (j k : PumpId) :
  pwm_channel (get4 (pumps (pump_safety_check_one now w j)) k)
  = pwm_channel (get4 (pumps w) k).
Proof.
  unfold pump_safety_check_one.
  destruct (get4 (pump_states (state_manager w)) j) eqn:E;
    try match goal with
      | |- context [if ?b then _ else _] => destruct b
      end;
    rewrite ?request_pump_transition_snd; world_fields;
    try reflexivity;
    destruct (pumps w) as [p0 p1 p2 p3]; destruct j, k; reflexivity.
Qed.

Lemma pump_safety_check_one_ledc (now : Z) (w : world) (j : PumpId) (q : Z) :
  q <> pwm_channel (get4 (pumps w) j) ->
  ledc (pump_safety_check_one now w j) q = ledc w q.
Proof.
  intros Hq. apply Z.eqb_neq in Hq.
  unfold pump_safety_check_one.
  destruct (get4 (pump_states (state_manager w)) j) eqn:E;
    try match goal with
      | |- context [if ?b then _ else _] => destruct b
      end;
    rewrite ?request_pump_transition_snd; world_fields;
    rewrite ?Hq; reflexivity.
Qed.

Lemma pump_safety_check_ledc (w : world) (now : Z) (q : Z) :
  (forall j, j <> COUNT -> q <> pwm_channel (get4 (pumps w) j)) ->
  ledc (pump_safety_check w now) q = ledc w q.
Proof.
  intros Hq. unfold pump_safety_check.
  destruct (negb (initialized (pump_system w))); [reflexivity|].
  unfold all_pumps. cbn [fold_left].
  rewrite pump_safety_check_one_ledc
    by (rewrite !pump_safety_check_one_channel; apply Hq; discriminate).
  rewrite pump_safety_check_one_ledc
    by (rewrite !pump_safety_check_one_channel; apply Hq; discriminate).
  rewrite pump_safety_check_one_ledc
    by (rewrite !pump_safety_check_one_channel; apply Hq; discriminate).
  apply pump_safety_check_one_ledc. apply Hq. discriminate.
Qed.

Lemma pump_safety_check_view (w : world) (now : Z) (i : PumpId) :
  initialized (pump_system w) = true -> i <> COUNT ->
  pump_view (pump_safety_check w now) i = safety_view now (pump_view w i).
Proof.
  intros Hinit Hi. unfold pump_safety_check. rewrite Hinit. cbn [negb].
  apply (fold_all_pumps_view (fun _ => True) pump_view
           (pump_safety_check_one now) (safety_view now)); auto.
  - intros s a b _ Hab Ha _. apply pump_safety_check_one_view_other; assumption.
  - intros s j _ Hj. apply pump_safety_check_one_view_same, Hj.
Qed.

(** X11. [pump_safety_check], once the pump system is initialised:
    PRIMING for more than 5000 ms and DOSING for more than 600000 ms
    go to ERROR, ERROR for more than 30000 ms goes to IDLE, everything
    else is kept; the forced stop of a DOSING pump clears [running].
    The only pins it can write are those whose number is the
    [pwm_channel] of a pump: a pump whose [gpio_pin] is no pump's
    [pwm_channel] keeps its duty, also when it is forced from DOSING
    to ERROR. *)
Theorem pump_safety_check_effects :
  forall (w : world) (now : Z) (i : PumpId),
    initialized (pump_system w) = true -> i <> COUNT ->
    let w' := pump_safety_check w now in
    let s := get4 (pump_states (state_manager w)) i in
    let t := get4 (pump_state_entry_times (state_manager w)) i in
    let p := get4 (pumps w) i in
    pump_view w' i
    = match s with
      | PumpState.PRIMING =>
          if u32_sub now t >? 5000 then (PumpState.ERROR, now, p)
          else (s, t, p)
      | PumpState.DOSING =>
          if u32_sub now t >? 600000
          then (PumpState.ERROR, now, with_running p false)
          else (s, t, p)
      | PumpState.ERROR =>
          if u32_sub now t >? 30000 then (PumpState.IDLE, now, p)
          else (s, t, p)
      | _ => (s, t, p)
      end
    /\ (forall q,
          (forall j, j <> COUNT -> q <> pwm_channel (get4 (pumps w) j)) ->
          ledc w' q = ledc w q)
    /\ ((forall j, j <> COUNT -> gpio_pin p <> pwm_channel (get4 (pumps w) j)) ->
        ledc w' (gpio_pin p) = ledc w (gpio_pin p)).
Proof.
  intros w now i Hinit Hi w' s t p.
  split; [|split].
  - unfold w'. rewrite (pump_safety_check_view w now i Hinit Hi).
    rewrite pump_view_eq. fold s t p. unfold safety_view. cbn [fst snd].
    destruct s; reflexivity.
  - intros q Hq. apply pump_safety_check_ledc, Hq.
  - intros Hq. apply pump_safety_check_ledc, Hq.
Qed.

Lemma pump_safety_check_effects_witness :
  let w0 := snd (pump_ph_dose monitoring_world 300000 (F32.of_Z 7)
                   (F32.of_Z 20)) in
  let w1 := pump_update (pump_update (pump_update w0 300010) 302500) 302500 in
  let w2 := pump_safety_check w1 902501 in
  get4 (pump_states (state_manager w1)) PH_DOWN = PumpState.DOSING
  /\ ledc w1 PUMP_PH_DOWN_PIN = 92
  /\ get4 (pump_states (state_manager w2)) PH_DOWN = PumpState.ERROR
  /\ running (get4 (pumps w2) PH_DOWN) = false
  /\ ledc w2 PUMP_PH_DOWN_PIN = ledc w1 PUMP_PH_DOWN_PIN.
Proof.
  intros w0 w1 w2.
  split; [vm_compute; reflexivity|].
  split; [vm_compute; reflexivity|].
  split; [vm_compute; reflexivity|].
  split; [vm_compute; reflexivity|].
  assert (Hinit : initialized (pump_system w1) = true)
    by (vm_compute; reflexivity).
  assert (Hi : PH_DOWN <> COUNT) by discriminate.
  apply (proj2 (proj2 (pump_safety_check_effects w1 902501 PH_DOWN Hinit Hi))).
  intros j Hj. destruct j; try congruence; vm_compute; discriminate.
Defined.

(** ** Dose requests *)

(** What the gate can change: the controller of the pump asked about. *)
Lemma can_dose_safely_frame (w : world) (now : Z) (p : PumpId) :
  let g := snd (can_dose_safely w now p) in
  ledc g = ledc w
  /\ pump_system g = pump_system w
  /\ (forall i, i <> p -> i <> COUNT -> get4 (pumps g) i = get4 (pumps w) i)
  /\ gpio_pin (get4 (pumps g) p) = gpio_pin (get4 (pumps w) p)
  /\ pwm_channel (get4 (pumps g) p) = pwm_channel (get4 (pumps w) p)
  /\ running (get4 (pumps g) p) = running (get4 (pumps w) p)
  /\ (doses_this_hour (controller (get4 (pumps g) p))
      = doses_this_hour (controller (get4 (pumps w) p))
      \/ doses_this_hour (controller (get4 (pumps g) p)) = 0).
Proof.
  unfold can_dose_safely.
  destruct (negb (PumpState.eqb _ PumpState.IDLE)); [cbn [snd]; tauto|].
  destruct (_ <? PUMP_MIN_DOSE_INTERVAL); [cbn [snd]; tauto|].
  cbv zeta.
  assert (H : forall w1 : world,
    w1 = w \/ w1 = store_pump w p
                     (with_controller (get4 (pumps w) p)
                        (reset_hour (controller (get4 (pumps w) p)) now)) ->
    ledc w1 = ledc w
    /\ pump_system w1 = pump_system w
    /\ (forall i, i <> p -> i <> COUNT -> get4 (pumps w1) i = get4 (pumps w) i)
    /\ gpio_pin (get4 (pumps w1) p) = gpio_pin (get4 (pumps w) p)
    /\ pwm_channel (get4 (pumps w1) p) = pwm_channel (get4 (pumps w) p)
    /\ running (get4 (pumps w1) p) = running (get4 (pumps w) p)
    /\ (doses_this_hour (controller (get4 (pumps w1) p))
        = doses_this_hour (controller (get4 (pumps w) p))
        \/ doses_this_hour (controller (get4 (pumps w1) p)) = 0)).
  { intros w1 [-> | ->]; [tauto|].
    split; [reflexivity|]. split; [reflexivity|].
    split.
    { intros i Hip Hi. unfold store_pump. cbn [pumps with_pumps].
      apply get4_set4_other; congruence. }
    unfold store_pump. cbn [pumps with_pumps].
    destruct (pumps w) as [p0 p1 p2 p3].
    destruct p; cbn [get4 set4 at0 at1 at2 at3 with_controller gpio_pin
                     pwm_channel running controller reset_hour
                     doses_this_hour]; tauto. }
  destruct (_ >=? kHourMs);
    (destruct (_ >=? PUMP_MAX_DOSES_PER_HOUR); [cbn [snd]; apply H; tauto|]);
    (destruct (_ && _); cbn [snd]; apply H; tauto).
Qed.

(** A passing gate leaves the hourly counter below the limit. *)
Lemma can_dose_safely_true_count (w : world) (now : Z) (p : PumpId) :
  fst (can_dose_safely w now p) = true ->
  doses_this_hour (controller (get4 (pumps (snd (can_dose_safely w now p))) p))
  < 3.
Proof.
  unfold can_dose_safely.
  destruct (negb (PumpState.eqb _ PumpState.IDLE)); [discriminate|].
  destruct (_ <? PUMP_MIN_DOSE_INTERVAL); [discriminate|].
  cbv zeta.
  match goal with
  | |- context [if ?c >=? PUMP_MAX_DOSES_PER_HOUR then _ else _] =>
      destruct (c >=? PUMP_MAX_DOSES_PER_HOUR) eqn:E; [discriminate|]
  end.
  destruct (_ && _); [discriminate|].
  intros _. cbn [snd].
  unfold PUMP_MAX_DOSES_PER_HOUR in E. rewrite Z.geb_leb in E.
  apply Z.leb_gt in E. exact E.
Qed.

(** The world after an accepted dose of [dose_ml] for pump [p]. *)
Lemma start_pump_dose_view (w : world) (now : Z) (p : PumpId)
  (dose_ml flow_rate : float) :
  p <> COUNT ->
  get4 (pump_states (state_manager w)) p = PumpState.IDLE ->
  let w' := snd (start_pump_dose w now p dose_ml flow_rate) in
  let q := get4 (pumps w) p in
  fst (start_pump_dose w now p dose_ml flow_rate) = true
  /\ pump_view w' p
     = (PumpState.PRIMING, now,
        Build_pump (gpio_pin q) (pwm_channel q)
          (record_dose (controller q) now dose_ml) (running q) now
          (dose_run_duration dose_ml flow_rate) (calculate_pwm_duty flow_rate))
  /\ (forall i, i <> p -> i <> COUNT -> pump_view w' i = pump_view w i)
  /\ ledc w' = ledc w
  /\ pump_system w' = pump_system w
  /\ device_part (state_manager w') = device_part (state_manager w).
Proof.
  intros Hp Hidle w' q. subst w'.
  rewrite (start_pump_dose_from_idle_eq w now p dose_ml flow_rate Hp Hidle).
  cbv zeta. cbn [fst snd].
  split; [reflexivity|]. split; [|split; [|repeat split]].
  - rewrite pump_view_eq. world_fields.
    rewrite !get4_set4_same by exact Hp. reflexivity.
  - intros i Hip Hi. rewrite !pump_view_eq. world_fields.
    rewrite !(get4_set4_other _ p i) by congruence. reflexivity.
Qed.

Lemma pump_manual_dose_accepted (w : world) (now : Z) (p : PumpId) (ml : float) :
  p <> COUNT -> initialized (pump_system w) = true ->
  fst (can_dose_safely w now p) = true ->
  pump_manual_dose w now p ml
  = start_pump_dose (snd (can_dose_safely w now p)) now p
      (F32.constrain ml PUMP_MIN_DOSE_VOLUME PUMP_MAX_DOSE_VOLUME)
      PUMP_DEFAULT_FLOW_RATE.
Proof.
  intros Hp Hinit Hgate. unfold pump_manual_dose.
  change (pump_index COUNT) with 4.
  rewrite (pump_index_guard p Hp), Hinit. cbn [negb orb].
  destruct (can_dose_safely w now p) as [ok g]. cbn [fst] in Hgate.
  subst ok. reflexivity.
Qed.

Lemma pump_manual_dose_refused (w : world) (now : Z) (p : PumpId) (ml : float) :
  fst (pump_manual_dose w now p ml) = false ->
  snd (pump_manual_dose w now p ml) = w
  \/ snd (pump_manual_dose w now p ml) = snd (can_dose_safely w now p).
Proof.
  unfold pump_manual_dose. change (pump_index COUNT) with 4.
  destruct (pump_index p >=? 4) eqn:Ep; [left; reflexivity|].
  destruct (negb (initialized (pump_system w))); [left; reflexivity|].
  cbn [orb].
  assert (Hp : p <> COUNT) by (intros ->; discriminate Ep).
  pose proof (can_dose_safely_keeps_states w now p) as Hsm.
  pose proof (can_dose_safely_true_idle w now p) as Hidle.
  destruct (can_dose_safely w now p) as [ok g].
  cbn [fst snd] in *.
  destruct ok; cbn [negb]; [|right; reflexivity].
  intros H. exfalso.
  rewrite <- Hsm in Hidle.
  destruct (start_pump_dose_from_idle g now p
              (F32.constrain ml PUMP_MIN_DOSE_VOLUME PUMP_MAX_DOSE_VOLUME)
              PUMP_DEFAULT_FLOW_RATE Hp (Hidle eq_refl)) as [E _].
  rewrite E in H. discriminate H.
Qed.

Lemma pump_manual_dose_result (w : world) (now : Z) (p : PumpId) (ml : float) :
  fst (pump_manual_dose w now p ml)
  = negb (pump_index p >=? pump_index COUNT)
    && initialized (pump_system w) && fst (can_dose_safely w now p).
Proof.
  change (pump_index COUNT) with 4.
  destruct (pump_index p >=? 4) eqn:Ep.
  { unfold pump_manual_dose. change (pump_index COUNT) with 4.
    rewrite Ep. reflexivity. }
  assert (Hp : p <> COUNT) by (intros ->; discriminate Ep).
  destruct (initialized (pump_system w)) eqn:Hinit.
  2:{ unfold pump_manual_dose. change (pump_index COUNT) with 4.
      rewrite Ep, Hinit. reflexivity. }
  cbn [negb andb].
  destruct (fst (can_dose_safely w now p)) eqn:Hgate.
  - rewrite (pump_manual_dose_accepted w now p ml Hp Hinit Hgate).
    apply start_pump_dose_from_idle; [exact Hp|].
    rewrite can_dose_safely_keeps_states.
    apply (can_dose_safely_true_idle w now p Hgate).
  - apply pump_manual_dose_needs_gate, Hgate.
Qed.

Lemma pump_manual_dose_gate_and_view :
  forall (w : world) (now : Z) (p : PumpId) (ml : float),
    let r := pump_manual_dose w now p ml in
    let dose := F32.constrain ml PUMP_MIN_DOSE_VOLUME PUMP_MAX_DOSE_VOLUME in
    let q := get4 (pumps (snd (can_dose_safely w now p))) p in
    fst r
    = negb (pump_index p >=? pump_index COUNT)
      && initialized (pump_system w) && fst (can_dose_safely w now p)
    /\ ledc (snd r) = ledc w
    /\ (fst r = false -> state_manager (snd r) = state_manager w)
    /\ (fst r = true ->
        pump_view (snd r) p
        = (PumpState.PRIMING, now,
           Build_pump (gpio_pin q) (pwm_channel q)
             (record_dose (controller q) now dose) (running q) now
             (dose_run_duration dose PUMP_DEFAULT_FLOW_RATE)
             (calculate_pwm_duty PUMP_DEFAULT_FLOW_RATE)))
    /\ (forall i, i <> p -> i <> COUNT -> pump_view (snd r) i = pump_view w i).
Proof.
  intros w now p ml r dose q.
  pose proof (pump_manual_dose_result w now p ml) as Hres. fold r in Hres.
  pose proof (can_dose_safely_frame w now p) as Hf. cbv zeta in Hf.
  destruct Hf as (Hl & Hps & Hoth & _).
  pose proof (can_dose_safely_keeps_states w now p) as Hsm.
  split; [exact Hres|].
  destruct (fst r) eqn:Hr.
  - symmetry in Hres.
    apply andb_true_iff in Hres. destruct Hres as [Hres Hgate].
    apply andb_true_iff in Hres. destruct Hres as [Hidx Hinit].
    assert (Hp : p <> COUNT).
    { intros ->. discriminate Hidx. }
    assert (Er : r = start_pump_dose (snd (can_dose_safely w now p)) now p
                       dose PUMP_DEFAULT_FLOW_RATE)
      by (apply pump_manual_dose_accepted; assumption).
    assert (Hidle : get4 (pump_states
                            (state_manager (snd (can_dose_safely w now p)))) p
                    = PumpState.IDLE).
    { rewrite Hsm. apply (can_dose_safely_true_idle w now p Hgate). }
    destruct (start_pump_dose_view (snd (can_dose_safely w now p)) now p dose
                PUMP_DEFAULT_FLOW_RATE Hp Hidle)
      as (_ & Hv & Ho & Hl2 & _).
    rewrite <- Er in Hv, Ho, Hl2.
    split; [rewrite Hl2; exact Hl|].
    split; [discriminate|].
    split; [intros _; exact Hv|].
    intros i Hip Hi. rewrite (Ho i Hip Hi).
    rewrite !pump_view_eq, Hsm, (Hoth i Hip Hi). reflexivity.
  - destruct (pump_manual_dose_refused w now p ml Hr) as [E | E];
      fold r in E; rewrite E.
    + split; [reflexivity|]. split; [reflexivity|].
      split; [discriminate|]. reflexivity.
    + split; [exact Hl|]. split; [intros _; exact Hsm|].
      split; [discriminate|].
      intros i Hip Hi.
      rewrite !pump_view_eq, Hsm, (Hoth i Hip Hi). reflexivity.
Qed.

(** The pump asked about, after a passing gate. *)
Lemma can_dose_safely_true_fields (w : world) (now : Z) (p : PumpId) :
  p <> COUNT ->
  fst (can_dose_safely w now p) = true ->
  let q0 := get4 (pumps w) p in
  let c := controller q0 in
  let elapsed := 3600000 <=? u32_sub now (hour_start c) in
  let q := get4 (pumps (snd (can_dose_safely w now p))) p in
  doses_this_hour (controller q) = (if elapsed then 0 else doses_this_hour c)
  /\ doses_this_hour (controller q) < 3
  /\ hour_start (controller q) = (if elapsed then now else hour_start c)
  /\ last_dose_time (controller q) = last_dose_time c
  /\ total_ml_dosed (controller q) = total_ml_dosed c
  /\ kp (controller q) = kp c /\ ki (controller q) = ki c
  /\ kd (controller q) = kd c
  /\ target_value (controller q) = target_value c
  /\ integral (controller q) = integral c
  /\ last_error (controller q) = last_error c
  /\ gpio_pin q = gpio_pin q0 /\ pwm_channel q = pwm_channel q0
  /\ running q = running q0.
Proof.
  intros Hp Hgate q0 c elapsed q.
  pose proof (can_dose_safely_true_count w now p Hgate) as Hlt. fold q in Hlt.
  pose proof (can_dose_safely_cascade w now p Hp) as Hcan.
  cbv zeta in Hcan. fold q0 c elapsed in Hcan.
  assert (E : snd (can_dose_safely w now p)
              = if elapsed
                then store_pump w p (with_controller q0 (reset_hour c now))
                else w).
  { rewrite Hcan in Hgate |- *.
    destruct (negb (PumpState.eqb _ PumpState.IDLE)); [discriminate Hgate|].
    destruct (negb (300000 <=? _)); [discriminate Hgate|].
    cbv zeta in Hgate |- *.
    destruct (negb (_ <? 3)); [discriminate Hgate|].
    destruct (negb (_ || _)); [discriminate Hgate|]. reflexivity. }
  split; [|split; [exact Hlt|]]; unfold q; rewrite E; destruct elapsed;
    rewrite ?(get4_store_pump_same w p _ Hp);
    unfold with_controller, reset_hour;
    cbn [controller hour_start doses_this_hour kp ki kd target_value integral
         last_error last_dose_time total_ml_dosed gpio_pin pwm_channel running];
    repeat split.
Qed.

Lemma default_rate_duty : calculate_pwm_duty PUMP_DEFAULT_FLOW_RATE = 92.
Proof. vm_compute. reflexivity. Qed.

(** X12. [pump_manual_dose] returns [true] exactly when the index names
    a pump, the pump system is initialised and [can_dose_safely]
    passes.  It never writes a PWM duty.  An accepted dose puts the
    pump in PRIMING at the time of the call and books the amount
    clamped to [5, 25] ml.  The booking is written out against the
    world before the call: the last dose time and the start time are
    the time of the call; the hourly counter is the counter after the
    gate (0 once 3600000 ms have passed since the window start, the
    old one otherwise) plus one, in [uint8_t] arithmetic; the window
    start is the time of the call if the gate restarted it; the total
    is the old total plus the dose; the run time is
    [(dose / 30) * 60000] converted to [uint32_t] and capped at
    600000; the stored duty is 92; gains, target, integral, last
    error, pin, channel and running flag are as before.  A refused
    call leaves every machine state as it was.  The other pumps are
    untouched in both cases. *)
Theorem pump_manual_dose_accepted_iff_gate :
  forall (w : world) (now : Z) (p : PumpId) (ml : float),
    let r := pump_manual_dose w now p ml in
    let dose := F32.constrain ml PUMP_MIN_DOSE_VOLUME PUMP_MAX_DOSE_VOLUME in
    let q := get4 (pumps (snd (can_dose_safely w now p))) p in
    fst r
    = negb (pump_index p >=? pump_index COUNT)
      && initialized (pump_system w) && fst (can_dose_safely w now p)
    /\ ledc (snd r) = ledc w
    /\ (fst r = false -> state_manager (snd r) = state_manager w)
    /\ (fst r = true ->
        pump_view (snd r) p
        = (PumpState.PRIMING, now,
           Build_pump (gpio_pin q) (pwm_channel q)
             (record_dose (controller q) now dose) (running q) now
             (dose_run_duration dose PUMP_DEFAULT_FLOW_RATE)
             (calculate_pwm_duty PUMP_DEFAULT_FLOW_RATE)))
    /\ (forall i, i <> p -> i <> COUNT -> pump_view (snd r) i = pump_view w i)
    /\ (fst r = true ->
        let q0 := get4 (pumps w) p in
        let c := controller q0 in
        let elapsed := 3600000 <=? u32_sub now (hour_start c) in
        let count := if elapsed then 0 else doses_this_hour c in
        let q' := get4 (pumps (snd r)) p in
        let c' := controller q' in
        get4 (pump_states (state_manager (snd r))) p = PumpState.PRIMING
        /\ get4 (pump_state_entry_times (state_manager (snd r))) p = now
        /\ last_dose_time c' = now
        /\ doses_this_hour c' = (count + 1) mod 2 ^ 8
        /\ (0 <= doses_this_hour c -> doses_this_hour c' = count + 1)
        /\ hour_start c' = (if elapsed then now else hour_start c)
        /\ total_ml_dosed c'
           = F32.add (total_ml_dosed c)
               (F32.constrain ml (F32.of_Z 5) (F32.of_Z 25))
        /\ kp c' = kp c /\ ki c' = ki c /\ kd c' = kd c
        /\ target_value c' = target_value c
        /\ integral c' = integral c /\ last_error c' = last_error c
        /\ start_time q' = now
        /\ run_duration_ms q'
           = (let d :=
                F32.trunc
                  (F32.mul
                     (F32.div (F32.constrain ml (F32.of_Z 5) (F32.of_Z 25))
                        (F32.of_Z 30)) (F32.of_Z 60000)) mod 2 ^ 32 in
              if d >? 600000 then 600000 else d)
        /\ target_pwm_duty q' = 92
        /\ gpio_pin q' = gpio_pin q0 /\ pwm_channel q' = pwm_channel q0
        /\ running q' = running q0).
Proof.
  intros w now p ml r dose q.
  destruct (pump_manual_dose_gate_and_view w now p ml)
    as (H1 & H2 & H3 & H4 & H5).
  split; [exact H1|]. split; [exact H2|]. split; [exact H3|].
  split; [exact H4|]. split; [exact H5|].
  clear H1 H2 H3 H4 H5 q.
  intros Hr q0 c elapsed count q' c'.
  pose proof (pump_manual_dose_result w now p ml) as Hres. fold r in Hres.
  rewrite Hr in Hres. symmetry in Hres.
  apply andb_true_iff in Hres. destruct Hres as [Hres Hgate].
  apply andb_true_iff in Hres. destruct Hres as [Hidx Hinit].
  assert (Hp : p <> COUNT).
  { intros ->. discriminate Hidx. }
  assert (Er : r = start_pump_dose (snd (can_dose_safely w now p)) now p
                     dose PUMP_DEFAULT_FLOW_RATE)
    by (apply pump_manual_dose_accepted; assumption).
  assert (Hidle : get4 (pump_states
                          (state_manager (snd (can_dose_safely w now p)))) p
                  = PumpState.IDLE).
  { rewrite can_dose_safely_keeps_states.
    apply (can_dose_safely_true_idle w now p Hgate). }
  destruct (start_pump_dose_view (snd (can_dose_safely w now p)) now p dose
              PUMP_DEFAULT_FLOW_RATE Hp Hidle) as (_ & Hv & _).
  rewrite <- Er in Hv. rewrite pump_view_eq in Hv.
  pose proof (f_equal (fun v => fst (fst v)) Hv) as Hst.
  pose proof (f_equal (fun v => snd (fst v)) Hv) as Hen.
  pose proof (f_equal snd Hv) as Hq.
  cbv beta in Hst, Hen. cbn [fst snd] in Hst, Hen, Hq. clear Hv.
  destruct (can_dose_safely_true_fields w now p Hp Hgate)
    as (G1 & G2 & G3 & G4 & G5 & G6 & G7 & G8 & G9 & G10 & G11 & G12 & G13
        & G14).
  fold q0 c elapsed count in G1, G3, G4, G5, G6, G7, G8, G9, G10, G11, G12,
    G13, G14.
  unfold c', q'. rewrite Hq.
  unfold record_dose, u8_incr, dose_run_duration, to_uint32, PUMP_TIMEOUT_MS.
  cbn [controller hour_start doses_this_hour kp ki kd target_value integral
       last_error last_dose_time total_ml_dosed gpio_pin pwm_channel running
       start_time run_duration_ms target_pwm_duty].
  rewrite G1, G3, G5, G6, G7, G8, G9, G10, G11, G12, G13, G14,
    default_rate_duty.
  split; [exact Hst|]. split; [exact Hen|]. split; [reflexivity|].
  split; [reflexivity|].
  split.
  { intros H0. rewrite G1 in G2.
    assert (0 <= count) by (unfold count; destruct elapsed; lia).
    apply Z.mod_small. change (2 ^ 8) with 256. fold count in G2. lia. }
  repeat split.
Qed.

Lemma pump_manual_dose_accepted_iff_gate_witness :
  let r := pump_manual_dose monitoring_world 300000 PH_UP (F32.of_Z 10) in
  fst r = true
  /\ fst (fst (pump_view (snd r) PH_UP)) = PumpState.PRIMING
  /\ run_duration_ms (snd (pump_view (snd r) PH_UP)) = 20000
  /\ target_pwm_duty (snd (pump_view (snd r) PH_UP)) = 92
  /\ last_dose_time (controller (get4 (pumps (snd r)) PH_UP)) = 300000
  /\ doses_this_hour (controller (get4 (pumps (snd r)) PH_UP)) = 1
  /\ total_ml_dosed (controller (get4 (pumps (snd r)) PH_UP)) = F32.of_Z 10.
Proof.
  intros r.
  destruct (pump_manual_dose_accepted_iff_gate monitoring_world 300000 PH_UP
              (F32.of_Z 10)) as (H1 & _ & _ & H4 & _ & H6).
  fold r in H1, H4, H6.
  assert (Hr : fst r = true) by (rewrite H1; vm_compute; reflexivity).
  split; [exact Hr|].
  destruct (H6 Hr) as (_ & _ & B1 & B2 & _ & _ & B3 & _).
  rewrite (H4 Hr). cbn [fst snd run_duration_ms target_pwm_duty].
  split; [reflexivity|]. split; [vm_compute; reflexivity|].
  split; [vm_compute; reflexivity|].
  split; [exact B1|].
  split; [rewrite B2; vm_compute; reflexivity|].
  rewrite B3. vm_compute. reflexivity.
Defined.

Lemma pump_ph_dose_accepted (w : world) (now : Z) (ph vol : float) :
  initialized (pump_system w) = true ->
  auto_ph_control (pump_system w) = true ->
  F32.ltb vol (F32.of_Z 5) || F32.gtb vol (F32.of_Z 200) = false ->
  F32.ltb ph (F32.of_Z 4) || F32.gtb ph (F32.of_Z 9) = false ->
  let sel :=
    if F32.gtb ph (target_value (controller (get4 (pumps w) PH_UP)))
    then PH_DOWN else PH_UP in
  fst (can_dose_safely w now sel) = true ->
  let g := snd (can_dose_safely w now sel) in
  let d := calculate_pid_dose (controller (get4 (pumps g) sel)) ph vol in
  pump_ph_dose w now ph vol
  = start_pump_dose
      (store_pump g sel (with_controller (get4 (pumps g) sel) (snd d)))
      now sel (fst d) PUMP_DEFAULT_FLOW_RATE.
Proof.
  intros Hinit Hauto Hv Hp sel Hgate g d.
  unfold pump_ph_dose. rewrite Hinit, Hauto, Hv, Hp. cbn [negb orb].
  fold sel. subst d g.
  destruct (can_dose_safely w now sel) as [ok g]. cbn [fst] in Hgate.
  subst ok. cbn [negb snd].
  pose proof (calculate_pid_dose_not_below_min
                (controller (get4 (pumps g) sel)) ph vol) as Hmin.
  destruct (calculate_pid_dose (controller (get4 (pumps g) sel)) ph vol)
    as [dose_ml c].
  cbn [fst snd] in *. rewrite Hmin. reflexivity.
Qed.

Lemma pump_ph_dose_result (w : world) (now : Z) (ph vol : float) :
  let sel :=
    if F32.gtb ph (target_value (controller (get4 (pumps w) PH_UP)))
    then PH_DOWN else PH_UP in
  fst (pump_ph_dose w now ph vol)
  = initialized (pump_system w) && auto_ph_control (pump_system w)
    && negb (F32.ltb vol (F32.of_Z 5) || F32.gtb vol (F32.of_Z 200))
    && negb (F32.ltb ph (F32.of_Z 4) || F32.gtb ph (F32.of_Z 9))
    && fst (can_dose_safely w now sel).
Proof.
  intros sel.
  destruct (initialized (pump_system w)) eqn:Hinit.
  2:{ unfold pump_ph_dose. rewrite Hinit. reflexivity. }
  destruct (auto_ph_control (pump_system w)) eqn:Hauto.
  2:{ unfold pump_ph_dose. rewrite Hinit, Hauto. reflexivity. }
  destruct (F32.ltb vol (F32.of_Z 5) || F32.gtb vol (F32.of_Z 200)) eqn:Hv.
  { unfold pump_ph_dose. rewrite Hinit, Hauto, Hv. reflexivity. }
  destruct (F32.ltb ph (F32.of_Z 4) || F32.gtb ph (F32.of_Z 9)) eqn:Hp.
  { unfold pump_ph_dose. rewrite Hinit, Hauto, Hv, Hp. reflexivity. }
  cbn [negb andb].
  assert (Hsel : sel <> COUNT).
  { unfold sel. destruct (F32.gtb ph _); discriminate. }
  destruct (fst (can_dose_safely w now sel)) eqn:Hgate.
  - rewrite (pump_ph_dose_accepted w now ph vol Hinit Hauto Hv Hp Hgate).
    apply start_pump_dose_from_idle; [exact Hsel|].
    unfold store_pump. cbn [state_manager with_pumps].
    rewrite can_dose_safely_keeps_states.
    apply (can_dose_safely_true_idle w now sel Hgate).
  - unfold pump_ph_dose. rewrite Hinit, Hauto, Hv, Hp. cbn [negb orb].
    fold sel. destruct (can_dose_safely w now sel) as [ok g].
    cbn [fst] in Hgate. subst ok. reflexivity.
Qed.

Lemma pump_ph_dose_gates_and_view :
  forall (w : world) (now : Z) (ph vol : float),
    let r := pump_ph_dose w now ph vol in
    let sel :=
      if F32.gtb ph (target_value (controller (get4 (pumps w) PH_UP)))
      then PH_DOWN else PH_UP in
    let q := get4 (pumps (snd (can_dose_safely w now sel))) sel in
    let d := calculate_pid_dose (controller q) ph vol in
    fst r
    = initialized (pump_system w) && auto_ph_control (pump_system w)
      && negb (F32.ltb vol (F32.of_Z 5) || F32.gtb vol (F32.of_Z 200))
      && negb (F32.ltb ph (F32.of_Z 4) || F32.gtb ph (F32.of_Z 9))
      && fst (can_dose_safely w now sel)
    /\ (fst r = true ->
        pump_view (snd r) sel
        = (PumpState.PRIMING, now,
           Build_pump (gpio_pin q) (pwm_channel q)
             (record_dose (snd d) now (fst d)) (running q) now
             (dose_run_duration (fst d) PUMP_DEFAULT_FLOW_RATE)
             (calculate_pwm_duty PUMP_DEFAULT_FLOW_RATE))
        /\ ledc (snd r) = ledc w
        /\ (forall i, i <> sel -> i <> COUNT ->
              pump_view (snd r) i = pump_view w i)).
Proof.
  intros w now ph vol r sel q d.
  pose proof (pump_ph_dose_result w now ph vol) as Hres.
  cbv zeta in Hres. fold r sel in Hres.
  split; [exact Hres|].
  intros Hr. rewrite Hr in Hres. symmetry in Hres.
  apply andb_true_iff in Hres. destruct Hres as [Hres Hgate].
  apply andb_true_iff in Hres. destruct Hres as [Hres Hp].
  apply andb_true_iff in Hres. destruct Hres as [Hres Hv].
  apply andb_true_iff in Hres. destruct Hres as [Hinit Hauto].
  apply negb_true_iff in Hp, Hv.
  pose proof (pump_ph_dose_accepted w now ph vol Hinit Hauto Hv Hp Hgate)
    as Er.
  cbv zeta in Er. fold r sel q d in Er. fold sel in Hgate.
  assert (Hsel : sel <> COUNT).
  { unfold sel. destruct (F32.gtb ph _); discriminate. }
  pose proof (can_dose_safely_frame w now sel) as Hf. cbv zeta in Hf.
  destruct Hf as (Hl & Hps & Hoth & _).
  pose proof (can_dose_safely_keeps_states w now sel) as Hsm.
  set (g := snd (can_dose_safely w now sel)) in *.
  set (w2 := store_pump g sel (with_controller q (snd d))) in *.
  assert (Hidle : get4 (pump_states (state_manager w2)) sel = PumpState.IDLE).
  { unfold w2, store_pump. cbn [state_manager with_pumps]. rewrite Hsm.
    apply (can_dose_safely_true_idle w now sel Hgate). }
  destruct (start_pump_dose_view w2 now sel (fst d) PUMP_DEFAULT_FLOW_RATE
              Hsel Hidle) as (_ & Hv2 & Ho & Hl2 & _).
  rewrite <- Er in Hv2, Ho, Hl2.
  split; [|split].
  - rewrite Hv2. unfold w2, store_pump. cbn [pumps with_pumps].
    rewrite get4_set4_same by exact Hsel. reflexivity.
  - rewrite Hl2. exact Hl.
  - intros i Hip Hi. rewrite (Ho i Hip Hi).
    rewrite !pump_view_eq. unfold w2, store_pump.
    cbn [pumps with_pumps state_manager].
    rewrite (get4_set4_other _ sel i) by congruence.
    rewrite Hsm, (Hoth i Hip Hi). reflexivity.
Qed.

Lemma calculate_pid_dose_fields (a b : pid_controller_t) (ph vol : float) :
  kp a = kp b -> ki a = ki b -> kd a = kd b ->
  target_value a = target_value b -> integral a = integral b ->
  last_error a = last_error b ->
  fst (calculate_pid_dose a ph vol) = fst (calculate_pid_dose b ph vol)
  /\ integral (snd (calculate_pid_dose a ph vol))
     = F32.constrain (F32.add (integral b) (F32.sub (target_value b) ph))
         (F32.of_Z (-50)) (F32.of_Z 50)
  /\ last_error (snd (calculate_pid_dose a ph vol))
     = F32.sub (target_value b) ph.
Proof.
  intros H1 H2 H3 H4 H5 H6.
  unfold calculate_pid_dose, pid_scaled_output, pid_integral, pid_error.
  cbn [fst snd integral last_error].
  rewrite H1, H2, H3, H4, H5, H6. repeat split.
Qed.

(** X13. [pump_ph_dose] returns [true] exactly when the pump system is
    initialised, automatic control is on, the volume is not below 5
    or above 200, the pH is not below 4 or above 9, and
    [can_dose_safely] passes for the selected pump: PH_DOWN when the
    pH is above the target of PH_UP, PH_UP otherwise.  The size of the
    computed correction plays no part.  An accepted call puts the
    selected pump in PRIMING at the time of the call, writes no PWM
    duty and leaves the other pumps untouched.  What it books is
    written out against the world before the call: the dose is the
    one [calculate_pid_dose] computes from the controller; last dose
    time and start time are the time of the call; the hourly counter
    is the counter after the gate plus one, in [uint8_t] arithmetic;
    the window start is the time of the call if the gate restarted
    it; the total is the old total plus the dose; the integral is the
    old integral plus the error, clamped to [-50, 50]; the last error
    is target minus pH; the run time is [(dose / 30) * 60000]
    converted to [uint32_t] and capped at 600000; the stored duty is
    92; gains, target, pin, channel and running flag are as
    before. *)
Theorem pump_ph_dose_accepted_iff_gates :
  forall (w : world) (now : Z) (ph vol : float),
    let r := pump_ph_dose w now ph vol in
    let sel :=
      if F32.gtb ph (target_value (controller (get4 (pumps w) PH_UP)))
      then PH_DOWN else PH_UP in
    let q := get4 (pumps (snd (can_dose_safely w now sel))) sel in
    let d := calculate_pid_dose (controller q) ph vol in
    fst r
    = initialized (pump_system w) && auto_ph_control (pump_system w)
      && negb (F32.ltb vol (F32.of_Z 5) || F32.gtb vol (F32.of_Z 200))
      && negb (F32.ltb ph (F32.of_Z 4) || F32.gtb ph (F32.of_Z 9))
      && fst (can_dose_safely w now sel)
    /\ (fst r = true ->
        pump_view (snd r) sel
        = (PumpState.PRIMING, now,
           Build_pump (gpio_pin q) (pwm_channel q)
             (record_dose (snd d) now (fst d)) (running q) now
             (dose_run_duration (fst d) PUMP_DEFAULT_FLOW_RATE)
             (calculate_pwm_duty PUMP_DEFAULT_FLOW_RATE))
        /\ ledc (snd r) = ledc w
        /\ (forall i, i <> sel -> i <> COUNT ->
              pump_view (snd r) i = pump_view w i))
    /\ (fst r = true ->
        let q0 := get4 (pumps w) sel in
        let c := controller q0 in
        let dose := fst (calculate_pid_dose c ph vol) in
        let elapsed := 3600000 <=? u32_sub now (hour_start c) in
        let count := if elapsed then 0 else doses_this_hour c in
        let q' := get4 (pumps (snd r)) sel in
        let c' := controller q' in
        get4 (pump_states (state_manager (snd r))) sel = PumpState.PRIMING
        /\ get4 (pump_state_entry_times (state_manager (snd r))) sel = now
        /\ last_dose_time c' = now
        /\ doses_this_hour c' = (count + 1) mod 2 ^ 8
        /\ (0 <= doses_this_hour c -> doses_this_hour c' = count + 1)
        /\ hour_start c' = (if elapsed then now else hour_start c)
        /\ total_ml_dosed c' = F32.add (total_ml_dosed c) dose
        /\ kp c' = kp c /\ ki c' = ki c /\ kd c' = kd c
        /\ target_value c' = target_value c
        /\ integral c'
           = F32.constrain (F32.add (integral c) (F32.sub (target_value c) ph))
               (F32.of_Z (-50)) (F32.of_Z 50)
        /\ last_error c' = F32.sub (target_value c) ph
        /\ start_time q' = now
        /\ run_duration_ms q'
           = (let d :=
                F32.trunc
                  (F32.mul (F32.div dose (F32.of_Z 30)) (F32.of_Z 60000))
                mod 2 ^ 32 in
              if d >? 600000 then 600000 else d)
        /\ target_pwm_duty q' = 92
        /\ gpio_pin q' = gpio_pin q0 /\ pwm_channel q' = pwm_channel q0
        /\ running q' = running q0).
Proof.
  intros w now ph vol r sel q d.
  destruct (pump_ph_dose_gates_and_view w now ph vol) as (H1 & H2).
  split; [exact H1|]. split; [exact H2|].
  clear H1 H2 q d.
  intros Hr q0 c dose elapsed count q' c'.
  pose proof (pump_ph_dose_result w now ph vol) as Hres.
  cbv zeta in Hres. fold r sel in Hres.
  rewrite Hr in Hres. symmetry in Hres.
  apply andb_true_iff in Hres. destruct Hres as [Hres Hgate].
  apply andb_true_iff in Hres. destruct Hres as [Hres Hp].
  apply andb_true_iff in Hres. destruct Hres as [Hres Hv].
  apply andb_true_iff in Hres. destruct Hres as [Hinit Hauto].
  apply negb_true_iff in Hp, Hv.
  pose proof (pump_ph_dose_accepted w now ph vol Hinit Hauto Hv Hp Hgate)
    as Er.
  cbv zeta in Er. fold r sel in Er. fold sel in Hgate.
  assert (Hsel : sel <> COUNT).
  { unfold sel. destruct (F32.gtb ph (target_value _)); intros E;
      discriminate E. }
  pose proof (can_dose_safely_keeps_states w now sel) as Hsm.
  destruct (can_dose_safely_true_fields w now sel Hsel Hgate)
    as (G1 & G2 & G3 & G4 & G5 & G6 & G7 & G8 & G9 & G10 & G11 & G12 & G13
        & G14).
  fold q0 c elapsed count in G1, G3, G4, G5, G6, G7, G8, G9, G10, G11, G12,
    G13, G14.
  set (g := snd (can_dose_safely w now sel)) in *.
  set (q := get4 (pumps g) sel) in *.
  destruct (calculate_pid_dose_fields (controller q) c ph vol G6 G7 G8 G9 G10
              G11) as (D1 & D2 & D3).
  fold dose in D1.
  set (d := calculate_pid_dose (controller q) ph vol) in *.
  set (w2 := store_pump g sel (with_controller q (snd d))) in *.
  assert (Hidle : get4 (pump_states (state_manager w2)) sel = PumpState.IDLE).
  { unfold w2, store_pump. cbn [state_manager with_pumps]. rewrite Hsm.
    apply (can_dose_safely_true_idle w now sel Hgate). }
  destruct (start_pump_dose_view w2 now sel (fst d) PUMP_DEFAULT_FLOW_RATE
              Hsel Hidle) as (_ & Hv2 & _).
  rewrite <- Er in Hv2. rewrite pump_view_eq in Hv2.
  pose proof (f_equal (fun v => fst (fst v)) Hv2) as Hst.
  pose proof (f_equal (fun v => snd (fst v)) Hv2) as Hen.
  pose proof (f_equal snd Hv2) as Hq.
  cbv beta in Hst, Hen. cbn [fst snd] in Hst, Hen, Hq. clear Hv2.
  assert (Hq2 : get4 (pumps w2) sel = with_controller q (snd d)).
  { unfold w2. apply get4_store_pump_same, Hsel. }
  rewrite Hq2 in Hq.
  assert (Dk : kp (snd d) = kp (controller q)
               /\ ki (snd d) = ki (controller q)
               /\ kd (snd d) = kd (controller q)
               /\ target_value (snd d) = target_value (controller q)
               /\ last_dose_time (snd d) = last_dose_time (controller q)
               /\ doses_this_hour (snd d) = doses_this_hour (controller q)
               /\ hour_start (snd d) = hour_start (controller q)
               /\ total_ml_dosed (snd d) = total_ml_dosed (controller q)).
  { unfold d, calculate_pid_dose. cbn [snd kp ki kd target_value
      last_dose_time doses_this_hour hour_start total_ml_dosed].
    repeat split. }
  destruct Dk as (K1 & K2 & K3 & K4 & K5 & K6 & K7 & K8).
  unfold c', q'. rewrite Hq.
  unfold record_dose, u8_incr, dose_run_duration, to_uint32, PUMP_TIMEOUT_MS,
    with_controller.
  cbn [controller hour_start doses_this_hour kp ki kd target_value integral
       last_error last_dose_time total_ml_dosed gpio_pin pwm_channel running
       start_time run_duration_ms target_pwm_duty].
  rewrite K1, K2, K3, K4, K6, K7, K8, D1, D2, D3.
  rewrite G1, G3, G5, G6, G7, G8, G9, G12, G13, G14, default_rate_duty.
  split; [exact Hst|]. split; [exact Hen|]. split; [reflexivity|].
  split; [reflexivity|].
  split.
  { intros H0. rewrite G1 in G2.
    assert (0 <= count) by (unfold count; destruct elapsed; lia).
    apply Z.mod_small. change (2 ^ 8) with 256. fold count in G2. lia. }
  repeat split.
Qed.

Lemma pump_ph_dose_accepted_iff_gates_witness :
  let r := pump_ph_dose monitoring_world 300000 (F32.of_Z 7) (F32.of_Z 20) in
  fst r = true /\ ledc (snd r) = ledc monitoring_world
  /\ last_dose_time (controller (get4 (pumps (snd r)) PH_DOWN)) = 300000
  /\ doses_this_hour (controller (get4 (pumps (snd r)) PH_DOWN)) = 1
  /\ total_ml_dosed (controller (get4 (pumps (snd r)) PH_DOWN)) = F32.of_Z 21.
Proof.
  intros r.
  destruct (pump_ph_dose_accepted_iff_gates monitoring_world 300000
              (F32.of_Z 7) (F32.of_Z 20)) as (H1 & H2 & H3).
  fold r in H1, H2, H3.
  assert (Hr : fst r = true) by (rewrite H1; vm_compute; reflexivity).
  split; [exact Hr|].
  split; [exact (proj1 (proj2 (H2 Hr)))|].
  destruct (H3 Hr) as (_ & _ & B1 & B2 & _ & _ & B3 & _).
  split; [exact B1|].
  split; [refine (eq_trans B2 _); vm_compute; reflexivity|].
  refine (eq_trans B3 _). vm_compute. reflexivity.
Defined.

(** X14. The hourly counter stays within the limit: if every pump's
    [doses_this_hour] is between 0 and 3, it still is after any call
    of [pump_manual_dose] or [pump_ph_dose], accepted or refused. *)
Theorem hourly_counter_stays_within_limit :
  forall (w : world) (now : Z),
    (forall i, i <> COUNT ->
       0 <= doses_this_hour (controller (get4 (pumps w) i)) <= 3) ->
    (forall p ml i, i <> COUNT ->
       0 <= doses_this_hour
              (controller (get4 (pumps (snd (pump_manual_dose w now p ml))) i))
         <= 3)
    /\ (forall ph vol i, i <> COUNT ->
          0 <= doses_this_hour
                 (controller (get4 (pumps (snd (pump_ph_dose w now ph vol))) i))
            <= 3).
Proof.
  intros w now Hinv.
  assert (Hg : forall p i, i <> COUNT ->
    0 <= doses_this_hour
           (controller (get4 (pumps (snd (can_dose_safely w now p))) i)) <= 3).
  { intros p i Hi.
    pose proof (can_dose_safely_frame w now p) as Hf. cbv zeta in Hf.
    destruct Hf as (_ & _ & Hoth & _ & _ & _ & Hd).
    pose proof (Hinv i Hi) as Hwi.
    destruct p, i; try congruence;
      try (rewrite Hoth by (congruence || discriminate); exact Hwi);
      destruct Hd as [-> | ->]; try exact Hwi; lia. }
  assert (Hstart : forall p (g : world) dose,
    p <> COUNT ->
    (forall i, i <> COUNT ->
       0 <= doses_this_hour (controller (get4 (pumps g) i)) <= 3) ->
    doses_this_hour (controller (get4 (pumps g) p)) < 3 ->
    get4 (pump_states (state_manager g)) p = PumpState.IDLE ->
    forall i, i <> COUNT ->
      0 <= doses_this_hour
             (controller
                (get4 (pumps (snd (start_pump_dose g now p dose
                                     PUMP_DEFAULT_FLOW_RATE))) i)) <= 3).
  { intros p g dose Hp Hgi Hlt Hidle i Hi.
    destruct (start_pump_dose_view g now p dose PUMP_DEFAULT_FLOW_RATE
                Hp Hidle) as (_ & Hv & Ho & _).
    assert (Hcase : i = p \/ i <> p) by (destruct i, p; auto; right; discriminate).
    destruct Hcase as [-> | Hip].
    - rewrite pump_view_eq in Hv. injection Hv as _ _ ->.
      cbn [controller record_dose doses_this_hour]. unfold u8_incr.
      pose proof (Hgi p Hp) as Hb.
      rewrite Z.mod_small by (change (2 ^ 8) with 256; lia). lia.
    - pose proof (Ho i Hip Hi) as Hvi. rewrite !pump_view_eq in Hvi.
      injection Hvi as _ _ ->. apply Hgi, Hi. }
  split.
  - intros p ml i Hi.
    destruct (fst (pump_manual_dose w now p ml)) eqn:Hr.
    + pose proof (pump_manual_dose_result w now p ml) as Hres.
      rewrite Hr in Hres. symmetry in Hres.
      apply andb_true_iff in Hres. destruct Hres as [Hres Hgate].
      apply andb_true_iff in Hres. destruct Hres as [Hidx Hinit].
      assert (Hp : p <> COUNT).
      { intros ->. discriminate Hidx. }
      rewrite (pump_manual_dose_accepted w now p ml Hp Hinit Hgate).
      apply Hstart; try assumption.
      * intros j Hj. apply Hg, Hj.
      * apply can_dose_safely_true_count, Hgate.
      * rewrite can_dose_safely_keeps_states.
        apply (can_dose_safely_true_idle w now p Hgate).
    + destruct (pump_manual_dose_refused w now p ml Hr) as [-> | ->].
      * apply Hinv, Hi.
      * apply Hg, Hi.
  - intros ph vol i Hi.
    set (sel := if F32.gtb ph (target_value (controller (get4 (pumps w) PH_UP)))
                then PH_DOWN else PH_UP).
    assert (Hsel : sel <> COUNT).
    { unfold sel. destruct (F32.gtb ph _); discriminate. }
    destruct (fst (pump_ph_dose w now ph vol)) eqn:Hr.
    + pose proof (pump_ph_dose_result w now ph vol) as Hres.
      cbv zeta in Hres. fold sel in Hres.
      rewrite Hr in Hres. symmetry in Hres.
      apply andb_true_iff in Hres. destruct Hres as [Hres Hgate].
      apply andb_true_iff in Hres. destruct Hres as [Hres Hp].
      apply andb_true_iff in Hres. destruct Hres as [Hres Hv].
      apply andb_true_iff in Hres. destruct Hres as [Hinit Hauto].
      apply negb_true_iff in Hp, Hv.
      rewrite (pump_ph_dose_accepted w now ph vol Hinit Hauto Hv Hp Hgate).
      fold sel.
      set (g := snd (can_dose_safely w now sel)).
      assert (Hdoses : forall j, j <> COUNT ->
        doses_this_hour
          (controller
             (get4 (pumps
                      (store_pump g sel
                         (with_controller (get4 (pumps g) sel)
                            (snd (calculate_pid_dose
                                    (controller (get4 (pumps g) sel)) ph vol)))))
                j))
        = doses_this_hour (controller (get4 (pumps g) j))).
      { intros j Hj. unfold store_pump. cbn [pumps with_pumps].
        assert (Hcase : j = sel \/ sel <> j)
          by (destruct j, sel; auto; right; discriminate).
        destruct Hcase as [-> | Hne].
        - rewrite get4_set4_same by exact Hsel. reflexivity.
        - rewrite get4_set4_other by assumption. reflexivity. }
      apply Hstart; try assumption.
      * intros j Hj. rewrite (Hdoses j Hj). apply Hg, Hj.
      * rewrite (Hdoses sel Hsel). apply can_dose_safely_true_count, Hgate.
      * unfold store_pump. cbn [state_manager with_pumps]. unfold g.
        rewrite can_dose_safely_keeps_states.
        apply (can_dose_safely_true_idle w now sel Hgate).
    + revert Hr. unfold pump_ph_dose.
      destruct (_ || _); [intros _; apply Hinv, Hi|].
      destruct (_ || _); [intros _; apply Hinv, Hi|].
      destruct (_ || _); [intros _; apply Hinv, Hi|].
      fold sel.
      pose proof (Hg sel i Hi) as Hgi.
      pose proof (pump_ph_dose_accepted) as _.
      destruct (can_dose_safely w now sel) as [ok g] eqn:Eg.
      cbn [snd] in Hgi.
      destruct ok; cbn [negb]; [|intros _; exact Hgi].
      pose proof (calculate_pid_dose_not_below_min
                    (controller (get4 (pumps g) sel)) ph vol) as Hmin.
      destruct (calculate_pid_dose (controller (get4 (pumps g) sel)) ph vol)
        as [dose_ml c].
      cbn [fst] in Hmin. rewrite Hmin.
      intros Hr. exfalso.
      assert (Hidle : get4 (pump_states
                 (state_manager
                    (store_pump g sel
                       (with_controller (get4 (pumps g) sel) c)))) sel
              = PumpState.IDLE).
      { unfold store_pump. cbn [state_manager with_pumps].
        pose proof (can_dose_safely_keeps_states w now sel) as Hsm.
        pose proof (can_dose_safely_true_idle w now sel) as Hid.
        rewrite Eg in Hsm, Hid. cbn [fst snd] in Hsm, Hid.
        rewrite Hsm. apply Hid. reflexivity. }
      destruct (start_pump_dose_from_idle _ now sel dose_ml
                  PUMP_DEFAULT_FLOW_RATE Hsel Hidle) as [E _].
      rewrite E in Hr. discriminate Hr.
Qed.

Lemma hourly_counter_stays_within_limit_witness :
  let w1 := snd (pump_manual_dose monitoring_world 300000 PH_UP (F32.of_Z 10)) in
  doses_this_hour (controller (get4 (pumps w1) PH_UP)) = 1
  /\ 0 <= doses_this_hour
            (controller
               (get4 (pumps (snd (pump_manual_dose w1 900000 PH_UP
                                    (F32.of_Z 10)))) PH_UP)) <= 3.
Proof.
  intros w1. split; [vm_compute; reflexivity|].
  assert (Hinv : forall i, i <> COUNT ->
            0 <= doses_this_hour (controller (get4 (pumps w1) i)) <= 3).
  { intros i Hi. destruct i; try congruence; vm_compute;
      split; discriminate. }
  assert (Hi : PH_UP <> COUNT) by discriminate.
  exact (proj1 (hourly_counter_stays_within_limit w1 900000 Hinv) PH_UP
           (F32.of_Z 10) PH_UP Hi).
Defined.

(** ** Dose volumes and run times *)

(** A dose clamped to the limits is a positive normal number between
    5 and 25. *)
Lemma constrain_dose_domain (x : float) :
  valid x = true -> F32.is_nan x = false ->
  let c := F32.constrain x PUMP_MIN_DOSE_VOLUME PUMP_MAX_DOSE_VOLUME in
  pn (-21) (-19) c
  /\ ord c
     = Z.max (ord PUMP_MIN_DOSE_VOLUME)
         (Z.min (ord x) (ord PUMP_MAX_DOSE_VOLUME)).
Proof.
  intros Vx Nx c. subst c. unfold F32.constrain, F32.gtb.
  change (SFltb PUMP_MAX_DOSE_VOLUME x) with (F32.ltb PUMP_MAX_DOSE_VOLUME x).
  rewrite (ltb_ord x PUMP_MIN_DOSE_VOLUME Vx eq_refl Nx eq_refl).
  rewrite (ltb_ord PUMP_MAX_DOSE_VOLUME x eq_refl Vx eq_refl Nx).
  change (ord PUMP_MIN_DOSE_VOLUME) with 2174746624.
  change (ord PUMP_MAX_DOSE_VOLUME) with 2210922496.
  destruct (Z.ltb_spec (ord x) 2174746624) as [H1|H1].
  - split; [|change (ord PUMP_MIN_DOSE_VOLUME) with 2174746624; lia].
    exists 10485760%positive, (-21). repeat split; lia.
  - destruct (Z.ltb_spec 2210922496 (ord x)) as [H2|H2].
    + split; [|change (ord PUMP_MAX_DOSE_VOLUME) with 2210922496; lia].
      exists 13107200%positive, (-19). repeat split; lia.
    + split; [|lia].
      destruct x as [s|s| |s m e]; try discriminate;
        cbn [ord] in H1, H2; try lia.
      * destruct s; cbn [cond_Zopp] in *;
          change (2 ^ 40) with 1099511627776 in *; lia.
      * pose proof Vx as Vx'. unfold valid, F32.prec, F32.emax in Vx'.
        destruct (valid_finite_bounds s m e Vx') as [He Hm].
        pow_numerals.
        destruct s; cbn [cond_Zopp] in *; [lia|].
        exists m, e. split; [reflexivity|].
        split; [apply (valid_normal_digits m e); [exact Vx|lia]|lia].
Qed.

(** The run time before the conversion to [uint32_t]:
    [(dose_ml / 30.0f) * 60000]. *)
Lemma run_time_mono (x y : float) :
  pn (-21) (-19) x -> pn (-21) (-19) y -> ord x <= ord y ->
  F32.trunc (F32.mul (F32.div x PUMP_DEFAULT_FLOW_RATE) (F32.of_Z 60000))
  <= F32.trunc (F32.mul (F32.div y PUMP_DEFAULT_FLOW_RATE) (F32.of_Z 60000)).
Proof.
  intros Px Py Hxy.
  unfold F32.div, F32.mul, F32.prec, F32.emax.
  change PUMP_DEFAULT_FLOW_RATE with (S754_finite false 15728640 (-19)).
  change (F32.of_Z 60000) with (S754_finite false 15360000 (-8)).
  destruct (div_const_mono 15728640 (-19) (-21) (-19) x y eq_refl
              ltac:(lia) ltac:(lia) ltac:(lia) (or_intror Px) (or_intror Py)
              Hxy) as (M1 & R1x & P1x).
  destruct (div_const_mono 15728640 (-19) (-21) (-19) y y eq_refl
              ltac:(lia) ltac:(lia) ltac:(lia) (or_intror Py) (or_intror Py)
              ltac:(lia)) as (_ & R1y & P1y).
  specialize (P1x Px). specialize (P1y Py).
  set (x1 := SFdiv 24 128 x _) in *. set (y1 := SFdiv 24 128 y _) in *.
  change (-21 - -19 - 24) with (-26) in *.
  change (-19 - -19 - 22) with (-22) in *.
  destruct (mul_const_mono 15360000 (-8) (-26) (-22) x1 y1 eq_refl
              ltac:(lia) ltac:(lia) ltac:(lia) R1x R1y M1) as (M2 & _ & P2x).
  destruct (mul_const_mono 15360000 (-8) (-26) (-22) y1 y1 eq_refl
              ltac:(lia) ltac:(lia) ltac:(lia) R1y R1y ltac:(lia))
    as (_ & _ & P2y).
  specialize (P2x P1x). specialize (P2y P1y).
  change (-26 + -8 + 23) with (-11) in *.
  change (-22 + -8 + 25) with (-5) in *.
  apply (trunc_mono (-11) (-5)); [lia | exact P2x | exact P2y | exact M2].
Qed.

(** X15. A dose clamped to the limits lies between 5 and 25 ml and, at
    the dosing rate of 30 ml/min, is given a run time between 10000
    and 50000 ms, for every binary32 amount that is not NaN; the
    10-minute ceiling is never reached.  A larger request never gets a
    shorter run.  The run time is the one the code computes, with each
    binary32 operation rounded. *)
Theorem dose_run_time_between_10_and_50_seconds :
  forall x : float,
    valid x = true -> F32.is_nan x = false ->
    let dose := F32.constrain x PUMP_MIN_DOSE_VOLUME PUMP_MAX_DOSE_VOLUME in
    F32.leb PUMP_MIN_DOSE_VOLUME dose = true
    /\ F32.leb dose PUMP_MAX_DOSE_VOLUME = true
    /\ 10000 <= dose_run_duration dose PUMP_DEFAULT_FLOW_RATE <= 50000
    /\ (forall y : float,
          valid y = true -> F32.is_nan y = false -> F32.leb x y = true ->
          dose_run_duration dose PUMP_DEFAULT_FLOW_RATE
          <= dose_run_duration
               (F32.constrain y PUMP_MIN_DOSE_VOLUME PUMP_MAX_DOSE_VOLUME)
               PUMP_DEFAULT_FLOW_RATE).
Proof.
  intros x Vx Nx dose.
  destruct (constrain_dose_domain x Vx Nx) as [Pd Od]. fold dose in Pd, Od.
  change (ord PUMP_MIN_DOSE_VOLUME) with 2174746624 in Od.
  change (ord PUMP_MAX_DOSE_VOLUME) with 2210922496 in Od.
  assert (P5 : pn (-21) (-19) PUMP_MIN_DOSE_VOLUME).
  { exists 10485760%positive, (-21). repeat split; lia. }
  assert (P25 : pn (-21) (-19) PUMP_MAX_DOSE_VOLUME).
  { exists 13107200%positive, (-19). repeat split; lia. }
  assert (Hrange : forall z, pn (-21) (-19) z ->
            2174746624 <= ord z <= 2210922496 ->
            10000 <= dose_run_duration z PUMP_DEFAULT_FLOW_RATE <= 50000
            /\ dose_run_duration z PUMP_DEFAULT_FLOW_RATE
               = F32.trunc (F32.mul (F32.div z PUMP_DEFAULT_FLOW_RATE)
                              (F32.of_Z 60000))).
  { intros z Pz Oz.
    pose proof (run_time_mono PUMP_MIN_DOSE_VOLUME z P5 Pz) as T1.
    pose proof (run_time_mono z PUMP_MAX_DOSE_VOLUME Pz P25) as T2.
    change (ord PUMP_MIN_DOSE_VOLUME) with 2174746624 in T1.
    change (ord PUMP_MAX_DOSE_VOLUME) with 2210922496 in T2.
    specialize (T1 ltac:(lia)). specialize (T2 ltac:(lia)).
    change (F32.trunc (F32.mul (F32.div PUMP_MIN_DOSE_VOLUME
                                  PUMP_DEFAULT_FLOW_RATE) (F32.of_Z 60000)))
      with 10000 in T1.
    change (F32.trunc (F32.mul (F32.div PUMP_MAX_DOSE_VOLUME
                                  PUMP_DEFAULT_FLOW_RATE) (F32.of_Z 60000)))
      with 50000 in T2.
    unfold dose_run_duration, to_uint32, PUMP_TIMEOUT_MS.
    set (t := F32.trunc _) in *.
    rewrite Z.mod_small by (change (2 ^ 32) with 4294967296; lia).
    destruct (Z.gtb_spec t 600000); lia. }
  assert (Vd : valid dose = true).
  { unfold dose, F32.constrain. case_ifs; try exact Vx; reflexivity. }
  assert (Nd : F32.is_nan dose = false).
  { destruct Pd as (m & e & -> & _). reflexivity. }
  split; [|split; [|split]].
  - unfold F32.leb, SFleb.
    rewrite (SFcompare_ord PUMP_MIN_DOSE_VOLUME dose eq_refl Vd eq_refl Nd).
    change (ord PUMP_MIN_DOSE_VOLUME) with 2174746624.
    destruct (Z.compare_spec 2174746624 (ord dose)); try reflexivity; lia.
  - unfold F32.leb, SFleb.
    rewrite (SFcompare_ord dose PUMP_MAX_DOSE_VOLUME Vd eq_refl Nd eq_refl).
    change (ord PUMP_MAX_DOSE_VOLUME) with 2210922496.
    destruct (Z.compare_spec (ord dose) 2210922496); try reflexivity; lia.
  - apply (Hrange dose Pd). lia.
  - intros y Vy Ny Hxy.
    destruct (constrain_dose_domain y Vy Ny) as [Py Oy].
    change (ord PUMP_MIN_DOSE_VOLUME) with 2174746624 in Oy.
    change (ord PUMP_MAX_DOSE_VOLUME) with 2210922496 in Oy.
    destruct (leb_ord x y Vx Vy Hxy) as (_ & _ & Hord).
    destruct (Hrange dose Pd ltac:(lia)) as [_ ->].
    destruct (Hrange _ Py ltac:(lia)) as [_ ->].
    apply run_time_mono; [exact Pd | exact Py | lia].
Qed.

Lemma dose_run_time_between_10_and_50_seconds_witness :
  10000 <= dose_run_duration
             (F32.constrain (F32.of_Z 100) PUMP_MIN_DOSE_VOLUME
                PUMP_MAX_DOSE_VOLUME) PUMP_DEFAULT_FLOW_RATE <= 50000.
Proof.
  assert (V : valid (F32.of_Z 100) = true) by reflexivity.
  assert (N : F32.is_nan (F32.of_Z 100) = false) by reflexivity.
  exact (proj1 (proj2 (proj2
           (dose_run_time_between_10_and_50_seconds (F32.of_Z 100) V N)))).
Defined.

(** ** The controller *)

(** X16. [calculate_pid_dose] never returns a dose below the minimum of
    5 ml.  When the scaled output is not NaN the dose lies in
    [5, 25] ml, and when the summed error is not NaN the stored
    integral lies in [-50, 50].  The call stores the current error as
    [last_error] and leaves gains, target, dose time, hourly counter,
    window start and total as they were. *)
Theorem calculate_pid_dose_within_limits :
  forall (pid : pid_controller_t) (current_value volume_liters : float),
    let r := calculate_pid_dose pid current_value volume_liters in
    F32.ltb (fst r) PUMP_MIN_DOSE_VOLUME = false
    /\ (F32.is_nan (pid_scaled_output pid current_value volume_liters) = false ->
        F32.leb PUMP_MIN_DOSE_VOLUME (fst r) = true
        /\ F32.leb (fst r) PUMP_MAX_DOSE_VOLUME = true)
    /\ (F32.is_nan (F32.add (integral pid) (pid_error pid current_value))
        = false ->
        F32.leb PID_INTEGRAL_MIN (integral (snd r)) = true
        /\ F32.leb (integral (snd r)) PID_INTEGRAL_MAX = true)
    /\ last_error (snd r) = F32.sub (target_value pid) current_value
    /\ kp (snd r) = kp pid /\ ki (snd r) = ki pid /\ kd (snd r) = kd pid
    /\ target_value (snd r) = target_value pid
    /\ last_dose_time (snd r) = last_dose_time pid
    /\ doses_this_hour (snd r) = doses_this_hour pid
    /\ hour_start (snd r) = hour_start pid
    /\ total_ml_dosed (snd r) = total_ml_dosed pid.
Proof.
  intros pid cur vol r.
  split; [apply calculate_pid_dose_not_below_min|].
  split.
  { intros Hn. unfold r, calculate_pid_dose. cbn [fst].
    apply constrain_in_range; try assumption; reflexivity. }
  split.
  { intros Hn. unfold r, calculate_pid_dose. cbn [snd integral].
    unfold pid_integral.
    apply constrain_in_range; try assumption; reflexivity. }
  unfold r, calculate_pid_dose. cbn [snd last_error kp ki kd target_value
    last_dose_time doses_this_hour hour_start total_ml_dosed].
  repeat split.
Qed.

Lemma calculate_pid_dose_within_limits_witness :
  let c := controller (get4 (pumps monitoring_world) PH_DOWN) in
  let r := calculate_pid_dose c (F32.of_Z 9) (F32.of_Z 200) in
  F32.leb (F32.of_Z 26) (pid_scaled_output c (F32.of_Z 9) (F32.of_Z 200)) = true
  /\ F32.leb (fst r) PUMP_MAX_DOSE_VOLUME = true.
Proof.
  intros c r. split; [vm_compute; reflexivity|].
  assert (Hn : F32.is_nan (pid_scaled_output c (F32.of_Z 9) (F32.of_Z 200))
               = false) by (vm_compute; reflexivity).
  exact (proj2 (proj1 (proj2 (calculate_pid_dose_within_limits c (F32.of_Z 9)
                                (F32.of_Z 200))) Hn)).
Defined.

(** X17. [pump_set_ph_pid] stores in all four controllers the gains
    clamped to [0.1, 50], [0, 5] and [0, 10], resets the integral to 0
    and keeps [last_error], target and counters; [pump_get_ph_pid]
    then returns the clamped gains.  Machine states and outputs are
    untouched.  For a gain that is not NaN the stored value lies
    within its bounds. *)
Theorem pump_set_ph_pid_stores_clamped :
  forall (w : world) (kp' ki' kd' : float),
    let w' := pump_set_ph_pid w kp' ki' kd' in
    let a := F32.constrain kp' gain_0_1 (F32.of_Z 50) in
    let b := F32.constrain ki' (F32.of_Z 0) (F32.of_Z 5) in
    let c := F32.constrain kd' (F32.of_Z 0) (F32.of_Z 10) in
    (forall i, i <> COUNT ->
       let q := controller (get4 (pumps w) i) in
       controller (get4 (pumps w') i)
       = Build_pid_controller a b c (target_value q) (F32.of_Z 0)
           (last_error q) (last_dose_time q) (doses_this_hour q)
           (hour_start q) (total_ml_dosed q))
    /\ pump_get_ph_pid w' = (a, b, c)
    /\ state_manager w' = state_manager w
    /\ ledc w' = ledc w
    /\ (F32.is_nan kp' = false ->
        F32.leb gain_0_1 a = true /\ F32.leb a (F32.of_Z 50) = true)
    /\ (F32.is_nan ki' = false ->
        F32.leb (F32.of_Z 0) b = true /\ F32.leb b (F32.of_Z 5) = true)
    /\ (F32.is_nan kd' = false ->
        F32.leb (F32.of_Z 0) c = true /\ F32.leb c (F32.of_Z 10) = true).
Proof.
  intros w kp' ki' kd' w' a b c.
  split; [|split; [|split; [|split; [|split; [|split]]]]].
  - intros i Hi q. subst w' q. unfold pump_set_ph_pid, retune. fold a b c.
    destruct i; try congruence; reflexivity.
  - reflexivity.
  - reflexivity.
  - reflexivity.
  - intros Hn. apply constrain_in_range; try assumption; reflexivity.
  - intros Hn. apply constrain_in_range; try assumption; reflexivity.
  - intros Hn. apply constrain_in_range; try assumption; reflexivity.
Qed.

Lemma pump_set_ph_pid_stores_clamped_witness :
  pump_get_ph_pid
    (pump_set_ph_pid monitoring_world (F32.of_Z 80) (F32.of_Z (-1))
       (F32.of_Z 3))
  = (F32.of_Z 50, F32.of_Z 0, F32.of_Z 3)
  /\ F32.leb
       (kp (controller
              (get4 (pumps (pump_set_ph_pid monitoring_world (F32.of_Z 80)
                              (F32.of_Z (-1)) (F32.of_Z 3))) NUTRIENT_A)))
       (F32.of_Z 50) = true.
Proof.
  split; [vm_compute; reflexivity|].
  assert (Hi : NUTRIENT_A <> COUNT) by discriminate.
  destruct (pump_set_ph_pid_stores_clamped monitoring_world (F32.of_Z 80)
              (F32.of_Z (-1)) (F32.of_Z 3)) as (H1 & _ & _ & _ & H5 & _).
  rewrite (H1 NUTRIENT_A Hi). cbn [kp].
  apply H5. reflexivity.
Defined.

(** X18. [pump_reset_counters] sets, for every pump, the hourly counter
    to 0, the window start to the time of the call and integral and
    last error to 0; gains, target, last dose time and total are kept.
    Afterwards the count gate of [can_dose_safely] is open: the gate
    passes exactly when the pump is IDLE, the last dose is at least
    300000 ms old and the device is in MONITORING or DOSING. *)
Theorem pump_reset_counters_reopens_count_gate :
  forall (w : world) (now : Z),
    let w' := pump_reset_counters w now in
    (forall i, i <> COUNT ->
       let q := controller (get4 (pumps w) i) in
       controller (get4 (pumps w') i)
       = Build_pid_controller (kp q) (ki q) (kd q) (target_value q)
           (F32.of_Z 0) (F32.of_Z 0) (last_dose_time q) 0 now
           (total_ml_dosed q))
    /\ state_manager w' = state_manager w
    /\ ledc w' = ledc w
    /\ (forall t p, p <> COUNT ->
          fst (can_dose_safely w' t p)
          = PumpState.eqb (get4 (pump_states (state_manager w)) p)
              PumpState.IDLE
            && (300000 <=? u32_sub t
                             (last_dose_time (controller (get4 (pumps w) p))))
            && (SystemState.eqb (system_state (state_manager w))
                  SystemState.MONITORING
                || SystemState.eqb (system_state (state_manager w))
                     SystemState.DOSING)).
Proof.
  intros w now w'.
  assert (H1 : forall i, i <> COUNT ->
       let q := controller (get4 (pumps w) i) in
       controller (get4 (pumps w') i)
       = Build_pid_controller (kp q) (ki q) (kd q) (target_value q)
           (F32.of_Z 0) (F32.of_Z 0) (last_dose_time q) 0 now
           (total_ml_dosed q)).
  { intros i Hi q. subst w' q. unfold pump_reset_counters, reset_counters.
    destruct i; try congruence; reflexivity. }
  split; [exact H1|]. split; [reflexivity|]. split; [reflexivity|].
  intros t p Hp.
  rewrite (can_dose_safely_cascade w' t p Hp). cbv zeta.
  rewrite (H1 p Hp). cbn [doses_this_hour last_dose_time hour_start].
  change (state_manager w') with (state_manager w).
  destruct (PumpState.eqb (get4 (pump_states (state_manager w)) p)
              PumpState.IDLE); [|reflexivity].
  destruct (300000 <=? u32_sub t
              (last_dose_time (controller (get4 (pumps w) p))));
    [|reflexivity].
  cbn [negb andb].
  destruct (3600000 <=? u32_sub t now); cbn [Z.ltb Z.compare negb];
    destruct (SystemState.eqb (system_state (state_manager w))
                SystemState.MONITORING
              || SystemState.eqb (system_state (state_manager w))
                   SystemState.DOSING); reflexivity.
Qed.

Lemma pump_reset_counters_reopens_count_gate_witness :
  let w :=
    store_pump monitoring_world PH_UP
      (with_controller (get4 (pumps monitoring_world) PH_UP)
         (Build_pid_controller (F32.of_Z 8) (F32.of_Z 0) (F32.of_Z 0)
            (F32.of_Z 6) (F32.of_Z 0) (F32.of_Z 0) 0 3 0 (F32.of_Z 0))) in
  fst (can_dose_safely w 400000 PH_UP) = false
  /\ fst (can_dose_safely (pump_reset_counters w 400000) 400001 PH_UP) = true.
Proof.
  intros w. split; [vm_compute; reflexivity|].
  assert (Hp : PH_UP <> COUNT) by discriminate.
  rewrite (proj2 (proj2 (proj2
             (pump_reset_counters_reopens_count_gate w 400000)))
             400001 PH_UP Hp).
  vm_compute. reflexivity.
Defined.

(** ** Manual start and stop *)

(** X19. [pump_start_manual] returns [false] in every world, for every
    pump and rate, and leaves the machine states, every PWM duty and
    the pump-system flags as they were; of the pump records nothing
    but the stored target duty can differ. *)
Theorem pump_start_manual_only_stores_duty :
  forall (w : world) (now : Z) (p : PumpId) (ml_per_min : float),
    let r := pump_start_manual w now p ml_per_min in
    fst r = false
    /\ state_manager (snd r) = state_manager w
    /\ ledc (snd r) = ledc w
    /\ pump_system (snd r) = pump_system w
    /\ (forall i,
          let q := get4 (pumps w) i in
          let q' := get4 (pumps (snd r)) i in
          gpio_pin q' = gpio_pin q /\ pwm_channel q' = pwm_channel q
          /\ controller q' = controller q /\ running q' = running q
          /\ start_time q' = start_time q
          /\ run_duration_ms q' = run_duration_ms q).
Proof.
  intros w now p rate r.
  split; [apply pump_start_manual_never_succeeds|].
  subst r. unfold pump_start_manual. change (pump_index COUNT) with 4.
  destruct (pump_index p >=? 4) eqn:Hguard; [cbn [orb snd]; tauto|].
  destruct (negb (initialized (pump_system w))); [cbn [orb snd]; tauto|].
  cbv [orb].
  destruct (get4 (pump_states (state_manager w)) p) eqn:Hst;
    cbv [PumpState.eqb negb]; try (cbn [snd]; tauto).
  set (duty := calculate_pwm_duty _).
  set (w1 := store_pump w p _).
  unfold request_pump_transition, pump_transition_to.
  change (state_manager w1) with (state_manager w).
  rewrite Hguard, Hst. cbv [is_valid_pump_transition PumpState.eqb negb].
  cbn [snd].
  split; [reflexivity|]. split; [reflexivity|]. split; [reflexivity|].
  intros i. subst w1. unfold store_pump, with_target_pwm_duty.
  cbn [pumps with_pumps with_state_manager].
  destruct (pumps w) as [p0 p1 p2 p3].
  destruct p, i; cbn [get4 set4 at0 at1 at2 at3 gpio_pin pwm_channel
                      controller running start_time run_duration_ms]; tauto.
Qed.

(** X20. [pump_stop_manual] on a valid pump returns [true], writes duty
    0 to the pin of that pump and to no other pin, clears [running],
    start time and planned run time, and keeps the controller: the
    dose that was booked at the start stays booked (last dose time,
    hourly counter, total).  DOSING becomes COOLING_DOWN, PRIMING
    stays PRIMING, every other state becomes IDLE.  The other pumps
    are untouched. *)
Theorem pump_stop_manual_keeps_bookkeeping :
  forall (w : world) (now : Z) (p : PumpId),
    p <> COUNT ->
    let w' := snd (pump_stop_manual w now p) in
    let q := get4 (pumps w) p in
    fst (pump_stop_manual w now p) = true
    /\ ledc w' (gpio_pin q) = 0
    /\ (forall x, x <> gpio_pin q -> ledc w' x = ledc w x)
    /\ get4 (pumps w') p
       = Build_pump (gpio_pin q) (pwm_channel q) (controller q) false 0 0
           (target_pwm_duty q)
    /\ get4 (pump_states (state_manager w')) p
       = match get4 (pump_states (state_manager w)) p with
         | PumpState.DOSING => PumpState.COOLING_DOWN
         | PumpState.PRIMING => PumpState.PRIMING
         | _ => PumpState.IDLE
         end
    /\ (forall i, i <> p -> i <> COUNT -> pump_view w' i = pump_view w i).
Proof.
  intros w now p Hp w' q.
  destruct (pump_stop_manual_effects w now p Hp) as (H1 & H2 & _ & H4).
  fold w' q in H2, H4.
  split; [exact H1|]. split; [exact H2|].
  assert (E : exists s,
    w' = with_state_manager
           (store_pump (ledcWrite (gpio_pin q) 0 w) p
              (Build_pump (gpio_pin q) (pwm_channel q) (controller q) false 0 0
                 (target_pwm_duty q)))
           (snd (pump_transition_to (state_manager w) now p s))).
  { subst w'. unfold pump_stop_manual.
    change (pump_index COUNT) with 4.
    rewrite (pump_index_guard p Hp). cbv zeta. cbn [snd].
    match goal with
    | |- context [if ?c then _ else _] => destruct c
    end; eexists; rewrite request_pump_transition_snd; reflexivity. }
  destruct E as [s E]. clearbody w'. subst w'.
  split; [|split; [|split; [exact H4|]]].
  - intros x Hx. apply Z.eqb_neq in Hx. world_fields. rewrite Hx. reflexivity.
  - world_fields. apply get4_set4_same, Hp.
  - intros i Hip Hi. rewrite !pump_view_eq. world_fields.
    rewrite get4_set4_other by congruence.
    pose proof (pump_transition_to_other (state_manager w) now p i s
                  ltac:(congruence) Hi) as Ho.
    unfold pump_slot in Ho. injection Ho as -> ->. reflexivity.
Qed.

Lemma pump_stop_manual_keeps_bookkeeping_witness :
  let w0 := snd (pump_ph_dose monitoring_world 300000 (F32.of_Z 7)
                   (F32.of_Z 20)) in
  let w1 := pump_update (pump_update w0 300010) 302500 in
  let w2 := snd (pump_stop_manual w1 310000 PH_DOWN) in
  get4 (pump_states (state_manager w1)) PH_DOWN = PumpState.DOSING
  /\ get4 (pump_states (state_manager w2)) PH_DOWN = PumpState.COOLING_DOWN
  /\ doses_this_hour (controller (get4 (pumps w2) PH_DOWN)) = 1.
Proof.
  intros w0 w1 w2.
  assert (Hs : get4 (pump_states (state_manager w1)) PH_DOWN
               = PumpState.DOSING) by (vm_compute; reflexivity).
  split; [exact Hs|].
  assert (Hp : PH_DOWN <> COUNT) by discriminate.
  destruct (pump_stop_manual_keeps_bookkeeping w1 310000 PH_DOWN Hp)
    as (_ & _ & _ & H4 & H5 & _).
  fold w2 in H4, H5.
  split.
  - rewrite H5, Hs. reflexivity.
  - rewrite H4. vm_compute. reflexivity.
Defined.

(** ** Start-up *)

Lemma pump_init_pump (w : world) (now : Z) (i : PumpId) :
  i <> COUNT ->
  get4 (pumps (pump_init w now)) i
  = Build_pump (get4 gpio_pins i) 0 (pid_controller_default now) false 0 0 0.
Proof. intros Hi. destruct i; try congruence; reflexivity. Qed.

(** X21. After [pump_init], from any world: the pump system is
    initialised and the other flags and the state manager are as
    before; PH_UP, PH_DOWN, NUTRIENT_A and NUTRIENT_B sit on the pins
    11, 12, 13 and 14, pairwise different, each with duty 0; every
    pump has channel 0, is not running, has start time, run time and
    target duty 0, and a controller with gains 8, 0.5 and 2, target
    6, integral and last error 0, last dose time 0, hourly counter 0,
    total 0 and the hourly window started at the time of the call, so
    counters and totals of an earlier run are gone; every pin other
    than the four is as before.  A pass of [pump_update] on that
    world keeps duty 0 and [running = false] on every pump that is
    IDLE. *)
Theorem pump_init_postconditions :
  forall (w : world) (now : Z),
    let w' := pump_init w now in
    initialized (pump_system w') = true
    /\ auto_ph_control (pump_system w') = auto_ph_control (pump_system w)
    /\ auto_ec_control (pump_system w') = auto_ec_control (pump_system w)
    /\ state_manager w' = state_manager w
    /\ gpio_pin (get4 (pumps w') PH_UP) = 11
    /\ gpio_pin (get4 (pumps w') PH_DOWN) = 12
    /\ gpio_pin (get4 (pumps w') NUTRIENT_A) = 13
    /\ gpio_pin (get4 (pumps w') NUTRIENT_B) = 14
    /\ (forall i, i <> COUNT ->
          let q := get4 (pumps w') i in
          let c := controller q in
          ledc w' (gpio_pin q) = 0
          /\ pwm_channel q = 0 /\ running q = false
          /\ start_time q = 0 /\ run_duration_ms q = 0
          /\ target_pwm_duty q = 0
          /\ kp c = F32.of_Z 8
          /\ ki c = S754_finite false 8388608 (-24)
          /\ kd c = F32.of_Z 2
          /\ target_value c = F32.of_Z 6
          /\ integral c = F32.of_Z 0 /\ last_error c = F32.of_Z 0
          /\ last_dose_time c = 0 /\ doses_this_hour c = 0
          /\ hour_start c = now
          /\ total_ml_dosed c = F32.of_Z 0)
    /\ pins_distinct w'
    /\ (forall x, x <> 11 -> x <> 12 -> x <> 13 -> x <> 14 ->
          ledc w' x = ledc w x)
    /\ (forall t i, i <> COUNT ->
          get4 (pump_states (state_manager w)) i = PumpState.IDLE ->
          ledc (pump_update w' t) (gpio_pin (get4 (pumps w') i)) = 0
          /\ running (get4 (pumps (pump_update w' t)) i) = false).
Proof.
  intros w now w'.
  assert (Hki : DEFAULT_PH_KI = S754_finite false 8388608 (-24))
    by (vm_compute; reflexivity).
  assert (Hpump : forall i, i <> COUNT ->
            get4 (pumps w') i
            = Build_pump (get4 gpio_pins i) 0 (pid_controller_default now)
                false 0 0 0)
    by (intros i Hi; apply pump_init_pump, Hi).
  assert (Hpins : pins_distinct w').
  { intros i j Hi Hj Hij. rewrite (Hpump i Hi), (Hpump j Hj). cbn [gpio_pin].
    destruct i, j; try congruence; intros E; vm_compute in E;
      discriminate E. }
  assert (Hzero : forall i, i <> COUNT ->
            ledc w' (gpio_pin (get4 (pumps w') i)) = 0).
  { intros i Hi. rewrite (Hpump i Hi). cbn [gpio_pin].
    destruct i; try congruence; reflexivity. }
  split; [reflexivity|]. split; [reflexivity|]. split; [reflexivity|].
  split; [reflexivity|].
  split; [reflexivity|]. split; [reflexivity|]. split; [reflexivity|].
  split; [reflexivity|].
  split.
  { intros i Hi q c. split; [apply Hzero, Hi|].
    unfold c, q. rewrite (Hpump i Hi).
    unfold pid_controller_default.
    cbn [controller pwm_channel running start_time run_duration_ms
         target_pwm_duty kp ki kd target_value integral last_error
         last_dose_time doses_this_hour hour_start total_ml_dosed].
    rewrite Hki. repeat split. }
  split; [exact Hpins|].
  split.
  { intros x H0 H1 H2 H3.
    apply Z.eqb_neq in H0, H1, H2, H3.
    unfold w', pump_init, all_pumps.
    cbn [fold_left ledc with_pump_system ledcWrite store_pump with_pumps
         gpio_pin pumps].
    change (get4 gpio_pins PH_UP) with 11.
    change (get4 gpio_pins PH_DOWN) with 12.
    change (get4 gpio_pins NUTRIENT_A) with 13.
    change (get4 gpio_pins NUTRIENT_B) with 14.
    rewrite H0, H1, H2, H3. reflexivity. }
  intros t i Hi Hidle.
  assert (Hinit : initialized (pump_system w') = true) by reflexivity.
  assert (Hst : get4 (pump_states (state_manager w')) i = PumpState.IDLE)
    by exact Hidle.
  pose proof (pump_update_view w' t i Hinit Hi) as V.
  pose proof (pump_update_ledc w' t i Hinit Hpins Hi) as L.
  rewrite (pump_view_eq w' i) in V, L. rewrite Hst in V, L.
  unfold sequencer_view in V. unfold sequencer_duty in L.
  cbn [fst snd] in V, L.
  split; [exact L|].
  pose proof (f_equal snd V) as Vq. rewrite pump_view_eq in Vq.
  cbn [snd] in Vq. rewrite Vq. reflexivity.
Qed.

Lemma pump_init_postconditions_witness :
  hour_start (controller (get4 (pumps (pump_init boot_world 7)) PH_DOWN)) = 7
  /\ ledc (pump_init boot_world 7) 12 = 0
  /\ ledc (pump_update (pump_init boot_world 7) 9) 12 = 0.
Proof.
  assert (Hi : PH_DOWN <> COUNT) by discriminate.
  destruct (pump_init_postconditions boot_world 7)
    as (_ & _ & _ & _ & _ & P & _ & _ & H & _ & _ & U).
  destruct (H PH_DOWN Hi)
    as (L & _ & _ & _ & _ & _ & _ & _ & _ & _ & _ & _ & _ & _ & S & _).
  rewrite P in L.
  split; [exact S|]. split; [exact L|].
  destruct (U 9 PH_DOWN Hi eq_refl) as [U1 _].
  rewrite P in U1. exact U1.
Defined.

Lemma can_dose_safely_needs_spacing (w : world) (now : Z) (p : PumpId) :
  u32_sub now (last_dose_time (controller (get4 (pumps w) p))) < 300000 ->
  fst (can_dose_safely w now p) = false.
Proof.
  intros H. unfold can_dose_safely.
  destruct (negb (PumpState.eqb _ PumpState.IDLE)); [reflexivity|].
  unfold PUMP_MIN_DOSE_INTERVAL.
  apply Z.ltb_lt in H. rewrite H. reflexivity.
Qed.

(** X22. After [pump_init] no dose is accepted while [millis()] is
    below 300000: the controllers start with [last_dose_time = 0], so
    the spacing gate refuses every manual and automatic request in
    the first five minutes after boot, with automatic control on or
    off. *)
Theorem no_dose_in_first_five_minutes :
  forall (w : world) (t0 now : Z),
    0 <= now < 300000 ->
    let w' := pump_init w t0 in
    (forall p ml, fst (pump_manual_dose w' now p ml) = false)
    /\ (forall ph vol, fst (pump_ph_dose w' now ph vol) = false)
    /\ (forall p ml ph vol b,
          fst (pump_manual_dose (pump_enable_auto_ph w' b) now p ml) = false
          /\ fst (pump_ph_dose (pump_enable_auto_ph w' b) now ph vol) = false).
Proof.
  intros w t0 now Hnow w'.
  assert (Hu : u32_sub now 0 < 300000).
  { unfold u32_sub. rewrite Z.sub_0_r.
    rewrite Z.mod_small by (change (2 ^ 32) with 4294967296; lia). lia. }
  assert (Hg : forall p, p <> COUNT -> fst (can_dose_safely w' now p) = false).
  { intros p Hp. apply can_dose_safely_needs_spacing.
    unfold w'. rewrite (pump_init_pump w t0 p Hp). exact Hu. }
  assert (Hg2 : forall b p, p <> COUNT ->
            fst (can_dose_safely (pump_enable_auto_ph w' b) now p) = false).
  { intros b p Hp. apply can_dose_safely_needs_spacing.
    replace (last_dose_time
               (controller (get4 (pumps (pump_enable_auto_ph w' b)) p)))
      with 0; [exact Hu|].
    destruct b, p; try congruence; reflexivity. }
  assert (Hm : forall (x : world) p ml,
            (forall p, p <> COUNT -> fst (can_dose_safely x now p) = false) ->
            fst (pump_manual_dose x now p ml) = false).
  { intros x p ml Hx.
    rewrite pump_manual_dose_result. change (pump_index COUNT) with 4.
    destruct (pump_index p >=? 4) eqn:Ep; [reflexivity|].
    rewrite Hx by (intros ->; discriminate Ep).
    apply andb_false_r. }
  assert (Ha : forall (x : world) ph vol,
            (forall p, p <> COUNT -> fst (can_dose_safely x now p) = false) ->
            fst (pump_ph_dose x now ph vol) = false).
  { intros x ph vol Hx.
    pose proof (pump_ph_dose_result x now ph vol) as R. cbv zeta in R.
    rewrite R. rewrite Hx; [apply andb_false_r|].
    clear R. destruct (F32.gtb ph (target_value _)); intros E; discriminate E. }
  split; [intros p ml; apply Hm, Hg|].
  split; [intros ph vol; apply Ha, Hg|].
  intros p ml ph vol b. split; [apply Hm, Hg2 | apply Ha, Hg2].
Qed.

Lemma no_dose_in_first_five_minutes_witness :
  fst (pump_manual_dose (pump_init boot_world 0) 299999 PH_UP (F32.of_Z 10))
  = false.
Proof.
  assert (H : 0 <= 299999 < 300000) by lia.
  exact (proj1 (no_dose_in_first_five_minutes boot_world 0 299999 H) PH_UP
           (F32.of_Z 10)).
Defined.

(** X23. [setup()], entered with the state manager of the constructor,
    ends with the device in MONITORING, the sensor in READY, the
    calibration IDLE, all four pumps IDLE, logging on, each entry time
    that of the call that set it; the pump system is initialised with
    every pump output 0, and automatic control is as it was. *)
Theorem setup_reaches_monitoring :
  forall (w : world) (t0 t1 t2 t3 t4 t5 : Z),
    state_manager w = state_manager_default t0 ->
    let w' := setup w t1 t2 t3 t4 t5 in
    state_manager w'
    = Build_state_manager SystemState.MONITORING (fill4 PumpState.IDLE)
        SensorState.READY CalibrationState.IDLE t5 (fill4 t1) t3 t1 true
    /\ initialized (pump_system w') = true
    /\ auto_ph_control (pump_system w') = auto_ph_control (pump_system w)
    /\ (forall i, i <> COUNT ->
          get4 (pumps w') i
          = Build_pump (get4 gpio_pins i) 0 (pid_controller_default t4) false
              0 0 0
          /\ ledc w' (get4 gpio_pins i) = 0).
Proof.
  intros w t0 t1 t2 t3 t4 t5 Hsm w'.
  assert (E : state_manager w'
    = Build_state_manager SystemState.MONITORING (fill4 PumpState.IDLE)
        SensorState.READY CalibrationState.IDLE t5 (fill4 t1) t3 t1 true).
  { unfold w', setup. rewrite Hsm. reflexivity. }
  split; [exact E|].
  split; [reflexivity|]. split; [reflexivity|].
  intros i Hi. split.
  - exact (pump_init_pump _ t4 i Hi).
  - destruct i; try congruence; reflexivity.
Qed.

Lemma setup_reaches_monitoring_witness :
  system_state (state_manager (setup boot_world 10 20 30 40 50))
  = SystemState.MONITORING.
Proof.
  assert (H : state_manager boot_world = state_manager_default 0)
    by reflexivity.
  rewrite (proj1 (setup_reaches_monitoring boot_world 0 10 20 30 40 50 H)).
  reflexivity.
Defined.

(** ** The callers in the main loop *)

Lemma start_pump_dose_device_part (w : world) (now : Z) (p : PumpId)
  (dose_ml flow_rate : float) :
  device_part (state_manager (snd (start_pump_dose w now p dose_ml flow_rate)))
  = device_part (state_manager w).
Proof.
  unfold start_pump_dose.
  destruct (pump_index p >=? pump_index COUNT); [reflexivity|].
  destruct (negb (PumpState.eqb _ PumpState.IDLE)); [reflexivity|].
  cbv zeta. unfold request_pump_transition.
  set (w1 := store_pump w p _).
  change (state_manager w1) with (state_manager w).
  pose proof (pump_transition_to_device_part (state_manager w) now p
                PumpState.PRIMING) as H.
  destruct (pump_transition_to (state_manager w) now p PumpState.PRIMING)
    as [ok sm].
  cbn [snd] in H. destruct ok; cbn [negb snd]; exact H.
Qed.

Lemma pump_ph_dose_device_part (w : world) (now : Z) (ph vol : float) :
  device_part (state_manager (snd (pump_ph_dose w now ph vol)))
  = device_part (state_manager w).
Proof.
  unfold pump_ph_dose.
  destruct (_ || _); [reflexivity|].
  destruct (_ || _); [reflexivity|].
  destruct (_ || _); [reflexivity|].
  match goal with
  | |- context [can_dose_safely w now ?q] =>
      pose proof (can_dose_safely_keeps_states w now q) as Hsm;
      destruct (can_dose_safely w now q) as [ok g]
  end.
  cbn [snd] in Hsm.
  destruct ok; cbn [negb snd]; [|rewrite Hsm; reflexivity].
  match goal with
  | |- context [calculate_pid_dose ?c ph vol] =>
      destruct (calculate_pid_dose c ph vol) as [dose_ml c']
  end.
  destruct (F32.ltb dose_ml PUMP_MIN_DOSE_VOLUME).
  - cbn [snd]. unfold store_pump. cbn [state_manager with_pumps].
    rewrite Hsm. reflexivity.
  - rewrite start_pump_dose_device_part.
    unfold store_pump. cbn [state_manager with_pumps].
    rewrite Hsm. reflexivity.
Qed.

(** X24. The automatic dosing step of [loop()], entered with the device
    in MONITORING or DOSING, always leaves the device in MONITORING,
    stamped with the time of the last of its three calls, whether or
    not a dose was started.  The device-mode gate cannot refuse in
    this step: the step returns [true] exactly when the pump system is
    initialised, automatic control is on, volume and pH are in range,
    and the selected pump is IDLE, its last dose at least 300000 ms
    old and its hourly count below 3. *)
Theorem loop_auto_ph_dose_mode_gate_open :
  forall (w : world) (t1 now t3 : Z) (ph vol : float),
    system_state (state_manager w) = SystemState.MONITORING
    \/ system_state (state_manager w) = SystemState.DOSING ->
    let r := loop_auto_ph_dose w t1 now t3 ph vol in
    let sel :=
      if F32.gtb ph (target_value (controller (get4 (pumps w) PH_UP)))
      then PH_DOWN else PH_UP in
    let c := controller (get4 (pumps w) sel) in
    system_state (state_manager (snd r)) = SystemState.MONITORING
    /\ system_state_entry_time (state_manager (snd r)) = t3
    /\ fst r
       = initialized (pump_system w) && auto_ph_control (pump_system w)
         && negb (F32.ltb vol (F32.of_Z 5) || F32.gtb vol (F32.of_Z 200))
         && negb (F32.ltb ph (F32.of_Z 4) || F32.gtb ph (F32.of_Z 9))
         && (PumpState.eqb (get4 (pump_states (state_manager w)) sel)
               PumpState.IDLE
             && (300000 <=? u32_sub now (last_dose_time c))
             && ((if 3600000 <=? u32_sub now (hour_start c)
                  then 0 else doses_this_hour c) <? 3)).
Proof.
  intros w t1 now t3 ph vol Hsys r sel c.
  set (w1 := with_state_manager w
               (snd (system_transition_to (state_manager w) t1
                       SystemState.DOSING))).
  assert (Hw1 : system_state (state_manager w1) = SystemState.DOSING).
  { unfold w1, system_transition_to.
    destruct Hsys as [E | E]; rewrite E; [reflexivity|].
    cbn [is_valid_system_transition SystemState.eqb negb orb snd
         with_state_manager state_manager]. exact E. }
  assert (Hslots : pump_states (state_manager w1)
                   = pump_states (state_manager w)).
  { unfold w1, system_transition_to.
    destruct (negb (is_valid_system_transition _ _)); reflexivity. }
  assert (Er : r = (fst (pump_ph_dose w1 now ph vol),
                    with_state_manager (snd (pump_ph_dose w1 now ph vol))
                      (snd (system_transition_to
                              (state_manager (snd (pump_ph_dose w1 now ph vol)))
                              t3 SystemState.MONITORING)))).
  { unfold r, loop_auto_ph_dose. fold w1.
    destruct (pump_ph_dose w1 now ph vol); reflexivity. }
  rewrite Er. cbn [fst snd state_manager with_state_manager].
  destruct (device_part_system _ _ (pump_ph_dose_device_part w1 now ph vol))
    as (E1 & _).
  rewrite Hw1 in E1.
  assert (Hsel : sel <> COUNT).
  { unfold sel. destruct (F32.gtb ph (target_value _)); intros E;
      discriminate E. }
  split; [|split].
  - unfold system_transition_to. rewrite E1. reflexivity.
  - unfold system_transition_to. rewrite E1. reflexivity.
  - pose proof (pump_ph_dose_result w1 now ph vol) as R. cbv zeta in R.
    change (pumps w1) with (pumps w) in R.
    change (pump_system w1) with (pump_system w) in R.
    fold sel in R. rewrite R.
    rewrite (can_dose_safely_cascade w1 now sel Hsel). cbv zeta.
    change (pumps w1) with (pumps w). fold c.
    rewrite Hw1, Hslots. cbn [SystemState.eqb orb].
    destruct (PumpState.eqb (get4 (pump_states (state_manager w)) sel)
                PumpState.IDLE); [|reflexivity].
    destruct (300000 <=? u32_sub now (last_dose_time c)); [|reflexivity].
    cbn [negb andb].
    destruct (3600000 <=? u32_sub now (hour_start c));
      destruct (_ <? 3); reflexivity.
Qed.

Lemma loop_auto_ph_dose_mode_gate_open_witness :
  let r := loop_auto_ph_dose monitoring_world 300000 300001 300005
             (F32.of_Z 7) (F32.of_Z 20) in
  fst r = true
  /\ system_state (state_manager (snd r)) = SystemState.MONITORING.
Proof.
  intros r.
  assert (Hsys : system_state (state_manager monitoring_world)
                 = SystemState.MONITORING
                 \/ system_state (state_manager monitoring_world)
                    = SystemState.DOSING) by (left; reflexivity).
  destruct (loop_auto_ph_dose_mode_gate_open monitoring_world 300000 300001
              300005 (F32.of_Z 7) (F32.of_Z 20) Hsys) as (H1 & _ & H3).
  fold r in H1, H3.
  split; [|exact H1].
  rewrite H3. vm_compute. reflexivity.
Defined.














(** X26. The calibration commands end with the device in MONITORING
    from every device state but STARTUP and SHUTDOWN, which they leave
    as they are: CALIBRATING is entered from MONITORING only, and the
    closing transition to MONITORING is accepted from DOSING, ERROR
    and MAINTENANCE as well.  A calibration command therefore ends an
    ERROR state, also the one of the emergency stop, and maintenance
    mode.  The calibration machine is IDLE afterwards; pump states,
    pump records and outputs are untouched. *)
Theorem cli_calibrate_ends_in_monitoring :
  forall (w : world) (t1 t2 t3 t4 : Z),
    let w' := cli_calibrate w t1 t2 t3 t4 in
    system_state (state_manager w')
    = match system_state (state_manager w) with
      | SystemState.STARTUP => SystemState.STARTUP
      | SystemState.SHUTDOWN => SystemState.SHUTDOWN
      | _ => SystemState.MONITORING
      end
    /\ calibration_state (state_manager w') = CalibrationState.IDLE
    /\ calibration_state_entry_time (state_manager w') = t3
    /\ pump_states (state_manager w') = pump_states (state_manager w)
    /\ pump_state_entry_times (state_manager w')
       = pump_state_entry_times (state_manager w)
    /\ pumps w' = pumps w /\ ledc w' = ledc w
    /\ (forall s0 s1,
          system_state
            (state_manager (cli_calibrate (cli_emergency_stop w s0 s1)
                              t1 t2 t3 t4)) = SystemState.MONITORING).
Proof.
  intros w t1 t2 t3 t4 w'. subst w'.
  assert (H : forall x : world,
    system_state (state_manager (cli_calibrate x t1 t2 t3 t4))
    = match system_state (state_manager x) with
      | SystemState.STARTUP => SystemState.STARTUP
      | SystemState.SHUTDOWN => SystemState.SHUTDOWN
      | _ => SystemState.MONITORING
      end
    /\ calibration_state (state_manager (cli_calibrate x t1 t2 t3 t4))
       = CalibrationState.IDLE
    /\ calibration_state_entry_time
         (state_manager (cli_calibrate x t1 t2 t3 t4)) = t3
    /\ pump_states (state_manager (cli_calibrate x t1 t2 t3 t4))
       = pump_states (state_manager x)
    /\ pump_state_entry_times (state_manager (cli_calibrate x t1 t2 t3 t4))
       = pump_state_entry_times (state_manager x)).
  { intros [[sys ps sen cal tsys tps tsen tcal dbg] pp psys l].
    unfold cli_calibrate, calibration_transition_to, system_transition_to.
    destruct sys; cbn; repeat split. }
  destruct (H w) as (H1 & H2 & H3 & H4 & H5).
  split; [exact H1|]. split; [exact H2|]. split; [exact H3|].
  split; [exact H4|]. split; [exact H5|].
  split; [reflexivity|]. split; [reflexivity|].
  intros s0 s1.
  destruct (H (cli_emergency_stop w s0 s1)) as (E1 & _). rewrite E1.
  destruct (pump_stop_all_keeps
              (with_state_manager w
                 (state_machine_emergency_stop (state_manager w) s0)) s1)
    as [Hd _].
  destruct (device_part_system _ _ Hd) as (E & _).
  change (pump_stop_all _ s1) with (cli_emergency_stop w s0 s1) in E.
  rewrite E. reflexivity.
Qed.
